(** * submission-processor: dispatcher and processor workflows

    A shallow embedding of [src/app.js] (the Kafka data handler),
    [src/services/ProcessorService.js] ([processCreate], [processScan]) and
    [src/common/helper.js] ([reqToSubmissionAPI], [getreviewTypeId],
    [downloadFile], [moveFile]).

    The JavaScript is written as generators that [yield] calls to
    collaborators (S3, HTTP, the token service) and call fire-and-forget
    services (logger, tracer, the Kafka consumer's [commitOffset]).  A
    generator is embedded as a finite tree of such calls ([prog]); running a
    tree against a model of the collaborators gives the outcome, the new
    process state and the list of calls made, in order. *)

From Stdlib Require Import Ascii ZArith Lia.
From stdpp Require Import base strings list gmap pretty.

Set Warnings "-register-all".
Local Open Scope string_scope.
Local Open Scope Z_scope.
Local Open Scope list_scope.

(** ** JavaScript values *)

(** The values the program handles: parsed JSON, request bodies, responses
    and thrown errors.  Numbers are the integers the program computes with
    (lengths, scores, offsets, partitions, status codes); how a number
    prints is left to [Number_toString].  An object is its list of
    properties; the first binding of a name is the property's value.
    [VBuiltin] stands for a member of [Object.prototype]. *)
Inductive value : Type :=
| VUndefined
| VNull
| VBool (b : bool)
| VNum (n : Z)
| VStr (s : string)
| VBuffer (bytes : list Byte.byte)
| VArr (items : list value)
| VObj (props : list (string * value))
| VError (name message stack : string)
| VBuiltin (name : string).

(** Something thrown, or a promise rejected, carries a value. *)
Definition completion : Type := value + value.
Definition normal (v : value) : completion := inl v.
Definition abrupt (e : value) : completion := inr e.

(** [JSON.parse] gives the parsed value or throws a [SyntaxError]. *)
Inductive parse_result : Type :=
| Parsed (v : value)
| SyntaxError (message stack : string).

(** Runtime and library functions that are pure: the parameters of the
    embedding.  [AmazonS3URI] gives the parsed [{bucket, key, ...}] or what
    it throws. *)
Record Builtins : Type := {
  JSON_parse : string -> parse_result;
  JSON_stringify : string -> string;
  Number_toString : Z -> string;
  Buffer_toString_utf8 : list Byte.byte -> string;
  AmazonS3URI : value -> completion
}.

Definition TypeError (message : string) : value :=
  VError "TypeError" message "".

Definition Error (message : string) : value :=
  VError "Error" message "".

(** [Boolean(v)]: the falsy values are undefined, null, false, 0 and the
    empty string. *)
Definition truthy (v : value) : bool :=
  match v with
  | VUndefined | VNull => false
  | VBool b => b
  | VNum n => negb (n =? 0)
  | VStr s => negb (String.eqb s "")
  | _ => true
  end.

(** [v === s] for a string [s], [v === n] for a number [n]. *)
Definition strict_eq_str (v : value) (s : string) : bool :=
  match v with
  | VStr t => String.eqb t s
  | _ => false
  end.

Definition strict_eq_num (v : value) (n : Z) : bool :=
  match v with
  | VNum k => k =? n
  | _ => false
  end.

Fixpoint assoc (key : string) (props : list (string * value)) : value :=
  match props with
  | [] => VUndefined
  | (k, v) :: rest => if String.eqb k key then v else assoc key rest
  end.

(** [v.key] for the property names the program reads ([topic], [payload],
    [status], [fileType], [id], [data], [length], [statusCode], ...), none
    of which is a member of a built-in prototype.  Reading a property of
    undefined or null throws a [TypeError]. *)
Definition get_prop (v : value) (key : string) : completion :=
  match v with
  | VUndefined =>
      abrupt (TypeError ("Cannot read property '" +:+ key +:+ "' of undefined"))
  | VNull =>
      abrupt (TypeError ("Cannot read property '" +:+ key +:+ "' of null"))
  | VObj props => normal (assoc key props)
  | VArr items =>
      normal (if String.eqb key "length" then VNum (Z.of_nat (length items))
              else VUndefined)
  | VStr s =>
      normal (if String.eqb key "length" then VNum (Z.of_nat (String.length s))
              else VUndefined)
  | VBuffer bytes =>
      normal (if String.eqb key "length" then VNum (Z.of_nat (length bytes))
              else VUndefined)
  | VError name message stack =>
      normal (if String.eqb key "name" then VStr name
              else if String.eqb key "message" then VStr message
              else if String.eqb key "stack" then VStr stack
              else VUndefined)
  | VBool _ | VNum _ | VBuiltin _ => normal VUndefined
  end.

(** [v[0]]. *)
Definition get_first (v : value) : completion :=
  match v with
  | VUndefined => abrupt (TypeError "Cannot read property '0' of undefined")
  | VNull => abrupt (TypeError "Cannot read property '0' of null")
  | VArr items => normal (match items with x :: _ => x | [] => VUndefined end)
  | VStr s =>
      normal (match s with String c _ => VStr (String c "") | "" => VUndefined end)
  | VBuffer bytes =>
      normal (match bytes with
              | b :: _ => VNum (Z.of_N (Byte.to_N b))
              | [] => VUndefined
              end)
  | VObj props => normal (assoc "0" props)
  | VBool _ | VNum _ | VError _ _ _ | VBuiltin _ => normal VUndefined
  end.

Section ToString.
Variable js : Builtins.

(** [String(v)], as a template literal and [+] with a string apply it. *)
Fixpoint to_str (v : value) : string :=
  match v with
  | VUndefined => "undefined"
  | VNull => "null"
  | VBool true => "true"
  | VBool false => "false"
  | VNum n => Number_toString js n
  | VStr s => s
  | VBuffer bytes => Buffer_toString_utf8 js bytes
  | VArr items =>
      (fix join (l : list value) : string :=
         match l with
         | [] => ""
         | x :: rest =>
             let sx := match x with
                       | VUndefined | VNull => ""
                       | _ => to_str x
                       end in
             match rest with
             | [] => sx
             | _ :: _ => sx +:+ "," +:+ join rest
             end
         end) items
  | VObj _ => "[object Object]"
  | VError name message _ =>
      if String.eqb name "" then message
      else if String.eqb message "" then name
      else name +:+ ": " +:+ message
  | VBuiltin name =>
      if String.eqb name "__proto__" then "[object Object]"
      else "function " +:+ name +:+ "() { [native code] }"
  end.
End ToString.

(** Where [to_str] is JavaScript's conversion.  The conversion of a plain
    object with an own [toString] property that is no function (every such
    property of parsed JSON) throws a [TypeError], and so does the
    conversion of an array that holds such an object; the text of a
    built-in is the engine's.  Every other value is converted, to the
    string [to_str] gives. *)
Fixpoint prints (v : value) : bool :=
  match v with
  | VArr items =>
      (fix all (l : list value) : bool :=
         match l with
         | [] => true
         | x :: rest => prints x && all rest
         end) items
  | VObj props =>
      negb (existsb (fun '(key, _) => String.eqb key "toString") props)
  | VBuiltin _ => false
  | _ => true
  end.

(** ** Generators as trees of calls *)

(** Collaborators whose answer the program waits for ([yield]) or uses. *)
Inductive callee : Type :=
| s3_getObject
| s3_upload
| s3_copyObject
| s3_deleteObject
| axios_get
| axios_post
| axios_patch
| m2m_getMachineToken
| uuid.

Inductive level : Type := info | debug | error.

(** Calls whose result the program never looks at.  A span is named by the
    operation name it was started with.  The tracer does not raise errors
    (src/app.js, comment above [initTracing]); the promise
    [consumer.commitOffset] returns is dropped by the handler. *)
Inductive output : Type :=
| logger (l : level) (message : value)
| tracer_startSpans (name : string)
| tracer_startChildSpans (name parent : string)
| span_setTag (span key : string) (v : value)
| span_log (span : string) (fields : list (string * value))
| span_finish (span : string)
| consumer_commitOffset (topic : string) (partition offset : Z).

(** [reviewTypes] is the one piece of state the program owns (helper.js,
    [const reviewTypes = {}]). *)
Inductive prog (A : Type) : Type :=
| Ret (a : A)
| Throw (e : value)
| Emit (o : output) (k : prog A)
| Request (f : callee) (args : list value) (k : completion -> prog A)
| ReadReviewTypes (name : string) (k : value -> prog A)
| WriteReviewTypes (name : string) (v : value) (k : prog A).

Arguments Ret {A} a.
Arguments Throw {A} e.
Arguments Emit {A} o k.
Arguments Request {A} f args k.
Arguments ReadReviewTypes {A} name k.
Arguments WriteReviewTypes {A} name v k.

Fixpoint bind {A B : Type} (p : prog A) (f : A -> prog B) : prog B :=
  match p with
  | Ret a => f a
  | Throw e => Throw e
  | Emit o k => Emit o (bind k f)
  | Request c args k => Request c args (fun r => bind (k r) f)
  | ReadReviewTypes name k => ReadReviewTypes name (fun v => bind (k v) f)
  | WriteReviewTypes name v k => WriteReviewTypes name v (bind k f)
  end.

(** [try { p } catch (e) { h e }]. *)
Fixpoint try_catch {A : Type} (p : prog A) (h : value -> prog A) : prog A :=
  match p with
  | Ret a => Ret a
  | Throw e => h e
  | Emit o k => Emit o (try_catch k h)
  | Request c args k => Request c args (fun r => try_catch (k r) h)
  | ReadReviewTypes name k => ReadReviewTypes name (fun v => try_catch (k v) h)
  | WriteReviewTypes name v k => WriteReviewTypes name v (try_catch k h)
  end.

Declare Scope prog_scope.
Delimit Scope prog_scope with prog.
Notation "x <- p ;; q" := (bind p (fun x => q))
  (at level 100, p at next level, right associativity) : prog_scope.
Notation "p ;; q" := (bind p (fun _ => q))
  (at level 100, right associativity) : prog_scope.
Local Open Scope prog_scope.

(** [yield f(args)]: a rejection is thrown at the yield. *)
Definition yield (f : callee) (args : list value) : prog value :=
  Request f args (fun r => match r with inl v => Ret v | inr e => Throw e end).

Definition emit (o : output) : prog unit := Emit o (Ret tt).

(** An expression that may throw. *)
Definition eval (c : completion) : prog value :=
  match c with inl v => Ret v | inr e => Throw e end.

Definition read_reviewTypes (name : string) : prog value :=
  ReadReviewTypes name Ret.

Definition write_reviewTypes (name : string) (v : value) : prog unit :=
  WriteReviewTypes name v (Ret tt).

(** ** Running a generator *)

(** Members every object inherits from [Object.prototype]: reading one of
    them from [reviewTypes] gives a built-in, not undefined. *)
Definition Object_prototype_names : list string :=
  ["constructor"; "__defineGetter__"; "__defineSetter__"; "hasOwnProperty";
   "__lookupGetter__"; "__lookupSetter__"; "isPrototypeOf";
   "propertyIsEnumerable"; "toString"; "valueOf"; "__proto__";
   "toLocaleString"].

(** [obj[name]] for an object created by [{}] with own properties [own]. *)
Definition object_get (own : gmap string value) (name : string) : value :=
  match own !! name with
  | Some v => v
  | None =>
      if existsb (String.eqb name) Object_prototype_names
      then VBuiltin name else VUndefined
  end.

(** [obj[name] = v].  Without an own property of that name, a write to
    [__proto__] goes to the inherited setter and adds no own property; its
    effect on the prototype is not modelled: [getreviewTypeId] writes only
    after reading a falsy value, which [__proto__] does not give then. *)
Definition object_set (own : gmap string value) (name : string) (v : value)
  : gmap string value :=
  match own !! name with
  | None => if String.eqb name "__proto__" then own else <[name := v]> own
  | Some _ => <[name := v]> own
  end.

Inductive event : Type :=
| Out (o : output)
| Req (f : callee) (args : list value) (r : completion).

Inductive outcome (A : Type) : Type :=
| Returned (a : A)
| Thrown (e : value).
Arguments Returned {A} a.
Arguments Thrown {A} e.

Record run_result (W A : Type) : Type := RunResult {
  result : outcome A;
  world_after : W;
  reviewTypes_after : gmap string value;
  events : list event
}.
Arguments RunResult {W A}.
Arguments result {W A}.
Arguments world_after {W A}.
Arguments reviewTypes_after {W A}.
Arguments events {W A}.

(** [before evs r]: the run [r], preceded by the events [evs]. *)
Definition before {W A : Type} (evs : list event) (r : run_result W A)
  : run_result W A :=
  match r with
  | RunResult res w cache evs' => RunResult res w cache (evs ++ evs')
  end.

Section Run.
(** The collaborators: a state and, for each call, the answer (fulfilled
    with a value, or rejected) and the next state. *)
Context {W : Type}.
Variable respond : W -> callee -> list value -> completion * W.

Fixpoint run {A : Type} (p : prog A) (w : W) (cache : gmap string value)
  : run_result W A :=
  match p with
  | Ret a => RunResult (Returned a) w cache []
  | Throw e => RunResult (Thrown e) w cache []
  | Emit o k => before [Out o] (run k w cache)
  | Request f args k =>
      let '(answer, w') := respond w f args in
      before [Req f args answer] (run (k answer) w' cache)
  | ReadReviewTypes name k => run (k (object_get cache name)) w cache
  | WriteReviewTypes name v k => run k w (object_set cache name v)
  end.

(** What follows a run: [f] after a return, [h] after a throw. *)
Definition continue {A B : Type} (r : run_result W A)
    (f : A -> prog B) (h : value -> prog B) : run_result W B :=
  match r with
  | RunResult (Returned a) w cache evs => before evs (run (f a) w cache)
  | RunResult (Thrown e) w cache evs => before evs (run (h e) w cache)
  end.
End Run.


(** ** Configuration *)

(** The [config] module's values the program reads. *)
Record Config : Type := {
  DMZ_BUCKET : string;
  CLEAN_BUCKET : string;
  QUARANTINE_BUCKET : string;
  SUBMISSION_API_URL : string;
  ANTIVIRUS_API_URL : string;
  MAXFILESIZE : Z;
  AUTH0_CLIENT_ID : string;
  AUTH0_CLIENT_SECRET : string;
  SUBMISSION_CREATE_TOPIC : string;
  AVSCAN_TOPIC : string
}.

(** [/.*amazonaws.*/.test(s)]: the pattern is not anchored and [.*] matches
    the empty string, so the test asks whether [amazonaws] occurs in [s]. *)
Fixpoint occurs (pattern s : string) : bool :=
  String.prefix pattern s
  || match s with
     | "" => false
     | String _ rest => occurs pattern rest
     end.

Definition amazonaws_test (s : string) : bool := occurs "amazonaws" s.

Definition AV_SCAN : string := "Virus Scan".
Definition REVIEW_SCORECARDID : string := "30001850".

Section Program.
Variable js : Builtins.
Variable config : Config.

Local Abbreviation str := (to_str js).

(** [message.payload.key] *)
Definition payload_prop (message : value) (key : string) : completion :=
  match get_prop message "payload" with
  | inl payload => get_prop payload key
  | inr e => inr e
  end.

(** *** src/common/helper.js *)

Definition token_request : list value :=
  [VStr (AUTH0_CLIENT_ID config); VStr (AUTH0_CLIENT_SECRET config)].

Definition getM2Mtoken (parentSpan : string) : prog value :=
  let span := "getM2Mtoken" in
  emit (tracer_startChildSpans span parentSpan) ;;
  token <- yield m2m_getMachineToken token_request ;;
  emit (span_finish span) ;;
  Ret token.

Definition bearer (token : value) : value :=
  VObj [("headers", VObj [("Authorization", VStr ("Bearer " +:+ str token))])].

Definition reqToSubmissionAPI
    (reqType path : string) (reqBody : value) (parentSpan : string)
  : prog value :=
  let span := "reqToSubmissionAPI" in
  emit (tracer_startChildSpans span parentSpan) ;;
  emit (span_setTag span "http.method" (VStr reqType)) ;;
  emit (span_setTag span "http.url" (VStr path)) ;;
  token <- getM2Mtoken span ;;
  if String.eqb reqType "POST" then
    yield axios_post [VStr path; reqBody; bearer token] ;;
    emit (span_finish span) ;;
    Ret VUndefined
  else if String.eqb reqType "PATCH" then
    yield axios_patch [VStr path; reqBody; bearer token] ;;
    emit (span_finish span) ;;
    Ret VUndefined
  else if String.eqb reqType "GET" then
    response <- yield axios_get [VStr path; bearer token] ;;
    emit (span_finish span) ;;
    Ret response
  else
    emit (span_finish span) ;;
    Ret VUndefined.

Definition reviewTypes_url (reviewTypeName : string) : string :=
  SUBMISSION_API_URL config +:+ "/reviewTypes?name=" +:+ reviewTypeName.

Definition getreviewTypeId (reviewTypeName parentSpan : string) : prog value :=
  let span := "getreviewTypeId" in
  emit (tracer_startChildSpans span parentSpan) ;;
  emit (span_setTag span "reviewTypeName" (VStr reviewTypeName)) ;;
  cached <- read_reviewTypes reviewTypeName ;;
  if truthy cached then
    emit (span_finish span) ;;
    read_reviewTypes reviewTypeName
  else
    response <- reqToSubmissionAPI "GET" (reviewTypes_url reviewTypeName)
                  (VObj []) span ;;
    data <- eval (get_prop response "data") ;;
    len <- eval (get_prop data "length") ;;
    if negb (strict_eq_num len 0) then
      first <- eval (get_first data) ;;
      id <- eval (get_prop first "id") ;;
      write_reviewTypes reviewTypeName id ;;
      emit (span_finish span) ;;
      read_reviewTypes reviewTypeName
    else
      emit (span_finish span) ;;
      Ret VNull.

Definition storage_fetch (bucket key : value) : list value :=
  [VObj [("Bucket", bucket); ("Key", key)]].

Definition generic_fetch (fileURL : value) : list value :=
  [fileURL; VObj [("responseType", VStr "arraybuffer")]].

Definition downloadFile (fileURL : value) (parentSpan : string) : prog value :=
  let span := "downloadFile" in
  emit (tracer_startChildSpans span parentSpan) ;;
  emit (span_setTag span "http.url" fileURL) ;;
  if amazonaws_test (str fileURL) then
    location <- eval (AmazonS3URI js fileURL) ;;
    bucket <- eval (get_prop location "bucket") ;;
    key <- eval (get_prop location "key") ;;
    emit (logger info (VStr ("downloadFile(): file is on S3 " +:+ str bucket
                             +:+ " / " +:+ str key))) ;;
    downloadedFile <- yield s3_getObject (storage_fetch bucket key) ;;
    emit (span_finish span) ;;
    eval (get_prop downloadedFile "Body")
  else
    emit (logger info (VStr ("downloadFile(): file is (hopefully) a public URL at "
                             +:+ str fileURL))) ;;
    downloadedFile <- yield axios_get (generic_fetch fileURL) ;;
    emit (span_finish span) ;;
    eval (get_prop downloadedFile "data").

Definition copy_request (sourceBucket sourceKey targetBucket targetKey : value)
  : list value :=
  [VObj [("Bucket", targetBucket);
         ("CopySource", VStr ("/" +:+ str sourceBucket +:+ "/" +:+ str sourceKey));
         ("Key", targetKey)]].

Definition delete_request (sourceBucket sourceKey : value) : list value :=
  [VObj [("Bucket", sourceBucket); ("Key", sourceKey)]].

Definition moveFile
    (sourceBucket sourceKey targetBucket targetKey : value) (parentSpan : string)
  : prog unit :=
  let span := "moveFile" in
  emit (tracer_startChildSpans span parentSpan) ;;
  emit (span_setTag span "sourceBucket" sourceBucket) ;;
  emit (span_setTag span "sourceKey" sourceKey) ;;
  emit (span_setTag span "targetBucket" targetBucket) ;;
  emit (span_setTag span "targetKey" targetKey) ;;
  yield s3_copyObject
    (copy_request sourceBucket sourceKey targetBucket targetKey) ;;
  yield s3_deleteObject (delete_request sourceBucket sourceKey) ;;
  emit (span_finish span).
(** *** src/services/ProcessorService.js *)

(** [if (!span) span = tracer.startSpans(name)] *)
Definition span_or_start (name : string) (span : option string) : prog string :=
  match span with
  | Some s => Ret s
  | None => emit (tracer_startSpans name) ;; Ret name
  end.

Definition dmz_probe (fileName : string) : list value :=
  [VObj [("Bucket", VStr (DMZ_BUCKET config)); ("Key", VStr fileName)]].

Definition dmz_upload (fileName : string) (body : value) : list value :=
  [VObj [("Bucket", VStr (DMZ_BUCKET config)); ("Key", VStr fileName);
         ("Body", body)]].

Definition scan_request (submissionId : value) (fileName : string) : list value :=
  [VStr (ANTIVIRUS_API_URL config);
   VObj [("submissionId", submissionId);
         ("url", VStr ("https://s3.amazonaws.com/" +:+ DMZ_BUCKET config
                       +:+ "/" +:+ fileName));
         ("fileName", VStr fileName)];
   VObj [("maxContentLength", VNum (MAXFILESIZE config))]].

Definition processCreate (message : value) (span : option string) : prog value :=
  span <- span_or_start "ProcessorService.processCreate" span ;;
  id <- eval (payload_prop message "id") ;;
  emit (span_setTag span "payload.id" id) ;;
  resource <- eval (payload_prop message "resource") ;;
  emit (span_setTag span "payload.resource" resource) ;;
  fileType <- eval (payload_prop message "fileType") ;;
  emit (span_setTag span "payload.fileType" fileType) ;;
  if negb (strict_eq_str resource "submission") then
    let ignoring := VStr ("Ignoring messages of resource type: " +:+ str resource) in
    emit (logger info ignoring) ;;
    emit (span_log span [("message", ignoring)]) ;;
    Ret (VBool false)
  else
    let fileName := str id +:+ "." +:+ str fileType in
    try_catch
      (yield s3_getObject (dmz_probe fileName) ;;
       emit (logger info (VStr ("The file " +:+ fileName
                                +:+ " is already in DMZ area."))))
      (fun e =>
         statusCode <- eval (get_prop e "statusCode") ;;
         if negb (strict_eq_num statusCode 404) then Throw e
         else
           emit (logger info (VStr ("The file " +:+ fileName
                    +:+ " is not in DMZ area, copying it to DMZ area."))) ;;
           url <- eval (payload_prop message "url") ;;
           downloadedFile <- downloadFile url span ;;
           yield s3_upload (dmz_upload fileName downloadedFile) ;;
           Ret tt) ;;
    emit (logger info (VStr ("Sending request to scan the file " +:+ fileName
                             +:+ "."))) ;;
    yield axios_post (scan_request id fileName) ;;
    Ret (VBool true).

Definition moved_url (destinationBucket : string) (fileName : value) : string :=
  "https://s3.amazonaws.com/" +:+ destinationBucket +:+ "/" +:+ str fileName.

Definition submission_url (submissionId : value) : string :=
  SUBMISSION_API_URL config +:+ "/submissions/" +:+ str submissionId.

Definition reviews_url : string := SUBMISSION_API_URL config +:+ "/reviews".

Definition review_body (isInfected reviewerId submissionId typeId : value) : value :=
  VObj [("score", VNum (if truthy isInfected then 0 else 100));
        ("reviewerId", reviewerId);
        ("submissionId", submissionId);
        ("scoreCardId", VStr REVIEW_SCORECARDID);
        ("typeId", typeId)].

Definition processScan (message : value) (span : option string) : prog value :=
  span <- span_or_start "ProcessorService.processScan" span ;;
  submissionId <- eval (payload_prop message "submissionId") ;;
  emit (span_setTag span "payload.submissionId" submissionId) ;;
  fileName <- eval (payload_prop message "fileName") ;;
  emit (span_setTag span "payload.fileName" fileName) ;;
  isInfected <- eval (payload_prop message "isInfected") ;;
  emit (span_setTag span "payload.isInfected" isInfected) ;;
  destinationBucket <-
    (if negb (truthy isInfected) then
       emit (logger info (VStr ("The file " +:+ str fileName
                +:+ " is clean. Moving file to clean submission area."))) ;;
       Ret (CLEAN_BUCKET config)
     else
       emit (logger info (VStr ("The file " +:+ str fileName
                +:+ " is infected. Moving file to quarantine area."))) ;;
       Ret (QUARANTINE_BUCKET config)) ;;
  moveFile (VStr (DMZ_BUCKET config)) fileName (VStr destinationBucket) fileName
           span ;;
  let movedS3Obj := moved_url destinationBucket fileName in
  emit (logger debug (VStr ("moved file: " +:+ JSON_stringify js movedS3Obj))) ;;
  emit (logger info (VStr "Update Submission final location using Submission API")) ;;
  reqToSubmissionAPI "PATCH" (submission_url submissionId)
    (VObj [("url", VStr movedS3Obj)]) span ;;
  emit (logger info (VStr "Create review using Submission API")) ;;
  reviewerId <- yield uuid [] ;;
  typeId <- getreviewTypeId AV_SCAN span ;;
  reqToSubmissionAPI "POST" reviews_url
    (review_body isInfected reviewerId submissionId typeId) span ;;
  Ret VUndefined.
(** *** src/app.js *)

(** A message of a fetched message set: [m.offset], [m.message.value]. *)
Record kafka_message : Type := {
  offset : Z;
  message_value : list Byte.byte
}.

Definition error_fields (e message stack : value) : list (string * value) :=
  [("event", VStr "error"); ("message", message); ("stack", stack);
   ("error.object", e)].

(** The switch inside [co(function * () { ... })].  The workflows are called
    as [ProcessorService.js] defines them; what [logger.buildService] wraps
    around its exports (src/common/logger.js) is not part of this model. *)
Definition route (topic : string) (messageJSON : value) : prog value :=
  if String.eqb topic (SUBMISSION_CREATE_TOPIC config) then
    emit (tracer_startChildSpans "ProcessorService.processCreate" "dataHandler") ;;
    processCreate messageJSON (Some "ProcessorService.processCreate")
  else if String.eqb topic (AVSCAN_TOPIC config) then
    emit (tracer_startChildSpans "ProcessorService.processScan" "dataHandler") ;;
    processScan messageJSON (Some "ProcessorService.processScan")
  else
    Throw (Error ("Invalid topic: " +:+ topic)).

(** [serviceSpan] once the switch has run: assigned in the two cases, left
    undefined in the default case. *)
Definition serviceSpan (topic : string) : option string :=
  if String.eqb topic (SUBMISSION_CREATE_TOPIC config)
  then Some "ProcessorService.processCreate"
  else if String.eqb topic (AVSCAN_TOPIC config)
  then Some "ProcessorService.processScan"
  else None.

Definition finish_service_span (topic : string) : prog unit :=
  match serviceSpan topic with
  | Some s => emit (span_finish s)
  | None => Throw (TypeError "Cannot read property 'finish' of undefined")
  end.

(** The callback of [.catch]. *)
Definition on_rejected (topic : string) (err : value) : prog unit :=
  let span := "dataHandler" in
  emit (logger error err) ;;
  match serviceSpan topic with
  | Some s =>
      message <- eval (get_prop err "message") ;;
      stack <- eval (get_prop err "stack") ;;
      emit (span_log s (error_fields err message stack)) ;;
      emit (span_setTag s "error" (VBool true)) ;;
      emit (span_finish s)
  | None => Ret tt
  end ;;
  emit (span_setTag span "error" (VBool true)) ;;
  emit (span_finish span).

(** The callback [Promise.each] applies to one message. *)
Definition handle (topic : string) (partition : Z) (m : kafka_message) : prog unit :=
  let span := "dataHandler" in
  emit (tracer_startSpans span) ;;
  emit (span_setTag span "kafka.topic" (VStr topic)) ;;
  emit (span_setTag span "message_bus.destination" (VStr topic)) ;;
  emit (span_setTag span "kafka.partition" (VNum partition)) ;;
  emit (span_setTag span "kafka.offset" (VNum (offset m))) ;;
  let message := Buffer_toString_utf8 js (message_value m) in
  emit (logger info (VStr ("Handle Kafka event message; Topic: " +:+ topic
          +:+ "; Partition: " +:+ Number_toString js partition
          +:+ "; Offset: " +:+ Number_toString js (offset m)
          +:+ "; Message: " +:+ message +:+ "."))) ;;
  let parserSpan := "parseMessage" in
  emit (tracer_startChildSpans parserSpan span) ;;
  match JSON_parse js message with
  | SyntaxError e_message e_stack =>
      let e := VError "SyntaxError" e_message e_stack in
      emit (logger error (VStr "Invalid message JSON.")) ;;
      emit (logger error e) ;;
      emit (span_setTag parserSpan "error" (VBool true)) ;;
      emit (span_log parserSpan (error_fields e (VStr e_message) (VStr e_stack))) ;;
      emit (span_finish parserSpan) ;;
      emit (span_finish span)
  | Parsed messageJSON =>
      emit (span_finish parserSpan) ;;
      messageTopic <- eval (get_prop messageJSON "topic") ;;
      if negb (strict_eq_str messageTopic topic) then
        emit (logger error (VStr ("The message topic " +:+ str messageTopic
                +:+ " doesn't match the Kafka topic " +:+ topic +:+ "."))) ;;
        emit (span_setTag span "error" (VBool true)) ;;
        emit (span_log span
                [("event", VStr "error");
                 ("message", VStr ("The message topic " +:+ str messageTopic
                    +:+ " doesn't match the Kafka topic " +:+ topic))]) ;;
        emit (span_finish span)
      else
        notScanned <-
          (if strict_eq_str messageTopic (AVSCAN_TOPIC config) then
             status <- eval (payload_prop messageJSON "status") ;;
             Ret (negb (strict_eq_str status "scanned"), status)
           else Ret (false, VUndefined)) ;;
        if fst notScanned then
          let ignoring := VStr ("Ignoring message in topic " +:+ str messageTopic
                                +:+ " with status " +:+ str (snd notScanned)) in
          emit (logger debug ignoring) ;;
          emit (span_log span [("message", ignoring)]) ;;
          emit (span_finish span)
        else
          isUrl <-
            (if String.eqb topic (SUBMISSION_CREATE_TOPIC config) then
               fileType <- eval (payload_prop messageJSON "fileType") ;;
               Ret (strict_eq_str fileType "url")
             else Ret false) ;;
          if isUrl : bool then
            let ignoring := VStr ("Ignoring message in topic " +:+ str messageTopic
                                  +:+ " with file type as url") in
            emit (logger debug ignoring) ;;
            emit (span_log span [("message", ignoring)]) ;;
            emit (span_finish span)
          else
            try_catch
              (route topic messageJSON ;;
               emit (consumer_commitOffset topic partition (offset m)) ;;
               finish_service_span topic ;;
               emit (span_finish span))
              (on_rejected topic)
  end.

(** [dataHandler = (messageSet, topic, partition) =>
     Promise.each(messageSet, (m) => ...)]: one message after the other; the
    first rejection rejects the whole and the rest is not handled. *)
Fixpoint dataHandler (messageSet : list kafka_message) (topic : string)
    (partition : Z) : prog unit :=
  match messageSet with
  | [] => Ret tt
  | m :: rest => handle topic partition m ;; dataHandler rest topic partition
  end.
End Program.

(** ** Observations on a run *)

#[global] Instance callee_eq_dec : EqDecision callee.
Proof. solve_decision. Defined.

(** The calls to collaborators, with their answers, in order. *)
Fixpoint requests (evs : list event) : list event :=
  match evs with
  | [] => []
  | Req f args r :: rest => Req f args r :: requests rest
  | Out _ :: rest => requests rest
  end.

(** The calls to one collaborator. *)
Fixpoint calls_to (g : callee) (evs : list event) : list event :=
  match evs with
  | [] => []
  | Req f args r :: rest =>
      if bool_decide (f = g) then Req f args r :: calls_to g rest
      else calls_to g rest
  | Out _ :: rest => calls_to g rest
  end.

(** The HTTP calls ([axios]). *)
Fixpoint http_calls (evs : list event) : list event :=
  match evs with
  | [] => []
  | Req axios_get args r :: rest => Req axios_get args r :: http_calls rest
  | Req axios_post args r :: rest => Req axios_post args r :: http_calls rest
  | Req axios_patch args r :: rest => Req axios_patch args r :: http_calls rest
  | _ :: rest => http_calls rest
  end.

(** The offsets committed: (topic, partition, offset). *)
Fixpoint commits (evs : list event) : list (string * Z * Z) :=
  match evs with
  | [] => []
  | Out (consumer_commitOffset topic partition offset) :: rest =>
      (topic, partition, offset) :: commits rest
  | _ :: rest => commits rest
  end.

(** What was logged at a level. *)
Fixpoint logged (l : level) (evs : list event) : list value :=
  match evs with
  | [] => []
  | Out (logger l' message) :: rest =>
      match l, l' with
      | info, info | debug, debug | error, error => message :: logged l rest
      | _, _ => logged l rest
      end
  | _ :: rest => logged l rest
  end.

(** A program none of whose paths commits an offset. *)
Fixpoint commit_free {A : Type} (p : prog A) : Prop :=
  match p with
  | Ret _ | Throw _ => True
  | Emit (consumer_commitOffset _ _ _) _ => False
  | Emit _ k => commit_free k
  | Request _ _ k => forall r, commit_free (k r)
  | ReadReviewTypes _ k => forall v, commit_free (k v)
  | WriteReviewTypes _ _ k => commit_free k
  end.

(** ** Models of the collaborators *)

(** Collaborators that answer from a script, one answer per call. *)
Definition script_respond (script : list completion) (f : callee)
    (args : list value) : completion * list completion :=
  match script with
  | answer :: rest => (answer, rest)
  | [] => (abrupt (Error "no answer"), [])
  end.

(** The object storage: the object stored under each path
    [/bucket/key]. *)
Definition object_path (bucket key : string) : string :=
  "/" +:+ bucket +:+ "/" +:+ key.

Definition NoSuchKey : value :=
  VObj [("code", VStr "NoSuchKey"); ("statusCode", VNum 404)].

Definition InvalidParameter : value :=
  VObj [("code", VStr "InvalidParameterType"); ("statusCode", VUndefined)].

(** [{Bucket, Key}] of a storage request. *)
Definition request_path (params : value) : option string :=
  match params with
  | VObj props =>
      match assoc "Bucket" props, assoc "Key" props with
      | VStr bucket, VStr key => Some (object_path bucket key)
      | _, _ => None
      end
  | _ => None
  end.

Definition request_source (params : value) : option string :=
  match params with
  | VObj props =>
      match assoc "CopySource" props with
      | VStr source => Some source
      | _ => None
      end
  | _ => None
  end.

(** The storage service as the program uses it: [getObject] of a missing
    key is rejected with status 404, [upload] and [copyObject] overwrite
    the destination, [deleteObject] removes the key.  [copyObject] of a
    missing source changes nothing; the service rejects it with status 404,
    and [rejects_missing_source = false] gives a service that would let it
    pass.  Calls to other collaborators are not the storage's to answer. *)
Definition s3_respond (rejects_missing_source : bool)
    (s : gmap string value) (f : callee) (args : list value)
  : completion * gmap string value :=
  match f, args with
  | s3_getObject, [params] =>
      match request_path params with
      | Some path =>
          match s !! path with
          | Some body => (normal (VObj [("Body", body)]), s)
          | None => (abrupt NoSuchKey, s)
          end
      | None => (abrupt InvalidParameter, s)
      end
  | s3_upload, [params] =>
      match request_path params, params with
      | Some path, VObj props =>
          (normal (VObj [("Location", VStr path)]), <[path := assoc "Body" props]> s)
      | _, _ => (abrupt InvalidParameter, s)
      end
  | s3_copyObject, [params] =>
      match request_path params, request_source params with
      | Some target, Some source =>
          match s !! source with
          | Some body => (normal (VObj []), <[target := body]> s)
          | None =>
              if rejects_missing_source then (abrupt NoSuchKey, s)
              else (normal (VObj []), s)
          end
      | _, _ => (abrupt InvalidParameter, s)
      end
  | s3_deleteObject, [params] =>
      match request_path params with
      | Some path => (normal (VObj []), delete path s)
      | None => (abrupt InvalidParameter, s)
      end
  | _, _ => (abrupt (Error "not a storage call"), s)
  end.

(** [answered respond w calls w']: from state [w] the collaborators answer
    the calls of [calls], in this order, as recorded there, and end in
    state [w']. *)
Fixpoint answered {W : Type}
    (respond : W -> callee -> list value -> completion * W)
    (w : W) (calls : list event) (w' : W) : Prop :=
  match calls with
  | [] => w = w'
  | Req f args r :: rest =>
      exists w1, respond w f args = (r, w1) /\ answered respond w1 rest w'
  | Out _ :: rest => answered respond w rest w'
  end.

(** ** The dispatcher's policy, in the words of the specification *)

Section Policy.
Context {W : Type}.
Variable respond : W -> callee -> list value -> completion * W.
Variable js : Builtins.
Variable config : Config.

(** Step 3, the scan filter: [None] when the status cannot be read. *)
Definition not_scanned (topic : string) (envelope : value) : option bool :=
  if String.eqb topic (AVSCAN_TOPIC config) then
    match payload_prop envelope "status" with
    | inl status => Some (negb (strict_eq_str status "scanned"))
    | inr _ => None
    end
  else Some false.

(** Step 3, the create filter: [None] when the file type cannot be read. *)
Definition is_url (topic : string) (envelope : value) : option bool :=
  if String.eqb topic (SUBMISSION_CREATE_TOPIC config) then
    match payload_prop envelope "fileType" with
    | inl fileType => Some (strict_eq_str fileType "url")
    | inr _ => None
    end
  else Some false.

(** Steps 1 to 3: the envelope a message decodes to, when its topic is the
    arrival topic and no filter skips it. *)
Definition accepted (topic : string) (m : kafka_message) : option value :=
  match JSON_parse js (Buffer_toString_utf8 js (message_value m)) with
  | SyntaxError _ _ => None
  | Parsed envelope =>
      match get_prop envelope "topic" with
      | inl t =>
          if strict_eq_str t topic then
            match not_scanned topic envelope with
            | Some false =>
                match is_url topic envelope with
                | Some false => Some envelope
                | _ => None
                end
            | _ => None
            end
          else None
      | inr _ => None
      end
  end.

(** Steps 4 and 5: the message is routed and its workflow completes. *)
Definition workflow_completes (topic : string) (m : kafka_message)
    (w : W) (cache : gmap string value) : bool :=
  match accepted topic m with
  | Some envelope =>
      match result (run respond (route js config topic envelope) w cache) with
      | Returned _ => true
      | Thrown _ => false
      end
  | None => false
  end.

(** The offsets a batch commits: for each message reached, its own offset
    when its workflow completes; the batch stops at a message whose
    handling is rejected. *)
Fixpoint batch_commits (messageSet : list kafka_message) (topic : string)
    (partition : Z) (w : W) (cache : gmap string value)
  : list (string * Z * Z) :=
  match messageSet with
  | [] => []
  | m :: rest =>
      let r := run respond (handle js config topic partition m) w cache in
      (if workflow_completes topic m w cache
       then [(topic, partition, offset m)] else [])
      ++ match result r with
         | Returned _ =>
             batch_commits rest topic partition (world_after r)
                           (reviewTypes_after r)
         | Thrown _ => []
         end
  end.
End Policy.

(** [url] points at the storage service's own domain: the host of the URL,
    the text between [://] and the next [/], is [amazonaws.com] or ends
    with [.amazonaws.com]. *)
Fixpoint after_scheme (url : string) : string :=
  match url with
  | "" => ""
  | String ":"%char (String "/"%char (String "/"%char rest)) => rest
  | String _ rest => after_scheme rest
  end.

Fixpoint until_slash (s : string) : string :=
  match s with
  | "" => ""
  | String c rest => if Ascii.eqb c "/"%char then "" else String c (until_slash rest)
  end.

Definition url_host (url : string) : string := until_slash (after_scheme url).

Fixpoint ends_with (suffix s : string) : bool :=
  String.eqb suffix s
  || match s with
     | "" => false
     | String _ rest => ends_with suffix rest
     end.

Definition points_at_storage_domain (url : string) : bool :=
  String.eqb (url_host url) "amazonaws.com"
  || ends_with ".amazonaws.com" (url_host url).

(** ** Fixtures for the examples *)

Definition quote : string := String "034"%char "".
Definition quoted (s : string) : string := quote +:+ s +:+ quote.

Definition test_config : Config := {|
  DMZ_BUCKET := "dmz";
  CLEAN_BUCKET := "clean";
  QUARANTINE_BUCKET := "quarantine";
  SUBMISSION_API_URL := "https://api.example.com/v5";
  ANTIVIRUS_API_URL := "https://av.example.com/scan";
  MAXFILESIZE := 524288000;
  AUTH0_CLIENT_ID := "client";
  AUTH0_CLIENT_SECRET := "secret";
  SUBMISSION_CREATE_TOPIC := "submission.notification.create";
  AVSCAN_TOPIC := "avscan.action.scan"
|}.

(** [{"topic":"avscan.action.scan"}] *)
Definition text_without_payload : string :=
  "{" +:+ quoted "topic" +:+ ":" +:+ quoted "avscan.action.scan" +:+ "}".

Definition envelope_without_payload : value :=
  VObj [("topic", VStr "avscan.action.scan")].

(** Scenario B of the specification, as an envelope on the scan topic. *)
Definition text_scan : string :=
  "{" +:+ quoted "topic" +:+ ":" +:+ quoted "avscan.action.scan" +:+ ","
  +:+ quoted "payload" +:+ ":{"
  +:+ quoted "submissionId" +:+ ":" +:+ quoted "abc123" +:+ ","
  +:+ quoted "fileName" +:+ ":" +:+ quoted "abc123.zip" +:+ ","
  +:+ quoted "status" +:+ ":" +:+ quoted "scanned" +:+ ","
  +:+ quoted "isInfected" +:+ ":true}}".

Definition scan_envelope (isInfected : bool) : value :=
  VObj [("topic", VStr "avscan.action.scan");
        ("payload", VObj [("submissionId", VStr "abc123");
                          ("fileName", VStr "abc123.zip");
                          ("status", VStr "scanned");
                          ("isInfected", VBool isInfected)])].

(** Scenario A of the specification, as an envelope on the create topic. *)
Definition create_envelope (url : string) : value :=
  VObj [("topic", VStr "submission.notification.create");
        ("payload", VObj [("id", VStr "abc123");
                          ("resource", VStr "submission");
                          ("fileType", VStr "zip");
                          ("url", VStr url)])].

(** A stand-in for the runtime: it parses the texts above and nothing else,
    quotes a string without escapes, prints numbers in decimal, decodes
    bytes as ASCII and knows one storage URL. *)
Definition test_js : Builtins := {|
  JSON_parse := fun text =>
    if String.eqb text text_without_payload then Parsed envelope_without_payload
    else if String.eqb text text_scan then Parsed (scan_envelope true)
    else SyntaxError "Unexpected token" "";
  JSON_stringify := quoted;
  Number_toString := pretty;
  Buffer_toString_utf8 := String.string_of_list_byte;
  AmazonS3URI := fun url =>
    if strict_eq_str url "https://s3.amazonaws.com/uploads/abc123.zip"
    then normal (VObj [("bucket", VStr "uploads"); ("key", VStr "abc123.zip")])
    else abrupt (TypeError "Invalid S3 URI: hostname does not appear to be a valid S3 endpoint")
|}.

Definition kafka (off : Z) (text : string) : kafka_message :=
  {| offset := off; message_value := String.list_byte_of_string text |}.

Definition fulfilled : completion := normal (VObj []).
Definition token : completion := normal (VStr "t0k3n").
Definition not_found : completion := abrupt NoSuchKey.

Definition review_types (results : list value) : completion :=
  normal (VObj [("data", VArr results)]).

Definition virus_scan_type : value :=
  VObj [("id", VStr "rt-virus-scan"); ("name", VStr "Virus Scan")].

(** The answers of Scenario B: copy, delete, token, PATCH, uuid, token,
    review types, token, POST. *)
Definition scan_script (results : list value) : list completion :=
  [fulfilled; fulfilled; token; fulfilled; normal (VStr "reviewer-1");
   token; review_types results; token; fulfilled].

(** The answers of Scenario A: the probe finds nothing, the download gives
    two bytes, upload and scan request are fulfilled. *)
Definition downloaded : value := VBuffer [Byte.x50; Byte.x4b].

Definition create_script : list completion :=
  [not_found; normal (VObj [("data", downloaded)]); fulfilled; fulfilled].

(** ** The health check of src/app.js *)

(** A broker connection of the Kafka client: [conn.server()] and
    [conn.connected]. *)
Record broker : Type := {
  server : string;
  connected : bool
}.

(** [ToInt32] on the values the accumulator of [check] takes: the boolean
    it starts with, a number after the first broker.  Undefined, null and
    objects convert to 0; strings do not occur. *)
Definition to_int32 (v : value) : Z :=
  match v with
  | VBool b => Z.b2z b
  | VNum n => (n + 2 ^ 31) mod 2 ^ 32 - 2 ^ 31
  | _ => 0
  end.

(** [initialBrokers.forEach(conn => { logger.debug(...);
     connected = conn.connected & connected })], from the value of
    [connected] so far. *)
Fixpoint forEach_broker (brokers : list broker) (so_far : value) : prog value :=
  match brokers with
  | [] => Ret so_far
  | conn :: rest =>
      emit (logger debug
              (VStr ("url " +:+ server conn +:+ " - connected="
                     +:+ (if connected conn then "true" else "false")))) ;;
      forEach_broker rest
        (VNum (Z.land (to_int32 (VBool (connected conn))) (to_int32 so_far)))
  end.

(** [check ()] for [consumer.client.initialBrokers] an array ([Some]) or
    undefined ([None]).  The guard is [!brokers && !brokers.length]: an
    array, even an empty one, is truthy and the guard is passed over;
    undefined is falsy, so [brokers.length] is read and throws. *)
Definition check (initialBrokers : option (list broker)) : prog value :=
  match initialBrokers with
  | None => Throw (TypeError "Cannot read property 'length' of undefined")
  | Some brokers => forEach_broker brokers (VBool true)
  end.

(** ** Storage and scripted services together *)

Definition is_storage_call (f : callee) : bool :=
  match f with
  | s3_getObject | s3_upload | s3_copyObject | s3_deleteObject => true
  | _ => false
  end.

(** The storage answers the storage calls; the other collaborators answer
    from a script. *)
Definition services_respond (rejects_missing_source : bool)
    (w : gmap string value * list completion) (f : callee) (args : list value)
  : completion * (gmap string value * list completion) :=
  if is_storage_call f then
    let '(answer, s) := s3_respond rejects_missing_source w.1 f args in
    (answer, (s, w.2))
  else
    let '(answer, rest) := script_respond w.2 f args in
    (answer, (w.1, rest)).

(** A program that writes [reviewTypes] at allowed names only, on every
    path. *)
Fixpoint writes_only {A : Type} (allowed : string -> Prop) (p : prog A) : Prop :=
  match p with
  | Ret _ | Throw _ => True
  | Emit _ k => writes_only allowed k
  | Request _ _ k => forall r, writes_only allowed (k r)
  | ReadReviewTypes _ k => forall v, writes_only allowed (k v)
  | WriteReviewTypes name _ k => allowed name /\ writes_only allowed k
  end.

(** A program that makes no storage call, on any path. *)
Fixpoint storage_free {A : Type} (p : prog A) : Prop :=
  match p with
  | Ret _ | Throw _ => True
  | Emit _ k => storage_free k
  | Request f _ k => is_storage_call f = false /\ forall r, storage_free (k r)
  | ReadReviewTypes _ k => forall v, storage_free (k v)
  | WriteReviewTypes _ _ k => storage_free k
  end.

(** ** More fixtures *)

Fixpoint json_fields (fields : list (string * string)) : string :=
  match fields with
  | [] => ""
  | (key, text) :: rest =>
      quoted key +:+ ":" +:+ text
      +:+ match rest with
          | [] => ""
          | _ :: _ => "," +:+ json_fields rest
          end
  end.

(** The JSON text of an object, from the texts of its values. *)
Definition json_object (fields : list (string * string)) : string :=
  "{" +:+ json_fields fields +:+ "}".

(** A scan message that is not scanned yet. *)
Definition text_pending : string :=
  json_object [("topic", quoted "avscan.action.scan");
               ("payload", json_object [("submissionId", quoted "abc123");
                                        ("status", quoted "pending")])].

Definition envelope_pending : value :=
  VObj [("topic", VStr "avscan.action.scan");
        ("payload", VObj [("submissionId", VStr "abc123");
                          ("status", VStr "pending")])].

(** A create message for a submission given as a URL. *)
Definition text_url_submission : string :=
  json_object [("topic", quoted "submission.notification.create");
               ("payload", json_object [("id", quoted "abc123");
                                        ("resource", quoted "submission");
                                        ("fileType", quoted "url")])].

Definition envelope_url_submission : value :=
  VObj [("topic", VStr "submission.notification.create");
        ("payload", VObj [("id", VStr "abc123");
                          ("resource", VStr "submission");
                          ("fileType", VStr "url")])].

(** A message of a topic the dispatcher does not route. *)
Definition text_other_topic : string :=
  json_object [("topic", quoted "challenge.notification.create")].

Definition envelope_other_topic : value :=
  VObj [("topic", VStr "challenge.notification.create")].

(** [test_js] with these texts added. *)
Definition more_js : Builtins := {|
  JSON_parse := fun text =>
    if String.eqb text text_pending then Parsed envelope_pending
    else if String.eqb text text_url_submission
    then Parsed envelope_url_submission
    else if String.eqb text text_other_topic then Parsed envelope_other_topic
    else JSON_parse test_js text;
  JSON_stringify := JSON_stringify test_js;
  Number_toString := Number_toString test_js;
  Buffer_toString_utf8 := Buffer_toString_utf8 test_js;
  AmazonS3URI := AmazonS3URI test_js
|}.

(** A create message for a review, which [processCreate] ignores. *)
Definition review_envelope : value :=
  VObj [("topic", VStr "submission.notification.create");
        ("payload", VObj [("id", VStr "r-1"); ("resource", VStr "review")])].

Definition AccessDenied : value :=
  VObj [("code", VStr "AccessDenied"); ("statusCode", VNum 403)].

Definition unauthorized : value :=
  VError "Error" "Request failed with status code 401" "".

(** ** The interpreter and sequencing *)

Section RunLemmas.
Context {W : Type}.
Variable respond : W -> callee -> list value -> completion * W.

Lemma before_nil {A : Type} (r : run_result W A) : before [] r = r.
Proof. by destruct r. Qed.

Lemma before_before {A : Type} (evs evs' : list event) (r : run_result W A) :
  before evs (before evs' r) = before (evs ++ evs') r.
Proof. destruct r; simpl. by rewrite app_assoc. Qed.

Lemma continue_before {A B : Type} (evs : list event) (r : run_result W A)
    (f : A -> prog B) (h : value -> prog B) :
  continue respond (before evs r) f h = before evs (continue respond r f h).
Proof. destruct r as [[a|e] w c t]; simpl; by rewrite before_before. Qed.

(** Running [p] then [f] is running [p] and continuing with [f] where it
    returned; a throw passes through. *)
Lemma run_bind {A B : Type} (p : prog A) (f : A -> prog B) w cache :
  run respond (bind p f) w cache
  = continue respond (run respond p w cache) f Throw.
Proof.
  revert w cache.
  induction p as [a|e|o k IH|g args k IH|name k IH|name v k IH]; intros w cache; simpl.
  - by rewrite before_nil.
  - done.
  - by rewrite IH, continue_before.
  - destruct (respond w g args) as [answer w'].
    by rewrite IH, continue_before.
  - apply IH.
  - apply IH.
Qed.

(** A [try] block continues behind it where it returned and with the
    handler where it threw. *)
Lemma run_try_catch {A : Type} (p : prog A) (h : value -> prog A) w cache :
  run respond (try_catch p h) w cache
  = continue respond (run respond p w cache) Ret h.
Proof.
  revert w cache.
  induction p as [a|e|o k IH|g args k IH|name k IH|name v k IH]; intros w cache; simpl.
  - done.
  - by rewrite before_nil.
  - by rewrite IH, continue_before.
  - destruct (respond w g args) as [answer w'].
    by rewrite IH, continue_before.
  - apply IH.
  - apply IH.
Qed.
End RunLemmas.

(** ** Observations *)

Lemma requests_app (evs evs' : list event) :
  requests (evs ++ evs') = requests evs ++ requests evs'.
Proof.
  induction evs as [|[o|f args r] evs IH]; simpl; [done | done |].
  by rewrite IH.
Qed.

Lemma commits_app (evs evs' : list event) :
  commits (evs ++ evs') = commits evs ++ commits evs'.
Proof.
  induction evs as [|[o|f args r] evs IH]; simpl; [done | | done].
  destruct o; simpl; by rewrite ?IH.
Qed.

Lemma http_calls_app (evs evs' : list event) :
  http_calls (evs ++ evs') = http_calls evs ++ http_calls evs'.
Proof.
  induction evs as [|[o|f args r] evs IH]; simpl; [done | done |].
  destruct f; simpl; by rewrite ?IH.
Qed.

Lemma http_calls_requests (evs : list event) :
  http_calls (requests evs) = http_calls evs.
Proof.
  induction evs as [|[o|f args r] evs IH]; simpl; [done| |].
  - rewrite IH. by destruct o.
  - destruct f; simpl; by rewrite ?IH.
Qed.

Lemma calls_to_requests (g : callee) (evs : list event) :
  calls_to g (requests evs) = calls_to g evs.
Proof.
  induction evs as [|[o|f args r] evs IH]; cbn; [done..|].
  destruct (bool_decide (f = g)); by rewrite IH.
Qed.

Lemma events_before {W A : Type} (evs : list event) (r : run_result W A) :
  events (before evs r) = evs ++ events r.
Proof. by destruct r. Qed.

Lemma result_before {W A : Type} (evs : list event) (r : run_result W A) :
  result (before evs r) = result r.
Proof. by destruct r. Qed.

Lemma world_after_before {W A : Type} (evs : list event) (r : run_result W A) :
  world_after (before evs r) = world_after r.
Proof. by destruct r. Qed.

Lemma reviewTypes_after_before {W A : Type} (evs : list event)
    (r : run_result W A) :
  reviewTypes_after (before evs r) = reviewTypes_after r.
Proof. by destruct r. Qed.

Lemma strict_eq_str_true (v : value) (s : string) :
  strict_eq_str v s = true -> v = VStr s.
Proof.
  destruct v; simpl; try discriminate.
  intros H. apply String.eqb_eq in H. by subst.
Qed.

(** ** Programs that never commit *)

Section CommitFree.
Context {W : Type}.
Variable respond : W -> callee -> list value -> completion * W.
Variable js : Builtins.
Variable config : Config.

Lemma commit_free_run {A : Type} (p : prog A) w cache :
  commit_free p -> commits (events (run respond p w cache)) = [].
Proof.
  revert w cache.
  induction p as [a|e|o k IH|g args k IH|name k IH|name v k IH];
    intros w cache Hp; simpl in *; auto.
  - rewrite events_before, commits_app.
    destruct o; simpl; auto; contradiction.
  - destruct (respond w g args) as [answer w'].
    rewrite events_before. simpl. auto.
Qed.

Lemma commit_free_bind {A B : Type} (p : prog A) (f : A -> prog B) :
  commit_free p -> (forall a, commit_free (f a)) -> commit_free (bind p f).
Proof.
  intros Hp Hf.
  induction p as [a|e|o k IH|g args k IH|name k IH|name v k IH]; simpl in *; auto.
  destruct o; auto.
Qed.

Lemma commit_free_try_catch {A : Type} (p : prog A) (h : value -> prog A) :
  commit_free p -> (forall e, commit_free (h e)) -> commit_free (try_catch p h).
Proof.
  intros Hp Hh.
  induction p as [a|e|o k IH|g args k IH|name k IH|name v k IH]; simpl in *; auto.
  destruct o; auto.
Qed.

Lemma commit_free_eval (c : completion) : commit_free (eval c).
Proof. by destruct c. Qed.

Lemma commit_free_yield (f : callee) (args : list value) :
  commit_free (yield f args).
Proof. intros [v|e]; exact I. Qed.

Ltac commit_free :=
  repeat first
    [ exact I
    | apply commit_free_eval
    | apply commit_free_yield
    | apply commit_free_bind; [| intros ?]
    | apply commit_free_try_catch; [| intros ?]
    | match goal with
      | |- commit_free (if ?b then _ else _) => destruct b
      | |- commit_free (match ?x with _ => _ end) => destruct x
      | |- forall _, _ => intros ?
      end
    | progress simpl ].

Lemma commit_free_getM2Mtoken parentSpan :
  commit_free (getM2Mtoken config parentSpan).
Proof. unfold getM2Mtoken. commit_free. Qed.

Lemma commit_free_reqToSubmissionAPI reqType path reqBody parentSpan :
  commit_free (reqToSubmissionAPI js config reqType path reqBody parentSpan).
Proof.
  unfold reqToSubmissionAPI.
  commit_free; apply commit_free_getM2Mtoken.
Qed.

Lemma commit_free_getreviewTypeId reviewTypeName parentSpan :
  commit_free (getreviewTypeId js config reviewTypeName parentSpan).
Proof.
  unfold getreviewTypeId.
  commit_free; apply commit_free_reqToSubmissionAPI.
Qed.

Lemma commit_free_downloadFile fileURL parentSpan :
  commit_free (downloadFile js fileURL parentSpan).
Proof. unfold downloadFile. commit_free. Qed.

Lemma commit_free_moveFile sourceBucket sourceKey targetBucket targetKey span :
  commit_free (moveFile js sourceBucket sourceKey targetBucket targetKey span).
Proof. unfold moveFile. commit_free. Qed.

Lemma commit_free_processCreate message span :
  commit_free (processCreate js config message span).
Proof.
  unfold processCreate, span_or_start.
  commit_free; apply commit_free_downloadFile.
Qed.

Lemma commit_free_processScan message span :
  commit_free (processScan js config message span).
Proof.
  unfold processScan, span_or_start.
  commit_free;
    first [ apply commit_free_moveFile
          | apply commit_free_reqToSubmissionAPI
          | apply commit_free_getreviewTypeId ].
Qed.

Lemma commit_free_route topic envelope :
  commit_free (route js config topic envelope).
Proof.
  unfold route.
  commit_free; first [apply commit_free_processCreate | apply commit_free_processScan].
Qed.

Lemma commit_free_on_rejected topic err :
  commit_free (on_rejected config topic err).
Proof. unfold on_rejected. commit_free. Qed.
End CommitFree.

(** ** The dispatcher: commit if and only if the workflow completes *)

Section Dispatcher.
Context {W : Type}.
Variable respond : W -> callee -> list value -> completion * W.
Variable js : Builtins.
Variable config : Config.

(** A workflow that returned was one of the two the switch knows, so its
    span is there to finish. *)
Lemma route_returned_serviceSpan topic envelope w cache v w' cache' evs :
  run respond (route js config topic envelope) w cache
    = RunResult (Returned v) w' cache' evs ->
  exists s, serviceSpan config topic = Some s.
Proof.
  unfold route, serviceSpan.
  destruct (String.eqb topic (SUBMISSION_CREATE_TOPIC config)); [eauto|].
  destruct (String.eqb topic (AVSCAN_TOPIC config)); [eauto|].
  discriminate.
Qed.

Lemma routed_commits topic partition off envelope w cache :
  commits (events (run respond
    (try_catch
       (route js config topic envelope ;;
        emit (consumer_commitOffset topic partition off) ;;
        finish_service_span config topic ;;
        emit (span_finish "dataHandler"))
       (on_rejected config topic)) w cache))
  = match result (run respond (route js config topic envelope) w cache) with
    | Returned _ => [(topic, partition, off)]
    | Thrown _ => []
    end.
Proof.
  rewrite run_try_catch, run_bind.
  pose proof (commit_free_run respond (route js config topic envelope) w cache
                (commit_free_route js config topic envelope)) as Hfree.
  destruct (run respond (route js config topic envelope) w cache)
    as [[v|e] w' cache' evs] eqn:Hrun; simpl in Hfree; cbn [continue run before].
  - destruct (route_returned_serviceSpan _ _ _ _ _ _ _ _ Hrun) as [s Hs].
    unfold finish_service_span. rewrite Hs. cbn.
    by rewrite !commits_app, Hfree.
  - rewrite events_before, !commits_app, Hfree. cbn [commits app].
    apply commit_free_run, commit_free_on_rejected.
Qed.

Lemma handle_commits topic partition m w cache :
  commits (events (run respond (handle js config topic partition m) w cache))
  = if workflow_completes respond js config topic m w cache
    then [(topic, partition, offset m)] else [].
Proof.
  unfold handle, workflow_completes, accepted.
  destruct (JSON_parse js _) as [envelope|e_message e_stack]; cbn; [|done].
  destruct (get_prop envelope "topic") as [t|e]; cbn; [|done].
  destruct (strict_eq_str t topic) eqn:Ht; cbn; [|done].
  apply strict_eq_str_true in Ht as ->. cbn.
  unfold not_scanned, is_url.
  assert (Hrouted := routed_commits topic partition (offset m) envelope w cache).
  cbn in Hrouted.
  destruct (String.eqb topic (AVSCAN_TOPIC config));
    destruct (String.eqb topic (SUBMISSION_CREATE_TOPIC config)); cbn.
  - destruct (payload_prop envelope "status") as [status|e]; cbn; [|done].
    destruct (strict_eq_str status "scanned"); cbn; [|done].
    destruct (payload_prop envelope "fileType") as [fileType|e]; cbn; [|done].
    destruct (strict_eq_str fileType "url"); cbn; [done|].
    rewrite !events_before, !commits_app, Hrouted. by destruct (result _).
  - destruct (payload_prop envelope "status") as [status|e]; cbn; [|done].
    destruct (strict_eq_str status "scanned"); cbn; [|done].
    rewrite !events_before, !commits_app, Hrouted. by destruct (result _).
  - destruct (payload_prop envelope "fileType") as [fileType|e]; cbn; [|done].
    destruct (strict_eq_str fileType "url"); cbn; [done|].
    rewrite !events_before, !commits_app, Hrouted. by destruct (result _).
  - rewrite !events_before, !commits_app, Hrouted. by destruct (result _).
Qed.

Lemma dataHandler_commits messageSet topic partition w cache :
  commits (events (run respond (dataHandler js config messageSet topic partition)
                     w cache))
  = batch_commits respond js config messageSet topic partition w cache.
Proof.
  revert w cache.
  induction messageSet as [|m rest IH]; intros w cache; [done|].
  cbn [dataHandler batch_commits]. rewrite run_bind.
  rewrite <- handle_commits.
  destruct (run respond (handle js config topic partition m) w cache)
    as [[[]|e] w' cache' evs]; simpl.
  - by rewrite events_before, commits_app, IH.
  - by rewrite !app_nil_r.
Qed.

(** C1. For every message of a batch, the dispatcher commits the message's
    offset for its (topic, partition) if and only if the message is routed
    and its workflow completes: a message that does not decode, whose
    envelope topic is not the arrival topic, that a filter skips, or whose
    workflow throws, leaves the offset uncommitted.  First for the handling
    of one message from any state, then for a whole batch. *)
Theorem dataHandler_commits_iff_workflow_completes :
  (forall topic partition m w cache,
     commits (events (run respond (handle js config topic partition m) w cache))
     = if workflow_completes respond js config topic m w cache
       then [(topic, partition, offset m)] else [])
  /\ (forall messageSet topic partition w cache,
        commits (events (run respond
                           (dataHandler js config messageSet topic partition)
                           w cache))
        = batch_commits respond js config messageSet topic partition w cache).
Proof.
  split.
  - apply handle_commits.
  - apply dataHandler_commits.
Qed.

(** C4. A message whose text does not parse as JSON: the handler returns
    to its caller without throwing, commits nothing, calls no collaborator
    and logs the error. *)
Theorem handle_malformed_json topic partition m w cache e_message e_stack :
  JSON_parse js (Buffer_toString_utf8 js (message_value m))
    = SyntaxError e_message e_stack ->
  let r := run respond (handle js config topic partition m) w cache in
  result r = Returned tt
  /\ commits (events r) = []
  /\ requests (events r) = []
  /\ logged error (events r)
     = [VStr "Invalid message JSON."; VError "SyntaxError" e_message e_stack].
Proof.
  intros Hparse. unfold handle. rewrite Hparse. cbn. done.
Qed.

(** C5. A message that parses, whose envelope topic is the arrival topic
    and that has no payload, on the scan or the create topic: reading the
    status or the file type for the filter throws a [TypeError] out of the
    handler.  Nothing was routed and the handler of workflow errors did not
    run: no collaborator was called, no error was logged, the trace was
    neither marked failed nor finished, and nothing was committed. *)
Theorem handle_missing_payload_throws topic partition m envelope payload w cache :
  JSON_parse js (Buffer_toString_utf8 js (message_value m)) = Parsed envelope ->
  get_prop envelope "topic" = inl (VStr topic) ->
  get_prop envelope "payload" = inl payload ->
  payload = VUndefined \/ payload = VNull ->
  topic = AVSCAN_TOPIC config \/ topic = SUBMISSION_CREATE_TOPIC config ->
  let r := run respond (handle js config topic partition m) w cache in
  (exists message, result r = Thrown (TypeError message))
  /\ events r
     = [Out (tracer_startSpans "dataHandler");
        Out (span_setTag "dataHandler" "kafka.topic" (VStr topic));
        Out (span_setTag "dataHandler" "message_bus.destination" (VStr topic));
        Out (span_setTag "dataHandler" "kafka.partition" (VNum partition));
        Out (span_setTag "dataHandler" "kafka.offset" (VNum (offset m)));
        Out (logger info (VStr
          ("Handle Kafka event message; Topic: " +:+ topic
           +:+ "; Partition: " +:+ Number_toString js partition
           +:+ "; Offset: " +:+ Number_toString js (offset m)
           +:+ "; Message: " +:+ Buffer_toString_utf8 js (message_value m)
           +:+ ".")));
        Out (tracer_startChildSpans "parseMessage" "dataHandler");
        Out (span_finish "parseMessage")]
  /\ requests (events r) = []
  /\ logged error (events r) = []
  /\ commits (events r) = [].
Proof.
  intros Hparse Htopic Hpayload Hnone Hwhich.
  unfold handle. rewrite Hparse. cbn. rewrite Htopic. cbn.
  rewrite String.eqb_refl. cbn.
  unfold payload_prop. rewrite Hpayload.
  destruct Hwhich as [-> | ->].
  - rewrite String.eqb_refl.
    destruct Hnone as [-> | ->]; cbn; eauto 10.
  - destruct (String.eqb (SUBMISSION_CREATE_TOPIC config) (AVSCAN_TOPIC config));
      [destruct Hnone as [-> | ->]; cbn; eauto 10|].
    cbn. rewrite String.eqb_refl.
    destruct Hnone as [-> | ->]; cbn; eauto 10.
Qed.
End Dispatcher.

(** ** src/common/helper.js *)

Lemma object_set_after_miss (cache : gmap string value) (name : string) (v : value) :
  truthy (object_get cache name) = false ->
  object_set cache name v = <[name := v]> cache.
Proof.
  unfold object_get, object_set.
  destruct (cache !! name) as [old|]; [done|].
  destruct (String.eqb name "__proto__") eqn:Hname; [|done].
  apply String.eqb_eq in Hname as ->. discriminate.
Qed.

Lemma object_get_insert (cache : gmap string value) (name : string) (v : value) :
  object_get (<[name := v]> cache) name = v.
Proof. unfold object_get. by rewrite lookup_insert_eq. Qed.

Lemma of_nat_S_eqb_0 (n : nat) : (Z.of_nat (S n) =? 0) = false.
Proof. apply Z.eqb_neq. lia. Qed.

Section Helper.
Context {W : Type}.
Variable respond : W -> callee -> list value -> completion * W.
Variable js : Builtins.
Variable config : Config.

(** A lookup served from the cache: no call to a collaborator. *)
Lemma getreviewTypeId_hit name parentSpan w cache :
  truthy (object_get cache name) = true ->
  run respond (getreviewTypeId js config name parentSpan) w cache
  = RunResult (Returned (object_get cache name)) w cache
      [Out (tracer_startChildSpans "getreviewTypeId" parentSpan);
       Out (span_setTag "getreviewTypeId" "reviewTypeName" (VStr name));
       Out (span_finish "getreviewTypeId")].
Proof. intros Hhit. unfold getreviewTypeId. cbn. by rewrite Hhit. Qed.

(** A lookup that misses the cache and is answered with an empty result
    set: null, and nothing is stored. *)
Lemma getreviewTypeId_miss_empty name parentSpan w cache tok response w2 :
  truthy (object_get cache name) = false ->
  answered respond w
    [Req m2m_getMachineToken (token_request config) (inl tok);
     Req axios_get [VStr (reviewTypes_url config name); bearer js tok]
       (inl response)] w2 ->
  get_prop response "data" = inl (VArr []) ->
  exists evs,
    run respond (getreviewTypeId js config name parentSpan) w cache
    = RunResult (Returned VNull) w2 cache evs
    /\ requests evs
       = [Req m2m_getMachineToken (token_request config) (inl tok);
          Req axios_get [VStr (reviewTypes_url config name); bearer js tok]
            (inl response)].
Proof.
  intros Hmiss (w1 & Htoken & w2' & Hget & <-) Hdata.
  unfold getreviewTypeId. cbn. rewrite Hmiss. cbn.
  rewrite Htoken. cbn. rewrite Hget. cbn. rewrite Hdata. cbn.
  eexists. split; reflexivity.
Qed.

(** A lookup that misses the cache and is answered with a result set that
    is not empty: the id of its first element is stored and returned. *)
Lemma getreviewTypeId_miss_found name parentSpan w cache tok response
    first rest id w2 :
  truthy (object_get cache name) = false ->
  answered respond w
    [Req m2m_getMachineToken (token_request config) (inl tok);
     Req axios_get [VStr (reviewTypes_url config name); bearer js tok]
       (inl response)] w2 ->
  get_prop response "data" = inl (VArr (first :: rest)) ->
  get_prop first "id" = inl id ->
  exists evs,
    run respond (getreviewTypeId js config name parentSpan) w cache
    = RunResult (Returned id) w2 (<[name := id]> cache) evs
    /\ requests evs
       = [Req m2m_getMachineToken (token_request config) (inl tok);
          Req axios_get [VStr (reviewTypes_url config name); bearer js tok]
            (inl response)].
Proof.
  intros Hmiss (w1 & Htoken & w2' & Hget & <-) Hdata Hid.
  unfold getreviewTypeId. cbn. rewrite Hmiss. cbn.
  rewrite Htoken. cbn. rewrite Hget. cbn. rewrite Hdata. cbn.
  rewrite of_nat_S_eqb_0, Hid. cbn -[object_get object_set].
  rewrite object_set_after_miss, object_get_insert by done.
  eexists. split; reflexivity.
Qed.

(** C6. [getreviewTypeId] reads [reviewTypes] first and, when the name is
    cached, returns the cached id without calling anyone.  On a miss it
    acquires a token with the client id and secret and sends one GET of
    [SUBMISSION_API_URL/reviewTypes?name=] followed by that name, with the
    token as bearer; with a result set that is not empty it stores the id
    of the first result and returns it, with an empty result set it returns
    null and stores nothing. *)
Theorem getreviewTypeId_cache_then_lookup name parentSpan w cache :
  let r := run respond (getreviewTypeId js config name parentSpan) w cache in
  (truthy (object_get cache name) = true ->
     result r = Returned (object_get cache name)
     /\ requests (events r) = []
     /\ reviewTypes_after r = cache)
  /\ (truthy (object_get cache name) = false ->
      forall tok response items w2,
        let lookup :=
          [Req m2m_getMachineToken
             [VStr (AUTH0_CLIENT_ID config); VStr (AUTH0_CLIENT_SECRET config)]
             (inl tok);
           Req axios_get
             [VStr (SUBMISSION_API_URL config +:+ "/reviewTypes?name=" +:+ name);
              VObj [("headers",
                     VObj [("Authorization",
                            VStr ("Bearer " +:+ to_str js tok))])]]
             (inl response)] in
        answered respond w lookup w2 ->
        get_prop response "data" = inl (VArr items) ->
        requests (events r) = lookup
        /\ match items with
           | [] => result r = Returned VNull /\ reviewTypes_after r = cache
           | first :: _ =>
               forall id, get_prop first "id" = inl id ->
                 result r = Returned id
                 /\ reviewTypes_after r = <[name := id]> cache
           end).
Proof.
  intros r. subst r. split.
  - intros Hhit. by rewrite getreviewTypeId_hit.
  - intros Hmiss tok response items w2 lookup Hanswered Hdata. subst lookup.
    fold (token_request config) (reviewTypes_url config name) (bearer js tok)
      in Hanswered |- *.
    destruct items as [|first rest].
    + destruct (getreviewTypeId_miss_empty name parentSpan _ _ _ _ _
                  Hmiss Hanswered Hdata) as (evs & -> & Hreq).
      done.
    + split.
      * destruct Hanswered as (w1 & Htoken & w2' & Hget & <-).
        unfold getreviewTypeId. cbn. rewrite Hmiss. cbn.
        rewrite Htoken. cbn. rewrite Hget. cbn. rewrite Hdata. cbn.
        rewrite of_nat_S_eqb_0. cbn -[object_get object_set].
        by destruct (get_prop first "id").
      * intros id Hid.
        destruct (getreviewTypeId_miss_found name parentSpan _ _ _ _ _ _ _ _
                    Hmiss Hanswered Hdata Hid) as (evs & -> & Hreq).
        done.
Qed.
(** C7, as amended.  For a name that is not cached yet and whose lookup is
    answered with a result set that is not empty and whose first id is
    truthy: two successive calls send one GET in all (after one token
    acquisition), and the second call is served from the cache without
    calling anyone. *)
Theorem getreviewTypeId_twice_one_lookup name span1 span2 w cache tok response
    first rest id w2 :
  truthy (object_get cache name) = false ->
  answered respond w
    [Req m2m_getMachineToken (token_request config) (inl tok);
     Req axios_get [VStr (reviewTypes_url config name); bearer js tok]
       (inl response)] w2 ->
  get_prop response "data" = inl (VArr (first :: rest)) ->
  get_prop first "id" = inl id ->
  truthy id = true ->
  let r1 := run respond (getreviewTypeId js config name span1) w cache in
  let r2 := run respond (getreviewTypeId js config name span2)
              (world_after r1) (reviewTypes_after r1) in
  result r1 = Returned id
  /\ result r2 = Returned id
  /\ requests (events r2) = []
  /\ requests (events r1 ++ events r2)
     = [Req m2m_getMachineToken (token_request config) (inl tok);
        Req axios_get [VStr (reviewTypes_url config name); bearer js tok]
          (inl response)]
  /\ http_calls (events r1 ++ events r2)
     = [Req axios_get [VStr (reviewTypes_url config name); bearer js tok]
          (inl response)].
Proof.
  intros Hmiss Hanswered Hdata Hid Htruthy r1 r2. subst r1 r2.
  destruct (getreviewTypeId_miss_found name span1 _ _ _ _ _ _ _ _
              Hmiss Hanswered Hdata Hid) as (evs & -> & Hreq).
  cbn [world_after reviewTypes_after result events].
  rewrite getreviewTypeId_hit by (by rewrite object_get_insert).
  rewrite object_get_insert.
  cbn [result events].
  rewrite requests_app, Hreq, http_calls_app.
  repeat split; try done.
  by rewrite <- (http_calls_requests evs), Hreq.
Qed.

(** A download that returned made exactly one call, which was fulfilled,
    and left [reviewTypes] alone. *)
Lemma downloadFile_returned fileURL parentSpan w cache body w' cache' evs :
  run respond (downloadFile js fileURL parentSpan) w cache
    = RunResult (Returned body) w' cache' evs ->
  cache' = cache
  /\ exists f args file,
       requests evs = [Req f args (inl file)]
       /\ respond w f args = (inl file, w')
       /\ (f = s3_getObject
             /\ (exists location bucket key,
                   AmazonS3URI js fileURL = inl location
                   /\ get_prop location "bucket" = inl bucket
                   /\ get_prop location "key" = inl key
                   /\ args = storage_fetch bucket key)
           \/ f = axios_get /\ args = generic_fetch fileURL).
Proof.
  unfold downloadFile. cbn.
  destruct (amazonaws_test (to_str js fileURL)).
  - destruct (AmazonS3URI js fileURL) as [location|e] eqn:Hparse; cbn; [|done].
    destruct (get_prop location "bucket") as [bucket|e] eqn:Hbucket; cbn;
      [|done].
    destruct (get_prop location "key") as [key|e] eqn:Hkey; cbn; [|done].
    destruct (respond w s3_getObject (storage_fetch bucket key))
      as [[file|e] w1] eqn:Hfetch; cbn; [|done].
    destruct (get_prop file "Body") as [b|e]; cbn; [|done].
    intros [= <- <- <- <-]. split; [done|].
    exists s3_getObject, (storage_fetch bucket key), file. cbn.
    split; [done|]. split; [done|]. left. split; [done|].
    by exists location, bucket, key.
  - cbn.
    destruct (respond w axios_get (generic_fetch fileURL))
      as [[file|e] w1] eqn:Hfetch; cbn; [|done].
    destruct (get_prop file "data") as [b|e]; cbn; [|done].
    intros [= <- <- <- <-]. split; [done|].
    exists axios_get, (generic_fetch fileURL), file. cbn. eauto.
Qed.

(** What a download returns is the [Body] of the storage's answer or the
    [data] of the network answer. *)
Lemma downloadFile_returned_part fileURL parentSpan w cache body w' cache' evs :
  run respond (downloadFile js fileURL parentSpan) w cache
    = RunResult (Returned body) w' cache' evs ->
  forall f args file,
    requests evs = [Req f args (inl file)] ->
    (f = s3_getObject -> get_prop file "Body" = inl body)
    /\ (f = axios_get -> get_prop file "data" = inl body).
Proof.
  unfold downloadFile. cbn.
  destruct (amazonaws_test (to_str js fileURL)).
  - destruct (AmazonS3URI js fileURL) as [location|e]; cbn; [|done].
    destruct (get_prop location "bucket") as [bucket|e]; cbn; [|done].
    destruct (get_prop location "key") as [key|e]; cbn; [|done].
    destruct (respond w s3_getObject (storage_fetch bucket key))
      as [[file|e] w1]; cbn; [|done].
    destruct (get_prop file "Body") as [b|e] eqn:Hbody; cbn; [|done].
    intros [= <- <- <- <-] f args file'. cbn. intros [= <- <- <-]. done.
  - cbn.
    destruct (respond w axios_get (generic_fetch fileURL))
      as [[file|e] w1]; cbn; [|done].
    destruct (get_prop file "data") as [b|e] eqn:Hdata; cbn; [|done].
    intros [= <- <- <- <-] f args file'. cbn. intros [= <- <- <-]. done.
Qed.

(** C8, as amended.  [downloadFile] takes the storage path exactly when
    the text of the URL contains [amazonaws]: it then has the library parse
    bucket and key out of the URL and, when that succeeds, fetches the
    object from the storage service and from nowhere else; when the parse
    throws, it fetches nothing.  A URL without [amazonaws] is fetched as a
    generic network resource.  In both cases the answer is the one call's
    answer. *)
Theorem downloadFile_dispatch_on_pattern fileURL parentSpan w cache :
  let r := run respond (downloadFile js fileURL parentSpan) w cache in
  (amazonaws_test (to_str js fileURL) = true ->
     (forall location bucket key,
        AmazonS3URI js fileURL = inl location ->
        get_prop location "bucket" = inl bucket ->
        get_prop location "key" = inl key ->
        requests (events r)
        = [Req s3_getObject (storage_fetch bucket key)
             (respond w s3_getObject (storage_fetch bucket key)).1])
     /\ (forall e, AmazonS3URI js fileURL = inr e ->
          result r = Thrown e /\ requests (events r) = []))
  /\ (amazonaws_test (to_str js fileURL) = false ->
      requests (events r)
      = [Req axios_get (generic_fetch fileURL)
           (respond w axios_get (generic_fetch fileURL)).1]).
Proof.
  intros r. subst r. unfold downloadFile. cbn. split.
  - intros ->. split.
    + intros location bucket key -> . cbn. intros -> . cbn. intros -> . cbn.
      destruct (respond w s3_getObject (storage_fetch bucket key))
        as [[file|e] w1]; cbn; [|done].
      by destruct (get_prop file "Body").
    + by intros e ->.
  - intros ->. cbn.
    destruct (respond w axios_get (generic_fetch fileURL))
      as [[file|e] w1]; cbn; [|done].
    by destruct (get_prop file "data").
Qed.

(** Whatever the answers, [moveFile] asks for the copy first and for the
    delete only after the copy was fulfilled. *)
Lemma moveFile_requests sourceBucket sourceKey targetBucket targetKey span
    w cache :
  let copy := copy_request js sourceBucket sourceKey targetBucket targetKey in
  let delete := delete_request sourceBucket sourceKey in
  requests (events (run respond
    (moveFile js sourceBucket sourceKey targetBucket targetKey span) w cache))
  = match respond w s3_copyObject copy with
    | (inl copied, w1) =>
        [Req s3_copyObject copy (inl copied);
         Req s3_deleteObject delete (respond w1 s3_deleteObject delete).1]
    | (inr e, _) => [Req s3_copyObject copy (inr e)]
    end.
Proof.
  unfold moveFile. cbn.
  destruct (respond w s3_copyObject _) as [[copied|e] w1]; cbn; [|done].
  by destruct (respond w1 s3_deleteObject _) as [[deleted|e] w2].
Qed.
End Helper.

(** ** Moving an object in the storage *)

Section Storage.
Variable js : Builtins.
Variable rejects_missing_source : bool.

(** [moveFile] against the storage: with the source object there, the move
    returns and the object is at the target and no longer at the source;
    without it, the storage is as it was. *)
Lemma moveFile_storage_after sb sk tb tk span (s : gmap string value) cache :
  world_after (run (s3_respond rejects_missing_source)
    (moveFile js (VStr sb) (VStr sk) (VStr tb) (VStr tk) span) s cache)
  = match s !! object_path sb sk with
    | Some body => delete (object_path sb sk) (<[object_path tb tk := body]> s)
    | None => s
    end.
Proof.
  unfold moveFile. cbn. fold (object_path sb sk). fold (object_path tb tk).
  destruct (s !! object_path sb sk) as [body|] eqn:Hsource; [done|].
  destruct rejects_missing_source; cbn; [done|].
  by apply delete_id.
Qed.

Lemma moveFile_storage_result sb sk tb tk span (s : gmap string value) cache
    body :
  s !! object_path sb sk = Some body ->
  result (run (s3_respond rejects_missing_source)
    (moveFile js (VStr sb) (VStr sk) (VStr tb) (VStr tk) span) s cache)
  = Returned tt.
Proof.
  intros Hsource.
  unfold moveFile. cbn. fold (object_path sb sk). fold (object_path tb tk).
  by rewrite Hsource.
Qed.

(** C9. [moveFile] asks for the copy to the destination first and, once it
    is fulfilled, for the delete of the source.  On the storage, with the
    source object there, one run returns and leaves the object at the
    destination only; running the whole sequence again from the state a run
    stopped in after the copy, or from the state a complete run left, ends
    in that same state. *)
Theorem moveFile_copy_then_delete_retry sb sk tb tk span :
  let move := moveFile js (VStr sb) (VStr sk) (VStr tb) (VStr tk) span in
  let copy := copy_request js (VStr sb) (VStr sk) (VStr tb) (VStr tk) in
  let delete_source := delete_request (VStr sb) (VStr sk) in
  let source := object_path sb sk in
  let target := object_path tb tk in
  (forall (W : Type) (respond : W -> callee -> list value -> completion * W)
          (w : W) cache,
     requests (events (run respond move w cache))
     = match respond w s3_copyObject copy with
       | (inl copied, w1) =>
           [Req s3_copyObject copy (inl copied);
            Req s3_deleteObject delete_source
              (respond w1 s3_deleteObject delete_source).1]
       | (inr e, _) => [Req s3_copyObject copy (inr e)]
       end)
  /\ (forall (s : gmap string value) cache body,
        s !! source = Some body ->
        let once := run (s3_respond rejects_missing_source) move s cache in
        result once = Returned tt
        /\ world_after once = delete source (<[target := body]> s)
        /\ (forall cache',
              world_after (run (s3_respond rejects_missing_source) move (<[target := body]> s) cache')
              = world_after once)
        /\ (forall cache',
              world_after (run (s3_respond rejects_missing_source) move (world_after once) cache')
              = world_after once)).
Proof.
  intros move copy delete_source source target. split.
  - intros W respond w cache. apply moveFile_requests.
  - intros s cache body Hsource once. subst once move source target.
    rewrite (moveFile_storage_result _ _ _ _ _ _ _ body Hsource).
    rewrite !moveFile_storage_after, Hsource.
    repeat split.
    + intros cache'. rewrite moveFile_storage_after.
      destruct (decide (object_path tb tk = object_path sb sk)) as [Heq|Hne].
      * rewrite Heq, lookup_insert_eq. by rewrite insert_insert_eq.
      * rewrite lookup_insert_ne, Hsource by done. by rewrite insert_insert_eq.
    + intros cache'. rewrite moveFile_storage_after.
      by rewrite lookup_delete_eq.
Qed.
End Storage.

(** ** src/services/ProcessorService.js *)

Section Processor.
Context {W : Type}.
Variable respond : W -> callee -> list value -> completion * W.
Variable js : Builtins.
Variable config : Config.

Lemma processCreate_present message span id fileType found scanned w w2 cache :
  payload_prop message "id" = inl id ->
  payload_prop message "resource" = inl (VStr "submission") ->
  payload_prop message "fileType" = inl fileType ->
  let fileName := to_str js id +:+ "." +:+ to_str js fileType in
  answered respond w
    [Req s3_getObject (dmz_probe config fileName) (inl found);
     Req axios_post (scan_request config id fileName) (inl scanned)] w2 ->
  let r := run respond (processCreate js config message span) w cache in
  result r = Returned (VBool true)
  /\ requests (events r)
     = [Req s3_getObject (dmz_probe config fileName) (inl found);
        Req axios_post (scan_request config id fileName) (inl scanned)].
Proof.
  intros Hid Hresource HfileType fileName (w1 & Hprobe & w2' & Hscan & <-).
  unfold processCreate.
  destruct span as [s|]; cbn; rewrite Hid; cbn; rewrite Hresource; cbn;
    rewrite HfileType; cbn; fold fileName; rewrite Hprobe; cbn;
    rewrite Hscan; cbn; done.
Qed.

Lemma processCreate_absent message span id fileType url e body uploaded scanned
    w w1 w2 w4 cache cache2 evs :
  payload_prop message "id" = inl id ->
  payload_prop message "resource" = inl (VStr "submission") ->
  payload_prop message "fileType" = inl fileType ->
  payload_prop message "url" = inl url ->
  let fileName := to_str js id +:+ "." +:+ to_str js fileType in
  respond w s3_getObject (dmz_probe config fileName) = (inr e, w1) ->
  get_prop e "statusCode" = inl (VNum 404) ->
  run respond
    (downloadFile js url (default "ProcessorService.processCreate" span))
    w1 cache
  = RunResult (Returned body) w2 cache2 evs ->
  answered respond w2
    [Req s3_upload (dmz_upload config fileName body) (inl uploaded);
     Req axios_post (scan_request config id fileName) (inl scanned)] w4 ->
  let r := run respond (processCreate js config message span) w cache in
  result r = Returned (VBool true)
  /\ requests (events r)
     = [Req s3_getObject (dmz_probe config fileName) (inr e)]
       ++ requests evs
       ++ [Req s3_upload (dmz_upload config fileName body) (inl uploaded);
           Req axios_post (scan_request config id fileName) (inl scanned)].
Proof.
  intros Hid Hresource HfileType Hurl fileName Hprobe Hstatus Hdownload
    (w3 & Hupload & w4' & Hscan & <-).
  unfold processCreate.
  destruct span as [s|]; cbn -[downloadFile] in *; rewrite Hid; cbn -[downloadFile]; rewrite Hresource; cbn -[downloadFile];
    rewrite HfileType; cbn -[downloadFile]; fold fileName; rewrite Hprobe; cbn -[downloadFile];
    rewrite Hstatus; cbn -[downloadFile]; rewrite Hurl; cbn -[downloadFile];
    rewrite !run_bind, Hdownload; cbn; rewrite Hupload; cbn; rewrite Hscan; cbn;
    rewrite ?requests_app; cbn; rewrite <- ?app_assoc; done.
Qed.

(** C3. A create message for a submission.  When the probe of the DMZ
    bucket for the key [id.fileType] is rejected with status 404,
    [processCreate] runs one download of [payload.url], which makes one
    call (to the storage for the bucket and key parsed out of the URL, or a
    GET of the URL itself as an array buffer), uploads the [Body] or [data]
    of its answer to the DMZ bucket under that key, then sends one scan
    request to the antivirus API, naming the submission, the file and its
    DMZ URL; when the probe finds the object, it downloads and uploads
    nothing and sends the scan request.  In both cases it returns true. *)
Theorem processCreate_stages_once_then_scans message span id fileType w cache :
  payload_prop message "id" = inl id ->
  payload_prop message "resource" = inl (VStr "submission") ->
  payload_prop message "fileType" = inl fileType ->
  let fileName := to_str js id +:+ "." +:+ to_str js fileType in
  let probe :=
    [VObj [("Bucket", VStr (DMZ_BUCKET config)); ("Key", VStr fileName)]] in
  let upload body :=
    [VObj [("Bucket", VStr (DMZ_BUCKET config)); ("Key", VStr fileName);
           ("Body", body)]] in
  let scan :=
    [VStr (ANTIVIRUS_API_URL config);
     VObj [("submissionId", id);
           ("url", VStr ("https://s3.amazonaws.com/" +:+ DMZ_BUCKET config
                         +:+ "/" +:+ fileName));
           ("fileName", VStr fileName)];
     VObj [("maxContentLength", VNum (MAXFILESIZE config))]] in
  let r := run respond (processCreate js config message span) w cache in
  (forall e url body uploaded scanned w1 w2 w4 cache2 evs,
     respond w s3_getObject probe = (inr e, w1) ->
     get_prop e "statusCode" = inl (VNum 404) ->
     payload_prop message "url" = inl url ->
     run respond
       (downloadFile js url (default "ProcessorService.processCreate" span))
       w1 cache
     = RunResult (Returned body) w2 cache2 evs ->
     answered respond w2
       [Req s3_upload (upload body) (inl uploaded);
        Req axios_post scan (inl scanned)] w4 ->
     result r = Returned (VBool true)
     /\ (exists f args file,
           requests evs = [Req f args (inl file)]
           /\ (f = s3_getObject
                 /\ (exists location bucket key,
                       AmazonS3URI js url = inl location
                       /\ get_prop location "bucket" = inl bucket
                       /\ get_prop location "key" = inl key
                       /\ args = [VObj [("Bucket", bucket); ("Key", key)]])
                 /\ get_prop file "Body" = inl body
               \/ f = axios_get
                  /\ args = [url; VObj [("responseType", VStr "arraybuffer")]]
                  /\ get_prop file "data" = inl body)
           /\ requests (events r)
              = [Req s3_getObject probe (inr e);
                 Req f args (inl file);
                 Req s3_upload (upload body) (inl uploaded);
                 Req axios_post scan (inl scanned)]))
  /\ (forall found scanned w2,
        answered respond w
          [Req s3_getObject probe (inl found);
           Req axios_post scan (inl scanned)] w2 ->
        result r = Returned (VBool true)
        /\ requests (events r)
           = [Req s3_getObject probe (inl found);
              Req axios_post scan (inl scanned)]).
Proof.
  intros Hid Hresource HfileType fileName probe upload scan r.
  subst probe upload scan.
  fold (dmz_probe config fileName) (scan_request config id fileName).
  split.
  - intros e url body uploaded scanned w1 w2 w4 cache2 evs
      Hprobe Hstatus Hurl Hdownload Hanswered.
    fold (dmz_upload config fileName body) in Hanswered |- *.
    destruct (processCreate_absent message span id fileType url e body
                uploaded scanned w w1 w2 w4 cache cache2 evs
                Hid Hresource HfileType Hurl Hprobe Hstatus Hdownload Hanswered)
      as [Hresult Hrequests].
    split; [exact Hresult|].
    destruct (downloadFile_returned respond js _ _ _ _ _ _ _ _ Hdownload)
      as (_ & f & args & file & Hone & _ & Hwhich).
    destruct (downloadFile_returned_part respond js _ _ _ _ _ _ _ _ Hdownload
                f args file Hone) as [Hbody Hdata].
    exists f, args, file. split; [exact Hone|]. split.
    + destruct Hwhich as [[Hf Hparsed] | [Hf Hargs]].
      * left. split; [exact Hf|]. split; [exact Hparsed | exact (Hbody Hf)].
      * right. split; [exact Hf|]. split; [exact Hargs | exact (Hdata Hf)].
    + subst r. rewrite Hrequests, Hone. done.
  - intros found scanned w2 Hanswered.
    by apply (processCreate_present message span id fileType found scanned w w2).
Qed.

(** The calls of [processScan] before and after the review-type lookup. *)
Lemma processScan_run message span isInfected submissionId fileName
    copied deleted tok1 patched reviewerId typeId tok2 posted
    w w5 w6 w8 cache cache' evs :
  payload_prop message "submissionId" = inl submissionId ->
  payload_prop message "fileName" = inl fileName ->
  payload_prop message "isInfected" = inl isInfected ->
  let destination :=
    if truthy isInfected then QUARANTINE_BUCKET config else CLEAN_BUCKET config in
  let before_lookup :=
    [Req s3_copyObject
       (copy_request js (VStr (DMZ_BUCKET config)) fileName
                     (VStr destination) fileName) (inl copied);
     Req s3_deleteObject
       (delete_request (VStr (DMZ_BUCKET config)) fileName) (inl deleted);
     Req m2m_getMachineToken (token_request config) (inl tok1);
     Req axios_patch
       [VStr (submission_url js config submissionId);
        VObj [("url", VStr (moved_url js destination fileName))];
        bearer js tok1] (inl patched);
     Req uuid [] (inl reviewerId)] in
  let after_lookup :=
    [Req m2m_getMachineToken (token_request config) (inl tok2);
     Req axios_post
       [VStr (reviews_url config);
        review_body isInfected reviewerId submissionId typeId;
        bearer js tok2] (inl posted)] in
  answered respond w before_lookup w5 ->
  run respond
    (getreviewTypeId js config AV_SCAN
       (default "ProcessorService.processScan" span)) w5 cache
  = RunResult (Returned typeId) w6 cache' evs ->
  answered respond w6 after_lookup w8 ->
  let r := run respond (processScan js config message span) w cache in
  result r = Returned VUndefined
  /\ requests (events r) = before_lookup ++ requests evs ++ after_lookup.
Proof.
  intros HsubmissionId HfileName HisInfected destination before_lookup
    after_lookup
    (w1 & Hcopy & w2 & Hdelete & w3 & Htoken1 & w4 & Hpatch & w5' & Huuid & <-)
    Hlookup (w7 & Htoken2 & w8' & Hpost & <-).
  unfold processScan. subst destination.
  destruct span as [s|]; cbn -[getreviewTypeId] in *;
    rewrite HsubmissionId; cbn -[getreviewTypeId];
    rewrite HfileName; cbn -[getreviewTypeId];
    rewrite HisInfected; cbn -[getreviewTypeId];
    destruct (truthy isInfected); cbn -[getreviewTypeId];
    rewrite Hcopy; cbn -[getreviewTypeId];
    rewrite Hdelete; cbn -[getreviewTypeId];
    rewrite Htoken1; cbn -[getreviewTypeId];
    rewrite Hpatch; cbn -[getreviewTypeId];
    rewrite Huuid; cbn -[getreviewTypeId];
    rewrite !run_bind, Hlookup; cbn;
    rewrite Htoken2; cbn; rewrite Hpost; cbn;
    rewrite ?requests_app; cbn; rewrite <- ?app_assoc; done.
Qed.

(** C2. A scan message with [isInfected] true moves the object from the
    DMZ area to the quarantine area and posts a review with score 0; with
    [isInfected] false it moves it to the clean area and posts score 100.
    In both cases the move (copy, then delete of the DMZ object) comes
    first, then the PATCH of the submission with the URL of the moved
    object, then the review, which carries the score card id 30001850 and
    the type id the lookup gave. *)
Theorem processScan_moves_patches_reviews message span (b : bool)
    submissionId fileName copied deleted tok1 patched reviewerId typeId tok2
    posted w w5 w6 w8 cache cache' evs :
  payload_prop message "submissionId" = inl submissionId ->
  payload_prop message "fileName" = inl fileName ->
  payload_prop message "isInfected" = inl (VBool b) ->
  let destination :=
    if b then QUARANTINE_BUCKET config else CLEAN_BUCKET config in
  let score := if b then 0 else 100 in
  let moved :=
    "https://s3.amazonaws.com/" +:+ destination +:+ "/" +:+ to_str js fileName in
  let before_lookup :=
    [Req s3_copyObject
       [VObj [("Bucket", VStr destination);
              ("CopySource",
               VStr ("/" +:+ DMZ_BUCKET config +:+ "/" +:+ to_str js fileName));
              ("Key", fileName)]] (inl copied);
     Req s3_deleteObject
       [VObj [("Bucket", VStr (DMZ_BUCKET config)); ("Key", fileName)]]
       (inl deleted);
     Req m2m_getMachineToken (token_request config) (inl tok1);
     Req axios_patch
       [VStr (SUBMISSION_API_URL config +:+ "/submissions/"
              +:+ to_str js submissionId);
        VObj [("url", VStr moved)];
        bearer js tok1] (inl patched);
     Req uuid [] (inl reviewerId)] in
  let after_lookup :=
    [Req m2m_getMachineToken (token_request config) (inl tok2);
     Req axios_post
       [VStr (SUBMISSION_API_URL config +:+ "/reviews");
        VObj [("score", VNum score);
              ("reviewerId", reviewerId);
              ("submissionId", submissionId);
              ("scoreCardId", VStr "30001850");
              ("typeId", typeId)];
        bearer js tok2] (inl posted)] in
  answered respond w before_lookup w5 ->
  run respond
    (getreviewTypeId js config "Virus Scan"
       (default "ProcessorService.processScan" span)) w5 cache
  = RunResult (Returned typeId) w6 cache' evs ->
  answered respond w6 after_lookup w8 ->
  let r := run respond (processScan js config message span) w cache in
  result r = Returned VUndefined
  /\ requests (events r) = before_lookup ++ requests evs ++ after_lookup.
Proof.
  intros HsubmissionId HfileName HisInfected destination score moved
    before_lookup after_lookup Hbefore Hlookup Hafter.
  exact (processScan_run message span (VBool b) submissionId fileName
           copied deleted tok1 patched reviewerId typeId tok2 posted
           w w5 w6 w8 cache cache' evs
           HsubmissionId HfileName HisInfected Hbefore Hlookup Hafter).
Qed.

(** C10. When [Virus Scan] is not cached and its lookup is answered with an
    empty result set, [processScan] does not fail: after the move and the
    PATCH of the submission it posts the review, with [typeId] null. *)
Theorem processScan_posts_review_without_type message span isInfected
    submissionId fileName copied deleted tok1 patched reviewerId tok0 response
    tok2 posted w w9 cache :
  payload_prop message "submissionId" = inl submissionId ->
  payload_prop message "fileName" = inl fileName ->
  payload_prop message "isInfected" = inl isInfected ->
  truthy (object_get cache AV_SCAN) = false ->
  get_prop response "data" = inl (VArr []) ->
  let destination :=
    if truthy isInfected then QUARANTINE_BUCKET config else CLEAN_BUCKET config in
  let calls :=
    [Req s3_copyObject
       (copy_request js (VStr (DMZ_BUCKET config)) fileName
                     (VStr destination) fileName) (inl copied);
     Req s3_deleteObject
       (delete_request (VStr (DMZ_BUCKET config)) fileName) (inl deleted);
     Req m2m_getMachineToken (token_request config) (inl tok1);
     Req axios_patch
       [VStr (submission_url js config submissionId);
        VObj [("url", VStr (moved_url js destination fileName))];
        bearer js tok1] (inl patched);
     Req uuid [] (inl reviewerId);
     Req m2m_getMachineToken (token_request config) (inl tok0);
     Req axios_get [VStr (reviewTypes_url config AV_SCAN); bearer js tok0]
       (inl response);
     Req m2m_getMachineToken (token_request config) (inl tok2);
     Req axios_post
       [VStr (reviews_url config);
        VObj [("score", VNum (if truthy isInfected then 0 else 100));
              ("reviewerId", reviewerId);
              ("submissionId", submissionId);
              ("scoreCardId", VStr REVIEW_SCORECARDID);
              ("typeId", VNull)];
        bearer js tok2] (inl posted)] in
  answered respond w calls w9 ->
  let r := run respond (processScan js config message span) w cache in
  result r = Returned VUndefined /\ requests (events r) = calls.
Proof.
  intros HsubmissionId HfileName HisInfected Hmiss Hdata destination calls
    (w1 & Hcopy & w2 & Hdelete & w3 & Htoken1 & w4 & Hpatch & w5 & Huuid
     & w6 & Htoken0 & w7 & Hget & w8 & Htoken2 & w9' & Hpost & <-).
  destruct (getreviewTypeId_miss_empty respond js config AV_SCAN
              (default "ProcessorService.processScan" span)
              w5 cache tok0 response w7 Hmiss) as (evs & Hlookup & Hrequests);
    [cbn; eauto 10 | done |].
  destruct (processScan_run message span isInfected submissionId fileName
              copied deleted tok1 patched reviewerId VNull tok2 posted
              w w5 w7 w9' cache cache evs
              HsubmissionId HfileName HisInfected) as [Hresult Hcalls];
    [cbn; eauto 15 | exact Hlookup | cbn; eauto 10 |].
  split; [exact Hresult|].
  rewrite Hcalls, Hrequests. done.
Qed.
End Processor.

(** ** Examples *)

(** Scenario B arrives on the scan topic at offset 42 and every call is
    fulfilled: the offset is committed. *)
Lemma dataHandler_commits_scenario_B :
  commits (events (run script_respond
    (handle test_js test_config "avscan.action.scan" 0 (kafka 42 text_scan))
    (scan_script [virus_scan_type]) ∅))
  = [("avscan.action.scan", 0, 42)].
Proof.
  rewrite (proj1 (dataHandler_commits_iff_workflow_completes
                    script_respond test_js test_config)).
  vm_compute. reflexivity.
Defined.

Lemma handle_malformed_json_witness :
  JSON_parse test_js
    (Buffer_toString_utf8 test_js (message_value (kafka 3 "{not json")))
  = SyntaxError "Unexpected token" ""
  /\ let r := run script_respond
                (handle test_js test_config "avscan.action.scan" 0
                        (kafka 3 "{not json")) [] ∅ in
     result r = Returned tt
     /\ commits (events r) = []
     /\ requests (events r) = []
     /\ logged error (events r)
        = [VStr "Invalid message JSON.";
           VError "SyntaxError" "Unexpected token" ""].
Proof.
  split; [reflexivity|].
  apply (handle_malformed_json script_respond test_js test_config).
  reflexivity.
Defined.

Lemma handle_missing_payload_throws_witness :
  JSON_parse test_js
    (Buffer_toString_utf8 test_js (message_value (kafka 7 text_without_payload)))
  = Parsed envelope_without_payload
  /\ get_prop envelope_without_payload "payload" = inl VUndefined
  /\ let r := run script_respond
                (handle test_js test_config "avscan.action.scan" 0
                        (kafka 7 text_without_payload)) [] ∅ in
     (exists message, result r = Thrown (TypeError message))
     /\ logged error (events r) = []
     /\ commits (events r) = [].
Proof.
  split; [reflexivity|]. split; [reflexivity|].
  destruct (handle_missing_payload_throws script_respond test_js test_config
              "avscan.action.scan" 0 (kafka 7 text_without_payload)
              envelope_without_payload VUndefined [] ∅
              eq_refl eq_refl eq_refl (or_introl eq_refl) (or_introl eq_refl))
    as (Hthrown & _ & _ & Hlogged & Hcommits).
  exact (conj Hthrown (conj Hlogged Hcommits)).
Defined.

Lemma getreviewTypeId_cache_then_lookup_witness :
  let r := run script_respond
             (getreviewTypeId test_js test_config "Virus Scan" "span")
             [token; review_types [virus_scan_type]] ∅ in
  let cached : gmap string value := {["Virus Scan" := VStr "rt-virus-scan"]} in
  let r' := run script_respond
              (getreviewTypeId test_js test_config "Virus Scan" "span")
              [] cached in
  truthy (object_get ∅ "Virus Scan") = false
  /\ requests (events r)
     = [Req m2m_getMachineToken [VStr "client"; VStr "secret"]
          (inl (VStr "t0k3n"));
        Req axios_get
          [VStr "https://api.example.com/v5/reviewTypes?name=Virus Scan";
           VObj [("headers", VObj [("Authorization", VStr "Bearer t0k3n")])]]
          (inl (VObj [("data",
                       VArr [VObj [("id", VStr "rt-virus-scan");
                                   ("name", VStr "Virus Scan")]])]))]
  /\ result r = Returned (VStr "rt-virus-scan")
  /\ reviewTypes_after r = cached
  /\ truthy (object_get cached "Virus Scan") = true
  /\ result r' = Returned (VStr "rt-virus-scan")
  /\ requests (events r') = []
  /\ reviewTypes_after r' = cached.
Proof.
  intros r cached r'.
  assert (Hmiss : truthy (object_get ∅ "Virus Scan") = false)
    by (vm_compute; reflexivity).
  assert (Hhit : truthy (object_get cached "Virus Scan") = true)
    by (vm_compute; reflexivity).
  split; [exact Hmiss|].
  destruct (proj2 (getreviewTypeId_cache_then_lookup script_respond test_js
                     test_config "Virus Scan" "span"
                     [token; review_types [virus_scan_type]] ∅)
              Hmiss (VStr "t0k3n")
              (VObj [("data", VArr [virus_scan_type])]) [virus_scan_type] [])
    as [Hrequests Hfound].
  - cbn. eauto.
  - reflexivity.
  - split; [exact Hrequests|].
    split; [exact (proj1 (Hfound (VStr "rt-virus-scan") eq_refl))|].
    split; [exact (proj2 (Hfound (VStr "rt-virus-scan") eq_refl))|].
    split; [exact Hhit|].
    destruct (proj1 (getreviewTypeId_cache_then_lookup script_respond test_js
                       test_config "Virus Scan" "span" [] cached) Hhit)
      as (Hresult & Hnone & Hcache).
    split; [|exact (conj Hnone Hcache)].
    etransitivity; [exact Hresult|]. vm_compute. reflexivity.
Defined.

(** C7, the claim as stated fails: the review type does not exist yet, the
    lookup is answered with an empty result set both times, nothing is
    cached and the second call sends a GET of its own. *)
Lemma getreviewTypeId_twice_empty_result_two_lookups :
  let r1 := run script_respond
              (getreviewTypeId test_js test_config "Virus Scan" "first")
              [token; review_types []; token; review_types []] ∅ in
  let r2 := run script_respond
              (getreviewTypeId test_js test_config "Virus Scan" "second")
              (world_after r1) (reviewTypes_after r1) in
  result r1 = Returned VNull
  /\ result r2 = Returned VNull
  /\ length (http_calls (events r1 ++ events r2)) = 2%nat
  /\ length (http_calls (events r1 ++ events r2)) <> 1%nat.
Proof. vm_compute. repeat split. discriminate. Qed.

Lemma getreviewTypeId_twice_one_lookup_witness :
  let r1 := run script_respond
              (getreviewTypeId test_js test_config "Virus Scan" "first")
              [token; review_types [virus_scan_type]] ∅ in
  let r2 := run script_respond
              (getreviewTypeId test_js test_config "Virus Scan" "second")
              (world_after r1) (reviewTypes_after r1) in
  truthy (object_get ∅ "Virus Scan") = false
  /\ truthy (VStr "rt-virus-scan") = true
  /\ result r2 = Returned (VStr "rt-virus-scan")
  /\ requests (events r2) = []
  /\ length (http_calls (events r1 ++ events r2)) = 1%nat.
Proof.
  assert (Hmiss : truthy (object_get ∅ "Virus Scan") = false)
    by (vm_compute; reflexivity).
  split; [exact Hmiss|]. split; [reflexivity|].
  destruct (getreviewTypeId_twice_one_lookup script_respond test_js test_config
              "Virus Scan" "first" "second"
              [token; review_types [virus_scan_type]] ∅ (VStr "t0k3n")
              (VObj [("data", VArr [virus_scan_type])]) virus_scan_type []
              (VStr "rt-virus-scan") [] Hmiss)
    as (_ & Hsecond & Hnone & _ & Hhttp);
    [cbn; eauto | reflexivity | reflexivity | reflexivity |].
  split; [exact Hsecond|]. split; [exact Hnone|].
  rewrite Hhttp. reflexivity.
Defined.

(** C8, the claim as stated fails: the host of this URL is not the storage
    service's, yet its text contains [amazonaws], so [downloadFile] takes
    the storage path; the URL does not parse as a storage URL and nothing
    is fetched, as a generic network resource or otherwise. *)
Lemma downloadFile_amazonaws_in_path_not_fetched :
  let url := "http://example.com/amazonaws.zip" in
  let r := run script_respond (downloadFile test_js (VStr url) "span")
             [normal (VObj [("data", downloaded)])] ∅ in
  url_host url = "example.com"
  /\ points_at_storage_domain url = false
  /\ calls_to axios_get (events r) = []
  /\ requests (events r) = []
  /\ result r
     = Thrown (TypeError
         "Invalid S3 URI: hostname does not appear to be a valid S3 endpoint").
Proof. vm_compute. repeat split. Qed.

Lemma downloadFile_dispatch_on_pattern_witness :
  let storage_url := VStr "https://s3.amazonaws.com/uploads/abc123.zip" in
  let other_url := VStr "http://host/file.zip" in
  let script := [normal (VObj [("Body", downloaded); ("data", downloaded)])] in
  amazonaws_test (to_str test_js storage_url) = true
  /\ amazonaws_test (to_str test_js other_url) = false
  /\ requests (events (run script_respond
                         (downloadFile test_js storage_url "span") script ∅))
     = [Req s3_getObject (storage_fetch (VStr "uploads") (VStr "abc123.zip"))
          (normal (VObj [("Body", downloaded); ("data", downloaded)]))]
  /\ requests (events (run script_respond
                         (downloadFile test_js other_url "span") script ∅))
     = [Req axios_get (generic_fetch other_url)
          (normal (VObj [("Body", downloaded); ("data", downloaded)]))].
Proof.
  intros storage_url other_url script.
  split; [reflexivity|]. split; [reflexivity|]. split.
  - exact (proj1 (proj1 (downloadFile_dispatch_on_pattern script_respond test_js
                           storage_url "span" script ∅) eq_refl)
             _ (VStr "uploads") (VStr "abc123.zip") eq_refl eq_refl eq_refl).
  - exact (proj2 (downloadFile_dispatch_on_pattern script_respond test_js
                    other_url "span" script ∅) eq_refl).
Defined.

Lemma moveFile_copy_then_delete_retry_witness :
  let s : gmap string value := {["/dmz/abc123.zip" := downloaded]} in
  let move := moveFile test_js (VStr "dmz") (VStr "abc123.zip")
                (VStr "quarantine") (VStr "abc123.zip") "span" in
  s !! object_path "dmz" "abc123.zip" = Some downloaded
  /\ world_after (run (s3_respond true) move s ∅)
     = delete "/dmz/abc123.zip" (<["/quarantine/abc123.zip" := downloaded]> s)
  /\ world_after (run (s3_respond true) move
                    (<["/quarantine/abc123.zip" := downloaded]> s) ∅)
     = world_after (run (s3_respond true) move s ∅)
  /\ world_after (run (s3_respond true) move
                    (world_after (run (s3_respond true) move s ∅)) ∅)
     = world_after (run (s3_respond true) move s ∅).
Proof.
  intros s move.
  assert (Hsource : s !! object_path "dmz" "abc123.zip" = Some downloaded)
    by reflexivity.
  split; [exact Hsource|].
  destruct (proj2 (moveFile_copy_then_delete_retry test_js true "dmz"
                     "abc123.zip" "quarantine" "abc123.zip" "span")
              s ∅ downloaded Hsource)
    as (_ & Hafter & Hcrash & Hagain).
  split; [exact Hafter|]. split; [exact (Hcrash ∅) | exact (Hagain ∅)].
Defined.

(** Scenario A: the probe is rejected with status 404, the file comes from
    the given URL, goes to the DMZ area as [abc123.zip] and is sent for
    scanning under that name. *)
Lemma processCreate_stages_once_then_scans_witness :
  let message := create_envelope "http://host/file.zip" in
  let r := run script_respond (processCreate test_js test_config message None)
             create_script ∅ in
  let r' := run script_respond (processCreate test_js test_config message None)
              [normal (VObj [("Body", downloaded)]); fulfilled] ∅ in
  let probe := [VObj [("Bucket", VStr "dmz"); ("Key", VStr "abc123.zip")]] in
  let scan :=
    [VStr "https://av.example.com/scan";
     VObj [("submissionId", VStr "abc123");
           ("url", VStr "https://s3.amazonaws.com/dmz/abc123.zip");
           ("fileName", VStr "abc123.zip")];
     VObj [("maxContentLength", VNum 524288000)]] in
  payload_prop message "resource" = inl (VStr "submission")
  /\ get_prop NoSuchKey "statusCode" = inl (VNum 404)
  /\ (result r' = Returned (VBool true)
      /\ requests (events r')
         = [Req s3_getObject probe (inl (VObj [("Body", downloaded)]));
            Req axios_post scan (inl (VObj []))])
  /\ result r = Returned (VBool true)
  /\ requests (events r)
     = [Req s3_getObject probe (inr NoSuchKey);
        Req axios_get
          [VStr "http://host/file.zip";
           VObj [("responseType", VStr "arraybuffer")]]
          (inl (VObj [("data", downloaded)]));
        Req s3_upload
          [VObj [("Bucket", VStr "dmz"); ("Key", VStr "abc123.zip");
                 ("Body", downloaded)]] (inl (VObj []));
        Req axios_post scan (inl (VObj []))].
Proof.
  intros message r r' probe scan.
  split; [reflexivity|]. split; [reflexivity|].
  split.
  { apply (proj2 (processCreate_stages_once_then_scans script_respond test_js
                    test_config message None (VStr "abc123") (VStr "zip")
                    [normal (VObj [("Body", downloaded)]); fulfilled] ∅
                    eq_refl eq_refl eq_refl)
             (VObj [("Body", downloaded)]) (VObj []) []).
    cbn. eauto. }
  destruct (proj1 (processCreate_stages_once_then_scans script_respond test_js
                     test_config message None (VStr "abc123") (VStr "zip")
                     create_script ∅ eq_refl eq_refl eq_refl)
              NoSuchKey (VStr "http://host/file.zip") downloaded
              (VObj []) (VObj [])
              [normal (VObj [("data", downloaded)]); fulfilled; fulfilled]
              [fulfilled; fulfilled] [] ∅
              [Out (tracer_startChildSpans "downloadFile"
                      "ProcessorService.processCreate");
               Out (span_setTag "downloadFile" "http.url"
                      (VStr "http://host/file.zip"));
               Out (logger info (VStr
                 "downloadFile(): file is (hopefully) a public URL at http://host/file.zip"));
               Req axios_get
                 [VStr "http://host/file.zip";
                  VObj [("responseType", VStr "arraybuffer")]]
                 (normal (VObj [("data", downloaded)]));
               Out (span_finish "downloadFile")])
    as (Hresult & f & args & file & Hone & _ & Hrequests);
    [reflexivity | reflexivity | reflexivity | reflexivity | cbn; eauto |].
  split; [exact Hresult|].
  injection Hone as <- <- <-. exact Hrequests.
Defined.

(** Scenario B: the infected file goes from the DMZ area to the quarantine
    area and the review has score 0. *)
Lemma processScan_moves_patches_reviews_witness :
  let message := scan_envelope true in
  let r := run script_respond (processScan test_js test_config message None)
             (scan_script [virus_scan_type]) ∅ in
  payload_prop message "isInfected" = inl (VBool true)
  /\ result r = Returned VUndefined
  /\ calls_to s3_copyObject (events r)
     = [Req s3_copyObject
          [VObj [("Bucket", VStr "quarantine");
                 ("CopySource", VStr "/dmz/abc123.zip");
                 ("Key", VStr "abc123.zip")]] fulfilled]
  /\ calls_to axios_post (events r)
     = [Req axios_post
          [VStr "https://api.example.com/v5/reviews";
           VObj [("score", VNum 0);
                 ("reviewerId", VStr "reviewer-1");
                 ("submissionId", VStr "abc123");
                 ("scoreCardId", VStr "30001850");
                 ("typeId", VStr "rt-virus-scan")];
           bearer test_js (VStr "t0k3n")] fulfilled].
Proof.
  intros message r.
  split; [reflexivity|].
  destruct (processScan_moves_patches_reviews script_respond test_js test_config
              message None true (VStr "abc123") (VStr "abc123.zip")
              (VObj []) (VObj []) (VStr "t0k3n") (VObj []) (VStr "reviewer-1")
              (VStr "rt-virus-scan") (VStr "t0k3n") (VObj [])
              (scan_script [virus_scan_type])
              [token; review_types [virus_scan_type]; token; fulfilled]
              [token; fulfilled] []
              ∅ {["Virus Scan" := VStr "rt-virus-scan"]}
              (events (run script_respond
                 (getreviewTypeId test_js test_config "Virus Scan"
                    "ProcessorService.processScan")
                 [token; review_types [virus_scan_type]; token; fulfilled] ∅))
              eq_refl eq_refl eq_refl)
    as [Hresult Hrequests];
    [cbn; repeat (eexists; split; [reflexivity|]); reflexivity
    | vm_compute; reflexivity
    | cbn; repeat (eexists; split; [reflexivity|]); reflexivity |].
  split; [exact Hresult|].
  rewrite <- !(calls_to_requests _ (events r)). subst r. rewrite Hrequests.
  split; vm_compute; reflexivity.
Defined.

Lemma processScan_posts_review_without_type_witness :
  let message := scan_envelope false in
  let r := run script_respond (processScan test_js test_config message None)
             (scan_script []) ∅ in
  truthy (object_get ∅ AV_SCAN) = false
  /\ result r = Returned VUndefined
  /\ length (requests (events r)) = 9%nat.
Proof.
  intros message r.
  assert (Hmiss : truthy (object_get ∅ AV_SCAN) = false)
    by (vm_compute; reflexivity).
  split; [exact Hmiss|].
  destruct (processScan_posts_review_without_type script_respond test_js
              test_config message None (VBool false) (VStr "abc123")
              (VStr "abc123.zip") (VObj []) (VObj []) (VStr "t0k3n") (VObj [])
              (VStr "reviewer-1") (VStr "t0k3n")
              (VObj [("data", VArr [])]) (VStr "t0k3n") (VObj [])
              (scan_script []) [] ∅ eq_refl eq_refl eq_refl Hmiss eq_refl)
    as [Hresult Hrequests];
    [cbn; repeat (eexists; split; [reflexivity|]); reflexivity|].
  split; [exact Hresult|].
  subst r. rewrite Hrequests. reflexivity.
Defined.

(** ** Writes to [reviewTypes] *)

Lemma object_set_lookup_ne (cache : gmap string value) (name n : string)
    (v : value) :
  n <> name -> object_set cache name v !! n = cache !! n.
Proof.
  intros Hne. unfold object_set.
  destruct (cache !! name); [by rewrite lookup_insert_ne|].
  destruct (String.eqb name "__proto__"); [done|].
  by rewrite lookup_insert_ne.
Qed.

Section Writes.
Context {W : Type}.
Variable respond : W -> callee -> list value -> completion * W.
Variable js : Builtins.
Variable config : Config.

Lemma writes_only_run {A : Type} (allowed : string -> Prop) (p : prog A)
    w cache n :
  writes_only allowed p -> ~ allowed n ->
  reviewTypes_after (run respond p w cache) !! n = cache !! n.
Proof.
  revert w cache.
  induction p as [a|e|o k IH|g args k IH|name k IH|name v k IH];
    intros w cache Hp Hn; simpl in *; auto.
  - rewrite reviewTypes_after_before. auto.
  - destruct (respond w g args) as [answer w'].
    rewrite reviewTypes_after_before. auto.
  - destruct Hp as [Hname Hk].
    rewrite IH by done. apply object_set_lookup_ne. by intros ->.
Qed.

Lemma writes_nothing_run {A : Type} (p : prog A) w cache :
  writes_only (fun _ => False) p ->
  reviewTypes_after (run respond p w cache) = cache.
Proof.
  intros Hp. apply map_eq. intros n.
  apply (writes_only_run (fun _ => False)); [exact Hp | tauto].
Qed.

Lemma writes_only_bind {A B : Type} allowed (p : prog A) (f : A -> prog B) :
  writes_only allowed p -> (forall a, writes_only allowed (f a)) ->
  writes_only allowed (bind p f).
Proof.
  intros Hp Hf.
  induction p as [a|e|o k IH|g args k IH|name k IH|name v k IH];
    simpl in *; auto.
  destruct Hp. auto.
Qed.

Lemma writes_only_try_catch {A : Type} allowed (p : prog A)
    (h : value -> prog A) :
  writes_only allowed p -> (forall e, writes_only allowed (h e)) ->
  writes_only allowed (try_catch p h).
Proof.
  intros Hp Hh.
  induction p as [a|e|o k IH|g args k IH|name k IH|name v k IH];
    simpl in *; auto.
  destruct Hp. auto.
Qed.

Lemma writes_only_eval allowed (c : completion) : writes_only allowed (eval c).
Proof. by destruct c. Qed.

Lemma writes_only_yield allowed (f : callee) (args : list value) :
  writes_only allowed (yield f args).
Proof. intros [v|e]; exact I. Qed.

Ltac writes_only :=
  repeat first
    [ exact I
    | apply writes_only_eval
    | apply writes_only_yield
    | apply writes_only_bind; [| intros ?]
    | apply writes_only_try_catch; [| intros ?]
    | match goal with
      | |- writes_only _ (if ?b then _ else _) => destruct b
      | |- writes_only _ (match ?x with _ => _ end) => destruct x
      | |- forall _, _ => intros ?
      | |- _ /\ _ => split
      end
    | progress simpl ].

Lemma writes_only_getM2Mtoken allowed parentSpan :
  writes_only allowed (getM2Mtoken config parentSpan).
Proof. unfold getM2Mtoken. writes_only. Qed.

Lemma writes_only_reqToSubmissionAPI allowed reqType path reqBody parentSpan :
  writes_only allowed
    (reqToSubmissionAPI js config reqType path reqBody parentSpan).
Proof.
  unfold reqToSubmissionAPI. writes_only; apply writes_only_getM2Mtoken.
Qed.

Lemma writes_only_downloadFile allowed fileURL parentSpan :
  writes_only allowed (downloadFile js fileURL parentSpan).
Proof. unfold downloadFile. writes_only. Qed.

Lemma writes_only_moveFile allowed sourceBucket sourceKey targetBucket
    targetKey span :
  writes_only allowed
    (moveFile js sourceBucket sourceKey targetBucket targetKey span).
Proof. unfold moveFile. writes_only. Qed.

Lemma writes_only_getreviewTypeId reviewTypeName parentSpan :
  writes_only (fun n => n = reviewTypeName)
    (getreviewTypeId js config reviewTypeName parentSpan).
Proof.
  unfold getreviewTypeId.
  writes_only; first [apply writes_only_reqToSubmissionAPI | done].
Qed.

Lemma writes_only_processCreate message span :
  writes_only (fun _ => False) (processCreate js config message span).
Proof.
  unfold processCreate, span_or_start.
  writes_only; apply writes_only_downloadFile.
Qed.

Lemma writes_only_processScan message span :
  writes_only (fun n => n = AV_SCAN) (processScan js config message span).
Proof.
  unfold processScan, span_or_start.
  writes_only;
    first [ apply writes_only_moveFile
          | apply writes_only_reqToSubmissionAPI
          | apply writes_only_getreviewTypeId
          | apply writes_only_getM2Mtoken
          | reflexivity ].
Qed.
End Writes.

Section WritesOfWorkflows.
Context {W : Type}.
Variable respond : W -> callee -> list value -> completion * W.
Variable js : Builtins.
Variable config : Config.

(** X1. Whatever the collaborators answer, [processCreate] leaves
    [reviewTypes] as it was, and [processScan] changes it at most at
    [Virus Scan]. *)
Theorem workflows_write_reviewTypes_at_virus_scan_only message span w cache :
  reviewTypes_after (run respond (processCreate js config message span) w cache)
  = cache
  /\ (forall n, n <> AV_SCAN ->
        reviewTypes_after (run respond (processScan js config message span)
                             w cache) !! n
        = cache !! n).
Proof.
  split.
  - apply writes_nothing_run, writes_only_processCreate.
  - intros n Hn.
    apply (writes_only_run respond (fun n => n = AV_SCAN)); [|exact Hn].
    apply writes_only_processScan.
Qed.

(** X2. A lookup never replaces or drops an id that is cached: whatever the
    collaborators answer, a name that read truthy before [getreviewTypeId]
    reads the same after it. *)
Theorem getreviewTypeId_keeps_cached_ids name parentSpan n w cache :
  truthy (object_get cache n) = true ->
  object_get
    (reviewTypes_after
       (run respond (getreviewTypeId js config name parentSpan) w cache)) n
  = object_get cache n.
Proof.
  intros Hcached.
  destruct (decide (n = name)) as [->|Hne].
  - by rewrite getreviewTypeId_hit.
  - unfold object_get.
    by rewrite (writes_only_run respond (fun n => n = name) _ _ _ n
                  (writes_only_getreviewTypeId js config name parentSpan)).
Qed.

(** X3. A lookup that fails caches nothing: when [getreviewTypeId] throws,
    because the token or the GET was rejected or the answer has no result
    set to read, [reviewTypes] is as it was. *)
Theorem getreviewTypeId_failure_caches_nothing name parentSpan w cache e :
  result (run respond (getreviewTypeId js config name parentSpan) w cache)
  = Thrown e ->
  reviewTypes_after
    (run respond (getreviewTypeId js config name parentSpan) w cache)
  = cache.
Proof.
  unfold getreviewTypeId. cbn -[object_get object_set].
  destruct (truthy (object_get cache name)); cbn -[object_get object_set];
    [done|].
  destruct (respond w m2m_getMachineToken (token_request config))
    as [[tok|e1] w1]; cbn -[object_get object_set]; [|done].
  destruct (respond w1 axios_get _) as [[response|e2] w2];
    cbn -[object_get object_set]; [|done].
  destruct (get_prop response "data") as [data|e3];
    cbn -[object_get object_set]; [|done].
  destruct (get_prop data "length") as [len|e4];
    cbn -[object_get object_set]; [|done].
  destruct (negb (strict_eq_num len 0)); cbn -[object_get object_set]; [|done].
  destruct (get_first data) as [first|e5]; cbn -[object_get object_set];
    [|done].
  destruct (get_prop first "id") as [id|e6]; cbn -[object_get object_set];
    done.
Qed.
End WritesOfWorkflows.

(** ** More of [processCreate] *)

Section CreateMore.
Context {W : Type}.
Variable respond : W -> callee -> list value -> completion * W.
Variable js : Builtins.
Variable config : Config.

(** A download posts nothing. *)
Lemma downloadFile_posts_nothing fileURL parentSpan w cache args a :
  ~ In (Req axios_post args a)
      (events (run respond (downloadFile js fileURL parentSpan) w cache)).
Proof.
  unfold downloadFile. cbn.
  destruct (amazonaws_test (to_str js fileURL)); cbn.
  - destruct (AmazonS3URI js fileURL) as [location|e]; cbn;
      [|intros H; intuition discriminate].
    destruct (get_prop location "bucket") as [bucket|e]; cbn;
      [|intros H; intuition discriminate].
    destruct (get_prop location "key") as [key|e]; cbn;
      [|intros H; intuition discriminate].
    destruct (respond w s3_getObject _) as [[file|e] w1]; cbn;
      [|intros H; intuition discriminate].
    destruct (get_prop file "Body"); cbn; intros H; intuition discriminate.
  - destruct (respond w axios_get _) as [[file|e] w1]; cbn;
      [|intros H; intuition discriminate].
    destruct (get_prop file "data"); cbn; intros H; intuition discriminate.
Qed.

(** X4. Whatever the collaborators answer, [processCreate] asks for a scan
    only of a file that is in the DMZ area: a scan request is its last
    call, and the call right before it is either the probe, fulfilled, with
    nothing before it, or the upload, fulfilled. *)
Theorem processCreate_scans_only_what_is_staged message span w cache args a :
  let r := run respond (processCreate js config message span) w cache in
  In (Req axios_post args a) (events r) ->
  exists pre f fargs v,
    requests (events r) = pre ++ [Req f fargs (inl v); Req axios_post args a]
    /\ (f = s3_getObject /\ pre = [] \/ f = s3_upload).
Proof.
  intros r. subst r. unfold processCreate.
  destruct span as [s|]; cbn -[downloadFile].
  all: destruct (payload_prop message "id") as [id|e]; cbn -[downloadFile];
    [|intros H; exfalso; intuition discriminate].
  all: destruct (payload_prop message "resource") as [resource|e];
    cbn -[downloadFile]; [|intros H; exfalso; intuition discriminate].
  all: destruct (payload_prop message "fileType") as [fileType|e];
    cbn -[downloadFile]; [|intros H; exfalso; intuition discriminate].
  all: destruct (strict_eq_str resource "submission"); cbn -[downloadFile];
    [|intros H; exfalso; intuition discriminate].
  all: destruct (respond w s3_getObject _) as [[found|e] w1] eqn:Hprobe;
    cbn -[downloadFile].
  1,3: destruct (respond w1 axios_post _) as [[v|e2] w2]; cbn; intros H;
    simpl in H;
    (repeat (destruct H as [H|H]; [try discriminate|])); try (exfalso; exact H);
    injection H as <- <-;
    by eexists [], s3_getObject, _, found; split; [|left].
  all: destruct (get_prop e "statusCode") as [statusCode|e1];
    cbn -[downloadFile]; [|intros H; exfalso; intuition discriminate].
  all: destruct (strict_eq_num statusCode 404); cbn -[downloadFile];
    [|intros H; exfalso; intuition discriminate].
  all: destruct (payload_prop message "url") as [url|e1];
    cbn -[downloadFile]; [|intros H; exfalso; intuition discriminate].
  all: rewrite !run_bind.
  all: match goal with
       | |- context [run respond (downloadFile js ?u ?s) ?w' ?c] =>
           pose proof (downloadFile_posts_nothing u s w' c args a) as Hno;
           destruct (run respond (downloadFile js u s) w' c)
             as [[body|e2] w2 cache2 evs]
       end; cbn in Hno |- *.
  2,4: intros H; simpl in H; rewrite ?in_app_iff in H; simpl in H;
    exfalso; intuition discriminate.
  all: destruct (respond w2 s3_upload _) as [[uploaded|e3] w3]; cbn.
  2,4: intros H; simpl in H; rewrite ?in_app_iff in H; simpl in H;
    exfalso; intuition discriminate.
  all: destruct (respond w3 axios_post _) as [[v|e4] w4]; cbn.
  all: intros H; simpl in H; rewrite ?in_app_iff in H; simpl in H;
    (repeat match goal with
            | H : _ \/ _ |- _ => destruct H as [H|H]
            | H : False |- _ => destruct H
            | H : In _ _ |- _ => contradiction
            | H : Out _ = Req _ _ _ |- _ => discriminate H
            | H : Req s3_getObject _ _ = Req axios_post _ _ |- _ =>
                discriminate H
            | H : Req s3_upload _ _ = Req axios_post _ _ |- _ => discriminate H
            end);
    injection H as <- <-;
    eexists (_ :: requests evs), s3_upload, _, uploaded;
    (split; [|by right]);
    rewrite !requests_app; cbn; rewrite <- ?app_assoc; reflexivity.
Qed.

(** X5. A create message for another resource than a submission is
    ignored, for every resource value that converts to a string ([prints]):
    [processCreate] returns false, calls no collaborator and logs that it
    ignores the resource type. *)
Theorem processCreate_ignores_other_resources message span id resource
    fileType w cache :
  payload_prop message "id" = inl id ->
  payload_prop message "resource" = inl resource ->
  payload_prop message "fileType" = inl fileType ->
  strict_eq_str resource "submission" = false ->
  prints resource = true ->
  let r := run respond (processCreate js config message span) w cache in
  result r = Returned (VBool false)
  /\ requests (events r) = []
  /\ world_after r = w
  /\ logged info (events r)
     = [VStr ("Ignoring messages of resource type: " +:+ to_str js resource)].
Proof.
  intros Hid Hresource HfileType Hother _. unfold processCreate.
  destruct span as [s|]; cbn; rewrite Hid; cbn; rewrite Hresource; cbn;
    rewrite HfileType; cbn; rewrite Hother; cbn; done.
Qed.

(** X6. When the probe of the DMZ area is rejected with anything but
    status 404, [processCreate] throws that same error on: the probe is its
    only call, nothing is downloaded, uploaded or sent for scanning. *)
Theorem processCreate_rethrows_probe_error message span id fileType e
    statusCode w w1 cache :
  payload_prop message "id" = inl id ->
  payload_prop message "resource" = inl (VStr "submission") ->
  payload_prop message "fileType" = inl fileType ->
  let fileName := to_str js id +:+ "." +:+ to_str js fileType in
  respond w s3_getObject (dmz_probe config fileName) = (inr e, w1) ->
  get_prop e "statusCode" = inl statusCode ->
  strict_eq_num statusCode 404 = false ->
  let r := run respond (processCreate js config message span) w cache in
  result r = Thrown e
  /\ requests (events r)
     = [Req s3_getObject (dmz_probe config fileName) (inr e)].
Proof.
  intros Hid Hresource HfileType fileName Hprobe Hstatus Hother.
  unfold processCreate.
  destruct span as [s|]; cbn; rewrite Hid; cbn; rewrite Hresource; cbn;
    rewrite HfileType; cbn; fold fileName; rewrite Hprobe; cbn;
    rewrite Hstatus; cbn; rewrite Hother; cbn; done.
Qed.

(** X7. A failed staging sends nothing for scanning: when the probe was
    rejected with status 404 and the download throws, or the upload is
    rejected, [processCreate] throws that error and makes no further
    call. *)
Theorem processCreate_failed_staging_is_not_scanned message span id fileType
    url e w w1 cache :
  payload_prop message "id" = inl id ->
  payload_prop message "resource" = inl (VStr "submission") ->
  payload_prop message "fileType" = inl fileType ->
  payload_prop message "url" = inl url ->
  let fileName := to_str js id +:+ "." +:+ to_str js fileType in
  let download :=
    run respond
      (downloadFile js url (default "ProcessorService.processCreate" span))
      w1 cache in
  respond w s3_getObject (dmz_probe config fileName) = (inr e, w1) ->
  get_prop e "statusCode" = inl (VNum 404) ->
  let r := run respond (processCreate js config message span) w cache in
  (forall failure,
     result download = Thrown failure ->
     result r = Thrown failure
     /\ requests (events r)
        = Req s3_getObject (dmz_probe config fileName) (inr e)
          :: requests (events download))
  /\ (forall body failure w3,
        result download = Returned body ->
        respond (world_after download) s3_upload
          (dmz_upload config fileName body) = (inr failure, w3) ->
        result r = Thrown failure
        /\ requests (events r)
           = Req s3_getObject (dmz_probe config fileName) (inr e)
             :: requests (events download)
             ++ [Req s3_upload (dmz_upload config fileName body)
                   (inr failure)]).
Proof.
  intros Hid Hresource HfileType Hurl fileName download Hprobe Hstatus r.
  subst r download. unfold processCreate.
  destruct span as [s|]; cbn -[downloadFile] in *.
  all: rewrite Hid; cbn -[downloadFile]; rewrite Hresource;
    cbn -[downloadFile]; rewrite HfileType; cbn -[downloadFile];
    fold fileName; rewrite Hprobe; cbn -[downloadFile]; rewrite Hstatus;
    cbn -[downloadFile]; rewrite Hurl; cbn -[downloadFile];
    rewrite !run_bind.
  all: match goal with
       | |- context [run respond (downloadFile js ?u ?s) ?w' ?c] =>
           destruct (run respond (downloadFile js u s) w' c)
             as [[body|e2] w2 cache2 evs]
       end; cbn.
  all: split; [intros failure [= <-] || (intros failure; discriminate)
              | intros body' failure w3 Hbody Hupload].
  all: try discriminate.
  all: try (rewrite ?requests_app, ?app_nil_r; cbn; rewrite ?app_nil_r; done).
  all: injection Hbody as <-; rewrite Hupload; cbn;
    rewrite ?requests_app; cbn; rewrite ?app_nil_r; done.
Qed.
End CreateMore.

(** ** More of src/common/helper.js *)

Section HelperMore.
Context {W : Type}.
Variable respond : W -> callee -> list value -> completion * W.
Variable js : Builtins.
Variable config : Config.

(** X8. Without a token nothing is sent: when the token acquisition is
    rejected, [reqToSubmissionAPI] throws that error and makes no HTTP
    call, whatever the method. *)
Theorem reqToSubmissionAPI_sends_nothing_without_token reqType path reqBody
    parentSpan e w w1 cache :
  respond w m2m_getMachineToken (token_request config) = (inr e, w1) ->
  let r := run respond
             (reqToSubmissionAPI js config reqType path reqBody parentSpan)
             w cache in
  result r = Thrown e
  /\ requests (events r)
     = [Req m2m_getMachineToken (token_request config) (inr e)]
  /\ http_calls (events r) = [].
Proof.
  intros Htoken. unfold reqToSubmissionAPI. cbn. by rewrite Htoken.
Qed.

(** X9. A method other than POST, PATCH and GET, in that very spelling, is
    not an error: [reqToSubmissionAPI] acquires a token, sends nothing and
    returns undefined. *)
Theorem reqToSubmissionAPI_other_method_sends_nothing reqType path reqBody
    parentSpan tok w w1 cache :
  reqType <> "POST" -> reqType <> "PATCH" -> reqType <> "GET" ->
  respond w m2m_getMachineToken (token_request config) = (inl tok, w1) ->
  let r := run respond
             (reqToSubmissionAPI js config reqType path reqBody parentSpan)
             w cache in
  result r = Returned VUndefined
  /\ requests (events r)
     = [Req m2m_getMachineToken (token_request config) (inl tok)]
  /\ http_calls (events r) = [].
Proof.
  intros Hpost Hpatch Hget Htoken. unfold reqToSubmissionAPI. cbn.
  rewrite Htoken. cbn.
  apply String.eqb_neq in Hpost, Hpatch, Hget.
  by rewrite Hpost, Hpatch, Hget.
Qed.

(** X10. For POST, PATCH and GET, [reqToSubmissionAPI] makes one HTTP call,
    after the token acquisition and carrying that token as bearer; the
    answer to a GET is returned, the answers to POST and PATCH are dropped
    and undefined is returned; a rejected call is thrown on. *)
Theorem reqToSubmissionAPI_one_call_with_fresh_token path reqBody parentSpan
    tok w w1 cache :
  respond w m2m_getMachineToken (token_request config) = (inl tok, w1) ->
  let token_call := Req m2m_getMachineToken (token_request config) (inl tok) in
  let run_of reqType :=
    run respond (reqToSubmissionAPI js config reqType path reqBody parentSpan)
        w cache in
  let outcome_of (answer : completion) (returned : value -> value) :=
    match answer with
    | inl response => Returned (returned response)
    | inr e => Thrown e
    end in
  (let answer := (respond w1 axios_post [VStr path; reqBody; bearer js tok]).1 in
   requests (events (run_of "POST"))
   = [token_call; Req axios_post [VStr path; reqBody; bearer js tok] answer]
   /\ result (run_of "POST") = outcome_of answer (fun _ => VUndefined))
  /\ (let answer :=
        (respond w1 axios_patch [VStr path; reqBody; bearer js tok]).1 in
      requests (events (run_of "PATCH"))
      = [token_call; Req axios_patch [VStr path; reqBody; bearer js tok] answer]
      /\ result (run_of "PATCH") = outcome_of answer (fun _ => VUndefined))
  /\ (let answer := (respond w1 axios_get [VStr path; bearer js tok]).1 in
      requests (events (run_of "GET"))
      = [token_call; Req axios_get [VStr path; bearer js tok] answer]
      /\ result (run_of "GET") = outcome_of answer (fun response => response)).
Proof.
  intros Htoken. unfold reqToSubmissionAPI. cbn. rewrite Htoken. cbn.
  repeat split.
  all: match goal with
       | |- context [respond ?w' ?f ?args] =>
           destruct (respond w' f args) as [[response|e] w2]
       end; done.
Qed.

(** X11. A name that every object inherits from [Object.prototype], such as
    [constructor] or [toString], and that is not cached, is read from
    [reviewTypes] as a built-in: [getreviewTypeId] returns that built-in,
    not an id, and looks nothing up. *)
Theorem getreviewTypeId_inherited_name_is_not_looked_up name parentSpan
    w cache :
  In name Object_prototype_names ->
  cache !! name = None ->
  let r := run respond (getreviewTypeId js config name parentSpan) w cache in
  result r = Returned (VBuiltin name)
  /\ requests (events r) = []
  /\ reviewTypes_after r = cache.
Proof.
  intros Hin Hnone.
  assert (Hget : object_get cache name = VBuiltin name).
  { unfold object_get. rewrite Hnone.
    assert (existsb (String.eqb name) Object_prototype_names = true) as ->;
      [|done].
    apply existsb_exists. exists name. split; [done|apply String.eqb_refl]. }
  intros r. subst r. rewrite getreviewTypeId_hit by (by rewrite Hget).
  by rewrite Hget.
Qed.

(** X12. An id that is falsy (the empty string, 0, undefined when the first
    result has no id) is stored but never served: the next call for that
    name misses the cache again and sends another GET. *)
Theorem getreviewTypeId_falsy_id_is_looked_up_again name span1 span2 w cache
    tok response first rest id w2 tok' response' w4 :
  truthy (object_get cache name) = false ->
  answered respond w
    [Req m2m_getMachineToken (token_request config) (inl tok);
     Req axios_get [VStr (reviewTypes_url config name); bearer js tok]
       (inl response)] w2 ->
  get_prop response "data" = inl (VArr (first :: rest)) ->
  get_prop first "id" = inl id ->
  truthy id = false ->
  answered respond w2
    [Req m2m_getMachineToken (token_request config) (inl tok');
     Req axios_get [VStr (reviewTypes_url config name); bearer js tok']
       (inl response')] w4 ->
  let r1 := run respond (getreviewTypeId js config name span1) w cache in
  let r2 := run respond (getreviewTypeId js config name span2)
              (world_after r1) (reviewTypes_after r1) in
  result r1 = Returned id
  /\ reviewTypes_after r1 = <[name := id]> cache
  /\ calls_to axios_get (events r2)
     = [Req axios_get [VStr (reviewTypes_url config name); bearer js tok']
          (inl response')].
Proof.
  intros Hmiss Hanswered Hdata Hid Hfalsy (w3 & Htoken' & w4' & Hget' & <-)
    r1 r2. subst r1 r2.
  destruct (getreviewTypeId_miss_found respond js config name span1 _ _ _ _
              _ _ _ _ Hmiss Hanswered Hdata Hid) as (evs & -> & Hreq).
  cbn [world_after reviewTypes_after result].
  repeat split.
  unfold getreviewTypeId. cbn -[object_get].
  rewrite object_get_insert, Hfalsy. cbn.
  rewrite Htoken'. cbn. rewrite Hget'. cbn.
  destruct (get_prop response' "data") as [data|e]; cbn; [|done].
  destruct (get_prop data "length") as [len|e]; cbn; [|done].
  destruct (negb (strict_eq_num len 0)); cbn; [|done].
  destruct (get_first data) as [first'|e]; cbn; [|done].
  by destruct (get_prop first' "id").
Qed.
End HelperMore.

(** ** More of the dispatcher *)

Section DispatcherMore.
Context {W : Type}.
Variable respond : W -> callee -> list value -> completion * W.
Variable js : Builtins.
Variable config : Config.

(** X13. A message whose envelope topic is not the arrival topic (or that
    has none) is dropped, for every envelope topic that converts to a
    string ([prints]): the handler returns, calls no collaborator, commits
    nothing and logs the mismatch as an error. *)
Theorem handle_drops_topic_mismatch topic partition m envelope t w cache :
  JSON_parse js (Buffer_toString_utf8 js (message_value m)) = Parsed envelope ->
  get_prop envelope "topic" = inl t ->
  strict_eq_str t topic = false ->
  prints t = true ->
  let r := run respond (handle js config topic partition m) w cache in
  result r = Returned tt
  /\ requests (events r) = []
  /\ commits (events r) = []
  /\ world_after r = w
  /\ logged error (events r)
     = [VStr ("The message topic " +:+ to_str js t
              +:+ " doesn't match the Kafka topic " +:+ topic +:+ ".")].
Proof.
  intros Hparse Htopic Hother _. unfold handle.
  rewrite Hparse. cbn. rewrite Htopic. cbn. rewrite Hother. cbn. done.
Qed.

(** X14. On the scan topic a message whose status is not [scanned] is
    skipped, for every status that converts to a string ([prints]): the
    handler returns, calls no collaborator, commits nothing and logs at
    debug level only. *)
Theorem handle_skips_unscanned partition m envelope status w cache :
  let topic := AVSCAN_TOPIC config in
  JSON_parse js (Buffer_toString_utf8 js (message_value m)) = Parsed envelope ->
  get_prop envelope "topic" = inl (VStr topic) ->
  payload_prop envelope "status" = inl status ->
  strict_eq_str status "scanned" = false ->
  prints status = true ->
  let r := run respond (handle js config topic partition m) w cache in
  result r = Returned tt
  /\ requests (events r) = []
  /\ commits (events r) = []
  /\ world_after r = w
  /\ logged error (events r) = []
  /\ logged debug (events r)
     = [VStr ("Ignoring message in topic " +:+ topic +:+ " with status "
              +:+ to_str js status)].
Proof.
  intros topic Hparse Htopic Hstatus Hother _. subst topic. unfold handle.
  rewrite Hparse. cbn. rewrite Htopic. cbn.
  rewrite String.eqb_refl. cbn. rewrite Hstatus. cbn. rewrite Hother. cbn.
  done.
Qed.

(** X15. On the create topic a message whose file type is [url] is
    skipped: the handler returns, calls no collaborator, commits nothing
    and logs at debug level only. *)
Theorem handle_skips_url_submissions partition m envelope w cache :
  let topic := SUBMISSION_CREATE_TOPIC config in
  topic <> AVSCAN_TOPIC config ->
  JSON_parse js (Buffer_toString_utf8 js (message_value m)) = Parsed envelope ->
  get_prop envelope "topic" = inl (VStr topic) ->
  payload_prop envelope "fileType" = inl (VStr "url") ->
  let r := run respond (handle js config topic partition m) w cache in
  result r = Returned tt
  /\ requests (events r) = []
  /\ commits (events r) = []
  /\ world_after r = w
  /\ logged error (events r) = []
  /\ logged debug (events r)
     = [VStr ("Ignoring message in topic " +:+ topic
              +:+ " with file type as url")].
Proof.
  intros topic Hdistinct Hparse Htopic HfileType. subst topic. unfold handle.
  rewrite Hparse. cbn. rewrite Htopic. cbn.
  rewrite String.eqb_refl. cbn.
  apply String.eqb_neq in Hdistinct. rewrite Hdistinct. cbn.
  rewrite ?String.eqb_refl. cbn. rewrite HfileType. cbn. done.
Qed.

(** X16. A message that arrives on a topic the switch does not know, with
    that topic in its envelope, passes both filters whatever its payload;
    routing throws [Invalid topic], which the handler of workflow errors
    absorbs: the handler returns, calls no collaborator, commits nothing
    and logs the error. *)
Theorem handle_unknown_topic_is_logged topic partition m envelope w cache :
  topic <> SUBMISSION_CREATE_TOPIC config ->
  topic <> AVSCAN_TOPIC config ->
  JSON_parse js (Buffer_toString_utf8 js (message_value m)) = Parsed envelope ->
  get_prop envelope "topic" = inl (VStr topic) ->
  let r := run respond (handle js config topic partition m) w cache in
  result r = Returned tt
  /\ requests (events r) = []
  /\ commits (events r) = []
  /\ world_after r = w
  /\ logged error (events r) = [Error ("Invalid topic: " +:+ topic)].
Proof.
  intros Hcreate Hscan Hparse Htopic.
  apply String.eqb_neq in Hcreate, Hscan.
  unfold handle. rewrite Hparse. cbn. rewrite Htopic. cbn.
  rewrite String.eqb_refl. cbn. rewrite Hscan. cbn. rewrite Hcreate. cbn.
  unfold route, on_rejected, serviceSpan. rewrite Hcreate, Hscan. cbn. done.
Qed.

(** An accepted message reaches the routing after a prologue that calls no
    collaborator, commits nothing and logs no error. *)
Lemma handle_accepted topic partition m envelope w cache :
  accepted js config topic m = Some envelope ->
  exists prologue,
    run respond (handle js config topic partition m) w cache
    = before prologue
        (run respond
           (try_catch
              (route js config topic envelope ;;
               emit (consumer_commitOffset topic partition (offset m)) ;;
               finish_service_span config topic ;;
               emit (span_finish "dataHandler"))
              (on_rejected config topic)) w cache)
    /\ requests prologue = []
    /\ commits prologue = []
    /\ logged error prologue = [].
Proof.
  unfold handle, accepted.
  destruct (JSON_parse js _) as [envelope'|e_message e_stack]; [|done].
  cbn.
  destruct (get_prop envelope' "topic") as [t|e]; cbn; [|done].
  destruct (strict_eq_str t topic) eqn:Ht; cbn; [|done].
  apply strict_eq_str_true in Ht as ->. cbn.
  unfold not_scanned, is_url.
  destruct (String.eqb topic (AVSCAN_TOPIC config));
    destruct (String.eqb topic (SUBMISSION_CREATE_TOPIC config)); cbn.
  - destruct (payload_prop envelope' "status") as [status|e]; cbn; [|done].
    destruct (strict_eq_str status "scanned"); cbn; [|done].
    destruct (payload_prop envelope' "fileType") as [fileType|e]; cbn; [|done].
    destruct (strict_eq_str fileType "url"); cbn; [done|].
    intros [= <-]. rewrite !before_before. eexists. split; [reflexivity|done].
  - destruct (payload_prop envelope' "status") as [status|e]; cbn; [|done].
    destruct (strict_eq_str status "scanned"); cbn; [|done].
    intros [= <-]. rewrite !before_before. eexists. split; [reflexivity|done].
  - destruct (payload_prop envelope' "fileType") as [fileType|e]; cbn; [|done].
    destruct (strict_eq_str fileType "url"); cbn; [done|].
    intros [= <-]. rewrite !before_before. eexists. split; [reflexivity|done].
  - intros [= <-]. rewrite !before_before. eexists. split; [reflexivity|done].
Qed.

Lemma logged_app (l : level) (evs evs' : list event) :
  logged l (evs ++ evs') = logged l evs ++ logged l evs'.
Proof.
  induction evs as [|[o|f args r] evs IH]; simpl; [done| |done].
  destruct o as [l' message| | | | | |]; simpl; try done.
  destruct l, l'; simpl; by rewrite IH.
Qed.

(** X17. The error of a workflow does not leave the handler: when the
    routed workflow throws an error object, the handler returns, commits
    nothing, logs the error and calls no collaborator on its own.  A
    workflow rejected with null or undefined is the exception: the handler
    of workflow errors throws while reading its message. *)
Theorem handle_absorbs_workflow_error topic partition m envelope e w cache :
  accepted js config topic m = Some envelope ->
  let routed := run respond (route js config topic envelope) w cache in
  result routed = Thrown e ->
  let r := run respond (handle js config topic partition m) w cache in
  commits (events r) = []
  /\ requests (events r) = requests (events routed)
  /\ world_after r = world_after routed
  /\ match get_prop e "message" with
     | inl _ =>
         result r = Returned tt
         /\ logged error (events r) = logged error (events routed) ++ [e]
     | inr unreadable => result r = Thrown unreadable
     end.
Proof.
  intros Haccepted routed Hthrown r. subst r.
  destruct (handle_accepted topic partition m envelope w cache Haccepted)
    as (prologue & -> & Hrequests & Hcommits & Hlogged).
  rewrite run_try_catch, run_bind.
  pose proof (commit_free_run respond (route js config topic envelope) w cache
                (commit_free_route js config topic envelope)) as Hfree.
  assert (Hspan : serviceSpan config topic = None -> e = Error ("Invalid topic: " +:+ topic)).
  { subst routed. revert Hthrown. unfold route, serviceSpan.
    destruct (String.eqb topic (SUBMISSION_CREATE_TOPIC config)); [done|].
    destruct (String.eqb topic (AVSCAN_TOPIC config)); [done|].
    cbn. by intros [= <-]. }
  fold routed in Hfree |- *.
  destruct routed as [[v|e'] w' cache' evs]; cbn in Hthrown; [done|].
  injection Hthrown as ->. cbn in Hfree. cbn [continue run before].
  unfold on_rejected.
  destruct (serviceSpan config topic) as [s|].
  - destruct e; cbn;
      rewrite ?events_before, ?requests_app, ?commits_app, ?logged_app,
        ?Hrequests, ?Hcommits, ?Hlogged, ?Hfree, ?app_nil_r;
      cbn; rewrite ?app_nil_r; done.
  - rewrite Hspan by done. cbn.
    rewrite ?events_before, ?requests_app, ?commits_app, ?logged_app,
      ?Hrequests, ?Hcommits, ?Hlogged, ?Hfree, ?app_nil_r.
    cbn. rewrite ?app_nil_r. done.
Qed.

(** X19. One message can hold back a batch: when a message on the scan or
    the create topic parses, carries the arrival topic and has no payload,
    the batch is rejected with the [TypeError] of that message, and the
    messages behind it are not handled at all: nothing is called and
    nothing committed, whatever those messages are. *)
Theorem dataHandler_stops_at_message_without_payload topic partition m rest
    envelope payload w cache :
  JSON_parse js (Buffer_toString_utf8 js (message_value m)) = Parsed envelope ->
  get_prop envelope "topic" = inl (VStr topic) ->
  get_prop envelope "payload" = inl payload ->
  payload = VUndefined \/ payload = VNull ->
  topic = AVSCAN_TOPIC config \/ topic = SUBMISSION_CREATE_TOPIC config ->
  let r := run respond (dataHandler js config (m :: rest) topic partition)
             w cache in
  (exists message, result r = Thrown (TypeError message))
  /\ events r = events (run respond (handle js config topic partition m) w cache)
  /\ requests (events r) = []
  /\ commits (events r) = [].
Proof.
  intros Hparse Htopic Hpayload Hnone Hwhich.
  cbn [dataHandler]. rewrite run_bind.
  unfold handle. rewrite Hparse. cbn. rewrite Htopic. cbn.
  rewrite String.eqb_refl. cbn.
  unfold payload_prop. rewrite Hpayload.
  destruct Hwhich as [-> | ->].
  - rewrite String.eqb_refl.
    destruct Hnone as [-> | ->]; cbn; eauto 10.
  - destruct (String.eqb (SUBMISSION_CREATE_TOPIC config) (AVSCAN_TOPIC config));
      [destruct Hnone as [-> | ->]; cbn; eauto 10|].
    cbn. rewrite String.eqb_refl.
    destruct Hnone as [-> | ->]; cbn; eauto 10.
Qed.
End DispatcherMore.

(** ** More of [processScan] *)

Section ScanMore.
Context {W : Type}.
Variable respond : W -> callee -> list value -> completion * W.
Variable js : Builtins.
Variable config : Config.

(** A review-type lookup neither patches nor posts. *)
Lemma getreviewTypeId_reads_only name parentSpan w cache f args a :
  f = axios_patch \/ f = axios_post ->
  ~ In (Req f args a)
      (events (run respond (getreviewTypeId js config name parentSpan) w cache)).
Proof.
  intros Hf H. revert H.
  unfold getreviewTypeId. cbn -[object_get object_set].
  destruct (truthy (object_get cache name)); cbn -[object_get object_set];
    [intros H; intuition (subst; discriminate)|].
  destruct (respond w m2m_getMachineToken _) as [[tok|e] w1];
    cbn -[object_get object_set]; [|intros H; intuition (subst; discriminate)].
  destruct (respond w1 axios_get _) as [[response|e] w2];
    cbn -[object_get object_set];
    [|intros H; intuition (subst; discriminate)].
  destruct (get_prop response "data") as [data|e];
    cbn -[object_get object_set];
    [|intros H; intuition (subst; discriminate)].
  destruct (get_prop data "length") as [len|e];
    cbn -[object_get object_set];
    [|intros H; intuition (subst; discriminate)].
  destruct (negb (strict_eq_num len 0)); cbn -[object_get object_set];
    [|intros H; intuition (subst; discriminate)].
  destruct (get_first data) as [first|e]; cbn -[object_get object_set];
    [|intros H; intuition (subst; discriminate)].
  destruct (get_prop first "id") as [id|e]; cbn -[object_get object_set];
    intros H; intuition (subst; discriminate).
Qed.

Ltac members H Hno :=
  simpl in H; rewrite ?in_app_iff in H; simpl in H;
  repeat match goal with
         | H : _ \/ _ |- _ => destruct H as [H|H]
         | H : False |- _ => destruct H
         | H : Out _ = Req _ _ _ |- _ => discriminate H
         | H : Req _ _ _ = Req _ _ _ |- _ =>
             first [discriminate H | injection H as <- <-]
         | H : In (Req _ _ _) _ |- _ =>
             exfalso; eapply Hno; [|exact H]; auto
         end.

(** X20. Whatever the collaborators answer, [processScan] keeps its
    order: the submission is patched only after copy and delete were both
    fulfilled, and a review is posted only after the PATCH was fulfilled,
    as the last call. *)
Theorem processScan_patches_after_move_reviews_after_patch message span
    isInfected submissionId fileName w cache :
  payload_prop message "submissionId" = inl submissionId ->
  payload_prop message "fileName" = inl fileName ->
  payload_prop message "isInfected" = inl isInfected ->
  let destination :=
    if truthy isInfected then QUARANTINE_BUCKET config else CLEAN_BUCKET config in
  let copy :=
    copy_request js (VStr (DMZ_BUCKET config)) fileName (VStr destination)
                 fileName in
  let delete_source := delete_request (VStr (DMZ_BUCKET config)) fileName in
  let r := run respond (processScan js config message span) w cache in
  (forall args a,
     In (Req axios_patch args a) (events r) ->
     exists copied deleted tok rest,
       requests (events r)
       = Req s3_copyObject copy (inl copied)
         :: Req s3_deleteObject delete_source (inl deleted)
         :: Req m2m_getMachineToken (token_request config) (inl tok)
         :: Req axios_patch args a :: rest)
  /\ (forall args a,
        In (Req axios_post args a) (events r) ->
        exists copied deleted tok patch patched between,
          requests (events r)
          = [Req s3_copyObject copy (inl copied);
             Req s3_deleteObject delete_source (inl deleted);
             Req m2m_getMachineToken (token_request config) (inl tok);
             Req axios_patch patch (inl patched)]
            ++ between ++ [Req axios_post args a]).
Proof.
  intros HsubmissionId HfileName HisInfected destination copy delete_source r.
  subst r destination copy delete_source. unfold processScan.
  assert (Hnone : forall f args a, f = axios_patch \/ f = axios_post ->
            ~ In (Req f args a) []) by (intros ? ? ? _ []).
  destruct span as [s|]; cbn -[getreviewTypeId].
  all: rewrite HsubmissionId; cbn -[getreviewTypeId];
    rewrite HfileName; cbn -[getreviewTypeId];
    rewrite HisInfected; cbn -[getreviewTypeId].
  all: destruct (truthy isInfected); cbn -[getreviewTypeId].
  all: destruct (respond w s3_copyObject _) as [[copied|e] w1];
    cbn -[getreviewTypeId];
    [|split; intros args a H; members H Hnone].
  all: destruct (respond w1 s3_deleteObject _) as [[deleted|e] w2];
    cbn -[getreviewTypeId];
    [|split; intros args a H; members H Hnone].
  all: destruct (respond w2 m2m_getMachineToken _) as [[tok|e] w3];
    cbn -[getreviewTypeId];
    [|split; intros args a H; members H Hnone].
  all: destruct (respond w3 axios_patch _) as [[patched|e] w4];
    cbn -[getreviewTypeId];
    [|split; intros args a H; members H Hnone;
      eexists _, _, _, _; reflexivity].
  all: destruct (respond w4 uuid _) as [[reviewerId|e] w5];
    cbn -[getreviewTypeId];
    [|split; intros args a H; members H Hnone;
      eexists _, _, _, _; reflexivity].
  all: rewrite !run_bind.
  all: match goal with
       | |- context [run respond (getreviewTypeId js config ?n ?s) ?w' ?c] =>
           pose proof (getreviewTypeId_reads_only n s w' c) as Hno;
           destruct (run respond (getreviewTypeId js config n s) w' c)
             as [[typeId|e] w6 cache6 evs]
       end; cbn in Hno |- *.
  2,4,6,8: split; intros args a H; members H Hno;
    eexists _, _, _, _; reflexivity.
  all: destruct (respond w6 m2m_getMachineToken _) as [[tok2|e] w7]; cbn;
    [|split; intros args a H; members H Hno;
      eexists _, _, _, _; reflexivity].
  all: destruct (respond w7 axios_post _) as [[posted|e] w8]; cbn.
  all: split; intros args a H; members H Hno.
  all: try (eexists _, _, _, _; reflexivity).
  all: eexists _, _, _, _, _,
         (Req uuid [] (inl reviewerId) :: requests evs
          ++ [Req m2m_getMachineToken (token_request config) (inl tok2)]);
    cbn; rewrite !requests_app; cbn; rewrite <- !app_assoc; reflexivity.
Qed.

(** X21. A failed PATCH is not compensated: when the move succeeded and the
    PATCH of the submission is rejected, [processScan] throws that error
    with the object left at its destination; it makes no further storage
    call and posts no review. *)
Theorem processScan_failed_patch_leaves_the_move message span isInfected
    submissionId fileName copied deleted tok e w w4 cache :
  payload_prop message "submissionId" = inl submissionId ->
  payload_prop message "fileName" = inl fileName ->
  payload_prop message "isInfected" = inl isInfected ->
  let destination :=
    if truthy isInfected then QUARANTINE_BUCKET config else CLEAN_BUCKET config in
  let calls :=
    [Req s3_copyObject
       (copy_request js (VStr (DMZ_BUCKET config)) fileName
                     (VStr destination) fileName) (inl copied);
     Req s3_deleteObject
       (delete_request (VStr (DMZ_BUCKET config)) fileName) (inl deleted);
     Req m2m_getMachineToken (token_request config) (inl tok);
     Req axios_patch
       [VStr (submission_url js config submissionId);
        VObj [("url", VStr (moved_url js destination fileName))];
        bearer js tok] (inr e)] in
  answered respond w calls w4 ->
  let r := run respond (processScan js config message span) w cache in
  result r = Thrown e
  /\ requests (events r) = calls
  /\ world_after r = w4
  /\ reviewTypes_after r = cache.
Proof.
  intros HsubmissionId HfileName HisInfected destination calls
    (w1 & Hcopy & w2 & Hdelete & w3 & Htoken & w4' & Hpatch & <-).
  unfold processScan. subst calls destination.
  destruct span as [s|]; cbn;
    rewrite HsubmissionId; cbn; rewrite HfileName; cbn;
    rewrite HisInfected; cbn;
    destruct (truthy isInfected); cbn;
    rewrite Hcopy; cbn; rewrite Hdelete; cbn; rewrite Htoken; cbn;
    rewrite Hpatch; cbn; done.
Qed.

(** Whatever the collaborators answer, a PATCH that [processScan] sends
    goes to the submission of the message and names the location under the
    destination bucket. *)
Lemma processScan_patch_names_destination message span isInfected submissionId
    fileName w cache args a :
  payload_prop message "submissionId" = inl submissionId ->
  payload_prop message "fileName" = inl fileName ->
  payload_prop message "isInfected" = inl isInfected ->
  let destination :=
    if truthy isInfected then QUARANTINE_BUCKET config else CLEAN_BUCKET config in
  In (Req axios_patch args a)
     (events (run respond (processScan js config message span) w cache)) ->
  exists tok,
    args = [VStr (SUBMISSION_API_URL config +:+ "/submissions/"
                  +:+ to_str js submissionId);
            VObj [("url", VStr ("https://s3.amazonaws.com/" +:+ destination
                                +:+ "/" +:+ to_str js fileName))];
            bearer js tok].
Proof.
  intros HsubmissionId HfileName HisInfected destination.
  subst destination. unfold processScan.
  assert (Hnone : forall f args a, f = axios_patch \/ f = axios_post ->
            ~ In (Req f args a) []) by (intros ? ? ? _ []).
  destruct span as [s|]; cbn -[getreviewTypeId].
  all: rewrite HsubmissionId; cbn -[getreviewTypeId];
    rewrite HfileName; cbn -[getreviewTypeId];
    rewrite HisInfected; cbn -[getreviewTypeId].
  all: destruct (truthy isInfected); cbn -[getreviewTypeId].
  all: destruct (respond w s3_copyObject _) as [[copied|e] w1];
    cbn -[getreviewTypeId]; [|intros H; members H Hnone].
  all: destruct (respond w1 s3_deleteObject _) as [[deleted|e] w2];
    cbn -[getreviewTypeId]; [|intros H; members H Hnone].
  all: destruct (respond w2 m2m_getMachineToken _) as [[tok|e] w3];
    cbn -[getreviewTypeId]; [|intros H; members H Hnone].
  all: destruct (respond w3 axios_patch _) as [[patched|e] w4];
    cbn -[getreviewTypeId];
    [|intros H; members H Hnone; eexists; reflexivity].
  all: destruct (respond w4 uuid _) as [[reviewerId|e] w5];
    cbn -[getreviewTypeId];
    [|intros H; members H Hnone; eexists; reflexivity].
  all: rewrite !run_bind.
  all: match goal with
       | |- context [run respond (getreviewTypeId js config ?n ?s) ?w' ?c] =>
           pose proof (getreviewTypeId_reads_only n s w' c) as Hno;
           destruct (run respond (getreviewTypeId js config n s) w' c)
             as [[typeId|e] w6 cache6 evs]
       end; cbn in Hno |- *.
  2,4,6,8: intros H; members H Hno; eexists; reflexivity.
  all: destruct (respond w6 m2m_getMachineToken _) as [[tok2|e] w7]; cbn;
    [|intros H; members H Hno; eexists; reflexivity].
  all: destruct (respond w7 axios_post _) as [[posted|e] w8]; cbn.
  all: intros H; members H Hno; eexists; reflexivity.
Qed.
End ScanMore.

(** ** More of the storage *)

Lemma string_length_app (s t : string) :
  String.length (s +:+ t) = (String.length s + String.length t)%nat.
Proof. induction s as [|c s IH]; simpl; [done|]. by rewrite IH. Qed.

Lemma string_app_inv_tail (s1 s2 t : string) :
  s1 +:+ t = s2 +:+ t -> s1 = s2.
Proof.
  revert s2. induction s1 as [|c s1 IH]; intros [|c' s2] H; simpl in H.
  - done.
  - apply (f_equal String.length) in H.
    rewrite !string_length_app in H. simpl in H.
    rewrite ?string_length_app in H. lia.
  - apply (f_equal String.length) in H.
    rewrite !string_length_app in H. simpl in H.
    rewrite ?string_length_app in H. lia.
  - injection H as -> H. by rewrite (IH s2 H).
Qed.

Lemma object_path_bucket (bucket bucket' key : string) :
  object_path bucket key = object_path bucket' key -> bucket = bucket'.
Proof.
  unfold object_path. intros H. simpl in H. injection H as H.
  by apply (string_app_inv_tail _ _ ("/" +:+ key)).
Qed.

Section StorageMore.
Variable js : Builtins.
Variable rejects_missing_source : bool.

(** X22. On the storage, a move of an object to another path puts its
    content at the target, removes the source and touches no other
    object. *)
Theorem moveFile_moves_one_object sb sk tb tk span (s : gmap string value)
    cache body :
  s !! object_path sb sk = Some body ->
  object_path sb sk <> object_path tb tk ->
  let after :=
    world_after (run (s3_respond rejects_missing_source)
                   (moveFile js (VStr sb) (VStr sk) (VStr tb) (VStr tk) span)
                   s cache) in
  after !! object_path tb tk = Some body
  /\ after !! object_path sb sk = None
  /\ (forall path,
        path <> object_path sb sk -> path <> object_path tb tk ->
        after !! path = s !! path).
Proof.
  intros Hsource Hdistinct after. subst after.
  rewrite moveFile_storage_after, Hsource.
  repeat split.
  - by rewrite lookup_delete_ne, lookup_insert_eq.
  - by rewrite lookup_delete_eq.
  - intros path Hs Ht. by rewrite lookup_delete_ne, lookup_insert_ne.
Qed.

(** X23. A download of a storage URL reads the storage: with the URL
    parsed to a bucket and a key, [downloadFile] returns the object stored
    there, or throws the status-404 error of the storage when there is
    none; the storage is left as it was. *)
Theorem downloadFile_reads_the_storage fileURL parentSpan location bucket key
    (s : gmap string value) cache :
  amazonaws_test (to_str js fileURL) = true ->
  AmazonS3URI js fileURL = inl location ->
  get_prop location "bucket" = inl (VStr bucket) ->
  get_prop location "key" = inl (VStr key) ->
  let r := run (s3_respond rejects_missing_source)
             (downloadFile js fileURL parentSpan) s cache in
  result r = match s !! object_path bucket key with
             | Some body => Returned body
             | None => Thrown NoSuchKey
             end
  /\ world_after r = s.
Proof.
  intros Hpattern Hparse Hbucket Hkey. unfold downloadFile. cbn.
  rewrite Hpattern, Hparse. cbn. rewrite Hbucket. cbn. rewrite Hkey. cbn.
  fold (object_path bucket key).
  by destruct (s !! object_path bucket key).
Qed.
End StorageMore.

(** ** The workflows on the storage *)

Section Pipeline.
Variable js : Builtins.
Variable config : Config.
Variable rejects_missing_source : bool.

(** X24. Staging survives a redelivery.  On the storage, with the key not
    yet in the DMZ area and a URL outside the storage, [processCreate]
    puts what it downloaded under [/DMZ/id.fileType]; handling the same
    message again finds the object, downloads and uploads nothing, leaves
    the storage as it is and asks for the scan again. *)
Theorem processCreate_staging_survives_redelivery message span id fileType url
    response body scanned scanned' (s : gmap string value) cache :
  payload_prop message "id" = inl id ->
  payload_prop message "resource" = inl (VStr "submission") ->
  payload_prop message "fileType" = inl fileType ->
  payload_prop message "url" = inl url ->
  amazonaws_test (to_str js url) = false ->
  get_prop response "data" = inl body ->
  let fileName := to_str js id +:+ "." +:+ to_str js fileType in
  let path := object_path (DMZ_BUCKET config) fileName in
  s !! path = None ->
  let first :=
    run (services_respond rejects_missing_source)
        (processCreate js config message span)
        (s, [inl response; inl scanned; inl scanned']) cache in
  let again :=
    run (services_respond rejects_missing_source)
        (processCreate js config message span)
        (world_after first) (reviewTypes_after first) in
  result first = Returned (VBool true)
  /\ (world_after first).1 = <[path := body]> s
  /\ result again = Returned (VBool true)
  /\ (world_after again).1 = <[path := body]> s
  /\ requests (events again)
     = [Req s3_getObject (dmz_probe config fileName)
          (inl (VObj [("Body", body)]));
        Req axios_post (scan_request config id fileName) (inl scanned')].
Proof.
  intros Hid Hresource HfileType Hurl Hpattern Hdata fileName path Habsent.
  subst path fileName.
  unfold processCreate, downloadFile.
  destruct span as [sp|]; cbn; rewrite Hid; cbn; rewrite Hresource; cbn;
    rewrite HfileType; cbn; rewrite Hurl, Habsent; cbn;
    rewrite Hpattern; cbn; rewrite Hdata; cbn;
    rewrite lookup_insert_eq; cbn; done.
Qed.

(** Programs that leave the storage alone. *)
Lemma storage_free_run {A : Type} (p : prog A) (s : gmap string value)
    script cache :
  storage_free p ->
  (world_after (run (services_respond rejects_missing_source) p (s, script)
                  cache)).1 = s.
Proof.
  revert s script cache.
  induction p as [a|e|o k IH|g args k IH|name k IH|name v k IH];
    intros s script cache Hp; simpl in *; auto.
  - rewrite world_after_before. auto.
  - destruct Hp as [Hg Hk]. unfold services_respond. rewrite Hg.
    destruct (script_respond (s, script).2 g args) as [answer rest].
    rewrite world_after_before. cbn. auto.
Qed.

Lemma storage_free_bind {A B : Type} (p : prog A) (f : A -> prog B) :
  storage_free p -> (forall a, storage_free (f a)) -> storage_free (bind p f).
Proof.
  intros Hp Hf.
  induction p as [a|e|o k IH|g args k IH|name k IH|name v k IH];
    simpl in *; auto.
  destruct Hp. auto.
Qed.

Lemma storage_free_eval (c : completion) : storage_free (eval c).
Proof. by destruct c. Qed.

Lemma storage_free_yield (f : callee) (args : list value) :
  is_storage_call f = false -> storage_free (yield f args).
Proof. intros Hf. split; [exact Hf|]. intros [v|e]; exact I. Qed.

Ltac storage_free known :=
  repeat first
    [ exact I
    | apply storage_free_eval
    | apply storage_free_yield; reflexivity
    | known
    | apply storage_free_bind; [| intros ?]
    | match goal with
      | |- storage_free (if ?b then _ else _) => destruct b
      | |- storage_free (match ?x with _ => _ end) => destruct x
      | |- forall _, _ => intros ?
      | |- _ /\ _ => split
      | |- _ = false => reflexivity
      end
    | progress simpl ].

Lemma storage_free_getM2Mtoken parentSpan :
  storage_free (getM2Mtoken config parentSpan).
Proof. unfold getM2Mtoken. storage_free fail. Qed.

Lemma storage_free_reqToSubmissionAPI reqType path reqBody parentSpan :
  storage_free (reqToSubmissionAPI js config reqType path reqBody parentSpan).
Proof.
  unfold reqToSubmissionAPI.
  storage_free ltac:(idtac; match goal with
                     | |- storage_free (getM2Mtoken _ _) =>
                         apply storage_free_getM2Mtoken
                     end).
Qed.

Lemma storage_free_getreviewTypeId reviewTypeName parentSpan :
  storage_free (getreviewTypeId js config reviewTypeName parentSpan).
Proof.
  unfold getreviewTypeId.
  storage_free ltac:(idtac; match goal with
                     | |- storage_free (reqToSubmissionAPI _ _ _ _ _ _) =>
                         apply storage_free_reqToSubmissionAPI
                     end).
Qed.

(** After the move, [processScan] makes no storage call: whatever the other
    collaborators answer, the storage is left as the move left it. *)
Lemma processScan_storage_after message span isInfected submissionId fileName
    (s : gmap string value) script cache body :
  payload_prop message "submissionId" = inl submissionId ->
  payload_prop message "fileName" = inl (VStr fileName) ->
  payload_prop message "isInfected" = inl isInfected ->
  let destination :=
    if truthy isInfected then QUARANTINE_BUCKET config else CLEAN_BUCKET config in
  s !! object_path (DMZ_BUCKET config) fileName = Some body ->
  (world_after (run (services_respond rejects_missing_source)
                  (processScan js config message span) (s, script) cache)).1
  = delete (object_path (DMZ_BUCKET config) fileName)
      (<[object_path destination fileName := body]> s).
Proof.
  intros HsubmissionId HfileName HisInfected destination Hsource.
  subst destination. unfold processScan, moveFile.
  destruct span as [sp|]; cbn -[reqToSubmissionAPI getreviewTypeId];
    rewrite HsubmissionId; cbn -[reqToSubmissionAPI getreviewTypeId];
    rewrite HfileName; cbn -[reqToSubmissionAPI getreviewTypeId];
    rewrite HisInfected; cbn -[reqToSubmissionAPI getreviewTypeId].
  all: destruct (truthy isInfected);
    cbn -[reqToSubmissionAPI getreviewTypeId].
  all: fold (object_path (DMZ_BUCKET config) fileName).
  all: rewrite Hsource; cbn -[reqToSubmissionAPI getreviewTypeId].
  all: rewrite !world_after_before, storage_free_run; [reflexivity|].
  all: storage_free ltac:(idtac; match goal with
                          | |- storage_free (reqToSubmissionAPI _ _ _ _ _ _) =>
                              apply storage_free_reqToSubmissionAPI
                          | |- storage_free (getreviewTypeId _ _ _ _) =>
                              apply storage_free_getreviewTypeId
                          end).
Qed.

(** Staging on the storage: the download goes under [/DMZ/id.fileType]. *)
Lemma processCreate_stages message span id fileType url response body
    scan_answer script (s : gmap string value) cache :
  payload_prop message "id" = inl id ->
  payload_prop message "resource" = inl (VStr "submission") ->
  payload_prop message "fileType" = inl fileType ->
  payload_prop message "url" = inl url ->
  amazonaws_test (to_str js url) = false ->
  get_prop response "data" = inl body ->
  let fileName := to_str js id +:+ "." +:+ to_str js fileType in
  let path := object_path (DMZ_BUCKET config) fileName in
  s !! path = None ->
  let r := run (services_respond rejects_missing_source)
             (processCreate js config message span)
             (s, inl response :: inl scan_answer :: script) cache in
  result r = Returned (VBool true)
  /\ world_after r = (<[path := body]> s, script)
  /\ reviewTypes_after r = cache.
Proof.
  intros Hid Hresource HfileType Hurl Hpattern Hdata fileName path Habsent.
  subst path fileName.
  unfold processCreate, downloadFile.
  destruct span as [sp|]; cbn; rewrite Hid; cbn; rewrite Hresource; cbn;
    rewrite HfileType; cbn; rewrite Hurl, Habsent; cbn;
    rewrite Hpattern; cbn; rewrite Hdata; cbn; done.
Qed.

(** X25. From the create message to the scan verdict, on the storage.
    For a file that is not in the DMZ area yet, a URL that does not match
    the storage pattern and a destination bucket other than the DMZ bucket:
    once [processCreate] has staged the download under [id.fileType], a
    [processScan] of the verdict for that file name leaves the content at
    the destination bucket under the same key and no longer in the DMZ
    bucket, and every other object as it was, whatever [reviewTypes] holds
    and whatever the token service and the submission API answer; a PATCH
    it sends goes to the submission and names the destination location. *)
Theorem create_then_scan_delivers_the_file created scanned_message span span'
    id fileType url response body submissionId isInfected scan_answer script
    (s : gmap string value) cache :
  payload_prop created "id" = inl id ->
  payload_prop created "resource" = inl (VStr "submission") ->
  payload_prop created "fileType" = inl fileType ->
  payload_prop created "url" = inl url ->
  amazonaws_test (to_str js url) = false ->
  get_prop response "data" = inl body ->
  let fileName := to_str js id +:+ "." +:+ to_str js fileType in
  s !! object_path (DMZ_BUCKET config) fileName = None ->
  payload_prop scanned_message "submissionId" = inl submissionId ->
  payload_prop scanned_message "fileName" = inl (VStr fileName) ->
  payload_prop scanned_message "isInfected" = inl isInfected ->
  let destination :=
    if truthy isInfected then QUARANTINE_BUCKET config else CLEAN_BUCKET config in
  destination <> DMZ_BUCKET config ->
  let staged :=
    run (services_respond rejects_missing_source)
        (processCreate js config created span)
        (s, inl response :: inl scan_answer :: script) cache in
  let moved :=
    run (services_respond rejects_missing_source)
        (processScan js config scanned_message span')
        (world_after staged) (reviewTypes_after staged) in
  let stored := (world_after moved).1 in
  result staged = Returned (VBool true)
  /\ stored !! object_path destination fileName = Some body
  /\ stored !! object_path (DMZ_BUCKET config) fileName = None
  /\ (forall path,
        path <> object_path destination fileName ->
        path <> object_path (DMZ_BUCKET config) fileName ->
        stored !! path = s !! path)
  /\ (forall args a,
        In (Req axios_patch args a) (events moved) ->
        exists tok,
          args = [VStr (SUBMISSION_API_URL config +:+ "/submissions/"
                        +:+ to_str js submissionId);
                  VObj [("url", VStr ("https://s3.amazonaws.com/"
                                      +:+ destination +:+ "/" +:+ fileName))];
                  VObj [("headers",
                         VObj [("Authorization",
                                VStr ("Bearer " +:+ to_str js tok))])]]).
Proof.
  intros Hid Hresource HfileType Hurl Hpattern Hdata fileName Habsent
    HsubmissionId HfileName HisInfected destination Hdistinct
    staged moved stored.
  assert (Hpaths : object_path destination fileName
                   <> object_path (DMZ_BUCKET config) fileName).
  { intros Heq. apply Hdistinct. by apply object_path_bucket in Heq. }
  destruct (processCreate_stages created span id fileType url response body
              scan_answer script s cache
              Hid Hresource HfileType Hurl Hpattern Hdata Habsent)
    as (Hresult & Hworld & Hcache).
  fold fileName in Hworld. fold staged in Hresult, Hworld, Hcache.
  split; [exact Hresult|].
  assert (Hstored : stored
                    = delete (object_path (DMZ_BUCKET config) fileName)
                        (<[object_path destination fileName := body]>
                           (<[object_path (DMZ_BUCKET config) fileName := body]>
                              s))).
  { subst stored moved. rewrite Hworld.
    apply (processScan_storage_after scanned_message span' isInfected
             submissionId fileName);
      [exact HsubmissionId | exact HfileName | exact HisInfected |].
    apply lookup_insert_eq. }
  rewrite Hstored.
  split; [by rewrite lookup_delete_ne, lookup_insert_eq|].
  split; [by rewrite lookup_delete_eq|].
  split.
  - intros path Hdest Hsource.
    by rewrite lookup_delete_ne, !lookup_insert_ne.
  - intros args a H.
    exact (processScan_patch_names_destination
             (services_respond rejects_missing_source) js config
             scanned_message span' isInfected submissionId (VStr fileName)
             _ _ args a HsubmissionId HfileName HisInfected H).
Qed.
End Pipeline.

(** ** The health check *)

Section HealthCheck.
Context {W : Type}.
Variable respond : W -> callee -> list value -> completion * W.

Lemma forEach_broker_run brokers (so_far : value) (b : bool) w cache :
  to_int32 so_far = Z.b2z b ->
  let r := run respond (forEach_broker brokers so_far) w cache in
  result r
  = Returned (match brokers with
              | [] => so_far
              | _ :: _ => VNum (Z.b2z (forallb connected brokers && b))
              end)
  /\ requests (events r) = []
  /\ length (logged debug (events r)) = length brokers
  /\ world_after r = w.
Proof.
  revert so_far b.
  induction brokers as [|conn rest IH]; intros so_far b Hso_far; [done|].
  cbn [forEach_broker]. cbn -[to_int32 forEach_broker Z.land].
  rewrite Hso_far.
  assert (Hland : Z.land (to_int32 (VBool (connected conn))) (Z.b2z b)
                  = Z.b2z (connected conn && b))
    by (by destruct (connected conn), b).
  rewrite Hland.
  destruct (IH (VNum (Z.b2z (connected conn && b))) (connected conn && b))
    as (Hresult & Hrequests & Hlogged & Hworld).
  { by destruct (connected conn), b. }
  rewrite result_before, events_before, world_after_before.
  rewrite Hresult, Hworld. cbn [app requests logged length].
  rewrite Hrequests, Hlogged.
  repeat split.
  destruct rest as [|conn' rest]; cbn [forallb]; [by rewrite andb_true_r|].
  do 3 f_equal.
  by destruct (connected conn), (connected conn'), (forallb connected rest), b.
Qed.

(** X26. The health check answers truthy exactly when every broker
    connection is connected, and so also when there is no broker at all:
    with no broker it returns [true], otherwise the number 1 or 0, after
    one debug line per broker.  It calls no collaborator.  With
    [initialBrokers] undefined the guard itself throws a [TypeError]. *)
Theorem check_truthy_iff_all_connected brokers w cache :
  let r := run respond (check (Some brokers)) w cache in
  result r
  = Returned (match brokers with
              | [] => VBool true
              | _ :: _ => VNum (Z.b2z (forallb connected brokers))
              end)
  /\ (forall v, result r = Returned v -> truthy v = forallb connected brokers)
  /\ requests (events r) = []
  /\ length (logged debug (events r)) = length brokers
  /\ (exists message,
        result (run respond (check None) w cache) = Thrown (TypeError message)).
Proof.
  intros r. subst r. unfold check.
  destruct (forEach_broker_run brokers (VBool true) true w cache eq_refl)
    as (Hresult & Hrequests & Hlogged & _).
  rewrite Hresult, Hrequests, Hlogged.
  repeat split.
  - destruct brokers; [done|]. by rewrite andb_true_r.
  - intros v [= <-].
    destruct brokers as [|conn rest]; [done|].
    rewrite andb_true_r. by destruct (forallb connected (conn :: rest)).
  - by eexists.
Qed.
End HealthCheck.

(** ** Examples for the further properties *)

Lemma getreviewTypeId_keeps_cached_ids_witness :
  let cache : gmap string value := {["Virus Scan" := VStr "rt-virus-scan"]} in
  truthy (object_get cache "Virus Scan") = true
  /\ object_get
       (reviewTypes_after
          (run script_respond
             (getreviewTypeId test_js test_config "Appeal" "span")
             [token; review_types [VObj [("id", VStr "rt-appeal")]]] cache))
       "Virus Scan"
     = VStr "rt-virus-scan".
Proof.
  intros cache.
  assert (Hcached : truthy (object_get cache "Virus Scan") = true)
    by (vm_compute; reflexivity).
  split; [exact Hcached|].
  rewrite (getreviewTypeId_keeps_cached_ids script_respond test_js test_config
             "Appeal" "span" "Virus Scan"
             [token; review_types [VObj [("id", VStr "rt-appeal")]]] cache
             Hcached).
  vm_compute. reflexivity.
Defined.

Lemma getreviewTypeId_failure_caches_nothing_witness :
  let r := run script_respond
             (getreviewTypeId test_js test_config "Virus Scan" "span")
             [token; abrupt unauthorized] ∅ in
  result r = Thrown unauthorized /\ reviewTypes_after r = ∅.
Proof.
  intros r.
  assert (Hthrown : result r = Thrown unauthorized) by (vm_compute; reflexivity).
  split; [exact Hthrown|].
  exact (getreviewTypeId_failure_caches_nothing script_respond test_js
           test_config "Virus Scan" "span" [token; abrupt unauthorized] ∅
           unauthorized Hthrown).
Defined.

Lemma processCreate_scans_only_what_is_staged_witness :
  let r := run script_respond
             (processCreate test_js test_config
                (create_envelope "http://host/file.zip") None)
             create_script ∅ in
  let scan := Req axios_post
                (scan_request test_config (VStr "abc123") "abc123.zip")
                fulfilled in
  In scan (events r)
  /\ exists pre f fargs v,
       requests (events r) = pre ++ [Req f fargs (inl v); scan]
       /\ (f = s3_getObject /\ pre = [] \/ f = s3_upload).
Proof.
  intros r scan.
  assert (Hin : In scan (events r)).
  { vm_compute. repeat (first [left; reflexivity | right]). }
  split; [exact Hin|].
  exact (processCreate_scans_only_what_is_staged script_respond test_js
           test_config (create_envelope "http://host/file.zip") None
           create_script ∅
           (scan_request test_config (VStr "abc123") "abc123.zip") fulfilled
           Hin).
Defined.

Lemma processCreate_ignores_other_resources_witness :
  let r := run script_respond
             (processCreate test_js test_config review_envelope None)
             [fulfilled] ∅ in
  strict_eq_str (VStr "review") "submission" = false
  /\ prints (VStr "review") = true
  /\ result r = Returned (VBool false)
  /\ requests (events r) = []
  /\ world_after r = [fulfilled]
  /\ logged info (events r)
     = [VStr "Ignoring messages of resource type: review"].
Proof.
  intros r. split; [reflexivity|]. split; [reflexivity|].
  destruct (processCreate_ignores_other_resources script_respond test_js
              test_config review_envelope None (VStr "r-1") (VStr "review")
              VUndefined [fulfilled] ∅ eq_refl eq_refl eq_refl eq_refl eq_refl)
    as (Hresult & Hrequests & Hworld & Hlogged).
  exact (conj Hresult (conj Hrequests (conj Hworld Hlogged))).
Defined.

Lemma processCreate_rethrows_probe_error_witness :
  let r := run script_respond
             (processCreate test_js test_config
                (create_envelope "http://host/file.zip") None)
             [abrupt AccessDenied; fulfilled; fulfilled] ∅ in
  strict_eq_num (VNum 403) 404 = false
  /\ result r = Thrown AccessDenied
  /\ requests (events r)
     = [Req s3_getObject (dmz_probe test_config "abc123.zip")
          (abrupt AccessDenied)].
Proof.
  intros r. split; [reflexivity|].
  exact (processCreate_rethrows_probe_error script_respond test_js test_config
           (create_envelope "http://host/file.zip") None (VStr "abc123")
           (VStr "zip") AccessDenied (VNum 403)
           [abrupt AccessDenied; fulfilled; fulfilled] [fulfilled; fulfilled] ∅
           eq_refl eq_refl eq_refl eq_refl eq_refl eq_refl).
Defined.

Lemma processCreate_failed_staging_is_not_scanned_witness :
  let message := create_envelope "http://host/file.zip" in
  let r := run script_respond (processCreate test_js test_config message None)
             [not_found; abrupt unauthorized; fulfilled; fulfilled] ∅ in
  let r' := run script_respond (processCreate test_js test_config message None)
              [not_found; normal (VObj [("data", downloaded)]);
               abrupt AccessDenied; fulfilled] ∅ in
  (result r = Thrown unauthorized
   /\ calls_to s3_upload (events r) = []
   /\ calls_to axios_post (events r) = [])
  /\ (result r' = Thrown AccessDenied
      /\ calls_to axios_post (events r') = []).
Proof.
  intros message r r'.
  destruct (processCreate_failed_staging_is_not_scanned script_respond test_js
              test_config message None (VStr "abc123") (VStr "zip")
              (VStr "http://host/file.zip") NoSuchKey
              [not_found; abrupt unauthorized; fulfilled; fulfilled]
              [abrupt unauthorized; fulfilled; fulfilled] ∅
              eq_refl eq_refl eq_refl eq_refl eq_refl eq_refl)
    as [Hdownload _].
  destruct (Hdownload unauthorized eq_refl) as [Hresult Hrequests].
  destruct (processCreate_failed_staging_is_not_scanned script_respond test_js
              test_config message None (VStr "abc123") (VStr "zip")
              (VStr "http://host/file.zip") NoSuchKey
              [not_found; normal (VObj [("data", downloaded)]);
               abrupt AccessDenied; fulfilled]
              [normal (VObj [("data", downloaded)]);
               abrupt AccessDenied; fulfilled] ∅
              eq_refl eq_refl eq_refl eq_refl eq_refl eq_refl)
    as [_ Hupload].
  destruct (Hupload downloaded AccessDenied [fulfilled] eq_refl eq_refl)
    as [Hresult' Hrequests'].
  split.
  - split; [exact Hresult|].
    rewrite <- !(calls_to_requests _ (events r)). subst r.
    rewrite Hrequests. split; vm_compute; reflexivity.
  - split; [exact Hresult'|].
    rewrite <- !(calls_to_requests _ (events r')). subst r'.
    rewrite Hrequests'. vm_compute. reflexivity.
Defined.

Lemma reqToSubmissionAPI_sends_nothing_without_token_witness :
  let r := run script_respond
             (reqToSubmissionAPI test_js test_config "POST"
                "https://api.example.com/v5/reviews" (VObj []) "span")
             [abrupt unauthorized; fulfilled] ∅ in
  result r = Thrown unauthorized /\ http_calls (events r) = [].
Proof.
  intros r.
  destruct (reqToSubmissionAPI_sends_nothing_without_token script_respond
              test_js test_config "POST" "https://api.example.com/v5/reviews"
              (VObj []) "span" unauthorized
              [abrupt unauthorized; fulfilled] [fulfilled] ∅ eq_refl)
    as (Hresult & _ & Hhttp).
  exact (conj Hresult Hhttp).
Defined.

Lemma reqToSubmissionAPI_other_method_sends_nothing_witness :
  let r := run script_respond
             (reqToSubmissionAPI test_js test_config "DELETE"
                "https://api.example.com/v5/reviews/1" (VObj []) "span")
             [token; fulfilled] ∅ in
  result r = Returned VUndefined
  /\ http_calls (events r) = []
  /\ world_after r = [fulfilled].
Proof.
  intros r.
  destruct (reqToSubmissionAPI_other_method_sends_nothing script_respond
              test_js test_config "DELETE"
              "https://api.example.com/v5/reviews/1" (VObj []) "span"
              (VStr "t0k3n") [token; fulfilled] [fulfilled] ∅)
    as (Hresult & _ & Hhttp); [discriminate.. | reflexivity |].
  split; [exact Hresult|]. split; [exact Hhttp|]. reflexivity.
Defined.

Lemma reqToSubmissionAPI_one_call_with_fresh_token_witness :
  let stored := VObj [("data", VArr [])] in
  let r := run script_respond
             (reqToSubmissionAPI test_js test_config "GET"
                "https://api.example.com/v5/reviewTypes" (VObj []) "span")
             [token; normal stored] ∅ in
  result r = Returned stored
  /\ requests (events r)
     = [Req m2m_getMachineToken (token_request test_config) token;
        Req axios_get
          [VStr "https://api.example.com/v5/reviewTypes";
           VObj [("headers",
                  VObj [("Authorization", VStr "Bearer t0k3n")])]]
          (normal stored)].
Proof.
  intros stored r.
  destruct (reqToSubmissionAPI_one_call_with_fresh_token script_respond
              test_js test_config "https://api.example.com/v5/reviewTypes"
              (VObj []) "span" (VStr "t0k3n")
              [token; normal stored] [normal stored] ∅ eq_refl)
    as (_ & _ & Hrequests & Hresult).
  exact (conj Hresult Hrequests).
Defined.

Lemma getreviewTypeId_inherited_name_is_not_looked_up_witness :
  let r := run script_respond
             (getreviewTypeId test_js test_config "constructor" "span")
             [token; review_types [virus_scan_type]] ∅ in
  In "constructor" Object_prototype_names
  /\ result r = Returned (VBuiltin "constructor")
  /\ requests (events r) = [].
Proof.
  intros r.
  assert (Hin : In "constructor" Object_prototype_names)
    by (left; reflexivity).
  split; [exact Hin|].
  destruct (getreviewTypeId_inherited_name_is_not_looked_up script_respond
              test_js test_config "constructor" "span"
              [token; review_types [virus_scan_type]] ∅ Hin)
    as (Hresult & Hrequests & _); [vm_compute; reflexivity|].
  exact (conj Hresult Hrequests).
Defined.

Lemma getreviewTypeId_falsy_id_is_looked_up_again_witness :
  let nameless := VObj [("name", VStr "Virus Scan")] in
  let script := [token; review_types [nameless];
                 token; review_types [nameless]] in
  let r1 := run script_respond
              (getreviewTypeId test_js test_config "Virus Scan" "first")
              script ∅ in
  let r2 := run script_respond
              (getreviewTypeId test_js test_config "Virus Scan" "second")
              (world_after r1) (reviewTypes_after r1) in
  get_prop nameless "id" = inl VUndefined
  /\ result r1 = Returned VUndefined
  /\ reviewTypes_after r1 = {["Virus Scan" := VUndefined]}
  /\ length (calls_to axios_get (events r2)) = 1%nat.
Proof.
  intros nameless script r1 r2.
  assert (Hmiss : truthy (object_get ∅ "Virus Scan") = false)
    by (vm_compute; reflexivity).
  split; [reflexivity|].
  destruct (getreviewTypeId_falsy_id_is_looked_up_again script_respond test_js
              test_config "Virus Scan" "first" "second" script ∅
              (VStr "t0k3n") (VObj [("data", VArr [nameless])]) nameless []
              VUndefined [token; review_types [nameless]]
              (VStr "t0k3n") (VObj [("data", VArr [nameless])]) [] Hmiss)
    as (Hresult & Hcache & Hagain);
    [ cbn; repeat (eexists; split; [reflexivity|]); reflexivity
    | reflexivity | reflexivity | reflexivity
    | cbn; repeat (eexists; split; [reflexivity|]); reflexivity |].
  split; [exact Hresult|]. split; [exact Hcache|].
  subst r2 r1. rewrite Hagain. reflexivity.
Defined.

Lemma handle_drops_topic_mismatch_witness :
  let m := kafka 5 text_scan in
  let r := run script_respond
             (handle test_js test_config "submission.notification.create" 0 m)
             [fulfilled] ∅ in
  strict_eq_str (VStr "avscan.action.scan") "submission.notification.create"
  = false
  /\ prints (VStr "avscan.action.scan") = true
  /\ result r = Returned tt
  /\ requests (events r) = []
  /\ commits (events r) = []
  /\ logged error (events r)
     = [VStr "The message topic avscan.action.scan doesn't match the Kafka topic submission.notification.create."].
Proof.
  intros m r. split; [reflexivity|]. split; [reflexivity|].
  destruct (handle_drops_topic_mismatch script_respond test_js test_config
              "submission.notification.create" 0 m (scan_envelope true)
              (VStr "avscan.action.scan") [fulfilled] ∅
              eq_refl eq_refl eq_refl eq_refl)
    as (Hresult & Hrequests & Hcommits & _ & Hlogged).
  exact (conj Hresult (conj Hrequests (conj Hcommits Hlogged))).
Defined.

Lemma handle_skips_unscanned_witness :
  let m := kafka 6 text_pending in
  let r := run script_respond
             (handle more_js test_config "avscan.action.scan" 0 m)
             [fulfilled] ∅ in
  JSON_parse more_js (Buffer_toString_utf8 more_js (message_value m))
  = Parsed envelope_pending
  /\ prints (VStr "pending") = true
  /\ result r = Returned tt
  /\ requests (events r) = []
  /\ commits (events r) = []
  /\ logged error (events r) = []
  /\ logged debug (events r)
     = [VStr "Ignoring message in topic avscan.action.scan with status pending"].
Proof.
  intros m r.
  assert (Hparse : JSON_parse more_js
                     (Buffer_toString_utf8 more_js (message_value m))
                   = Parsed envelope_pending) by (vm_compute; reflexivity).
  split; [exact Hparse|]. split; [reflexivity|].
  destruct (handle_skips_unscanned script_respond more_js test_config 0 m
              envelope_pending (VStr "pending") [fulfilled] ∅
              Hparse eq_refl eq_refl eq_refl eq_refl)
    as (Hresult & Hrequests & Hcommits & _ & Hlogged & Hdebug).
  exact (conj Hresult (conj Hrequests (conj Hcommits (conj Hlogged Hdebug)))).
Defined.

Lemma handle_skips_url_submissions_witness :
  let m := kafka 7 text_url_submission in
  let r := run script_respond
             (handle more_js test_config "submission.notification.create" 0 m)
             [fulfilled] ∅ in
  JSON_parse more_js (Buffer_toString_utf8 more_js (message_value m))
  = Parsed envelope_url_submission
  /\ result r = Returned tt
  /\ requests (events r) = []
  /\ commits (events r) = []
  /\ logged error (events r) = [].
Proof.
  intros m r.
  assert (Hparse : JSON_parse more_js
                     (Buffer_toString_utf8 more_js (message_value m))
                   = Parsed envelope_url_submission)
    by (vm_compute; reflexivity).
  split; [exact Hparse|].
  destruct (handle_skips_url_submissions script_respond more_js test_config 0 m
              envelope_url_submission [fulfilled] ∅)
    as (Hresult & Hrequests & Hcommits & _ & Hlogged & _);
    [discriminate | exact Hparse | reflexivity | reflexivity |].
  exact (conj Hresult (conj Hrequests (conj Hcommits Hlogged))).
Defined.

Lemma handle_unknown_topic_is_logged_witness :
  let m := kafka 8 text_other_topic in
  let r := run script_respond
             (handle more_js test_config "challenge.notification.create" 0 m)
             [fulfilled] ∅ in
  JSON_parse more_js (Buffer_toString_utf8 more_js (message_value m))
  = Parsed envelope_other_topic
  /\ result r = Returned tt
  /\ requests (events r) = []
  /\ commits (events r) = []
  /\ logged error (events r)
     = [Error "Invalid topic: challenge.notification.create"].
Proof.
  intros m r.
  assert (Hparse : JSON_parse more_js
                     (Buffer_toString_utf8 more_js (message_value m))
                   = Parsed envelope_other_topic) by (vm_compute; reflexivity).
  split; [exact Hparse|].
  destruct (handle_unknown_topic_is_logged script_respond more_js test_config
              "challenge.notification.create" 0 m envelope_other_topic
              [fulfilled] ∅)
    as (Hresult & Hrequests & Hcommits & _ & Hlogged);
    [discriminate | discriminate | exact Hparse | reflexivity |].
  exact (conj Hresult (conj Hrequests (conj Hcommits Hlogged))).
Defined.

Lemma handle_absorbs_workflow_error_witness :
  let m := kafka 42 text_scan in
  let r := run script_respond
             (handle test_js test_config "avscan.action.scan" 0 m)
             [not_found] ∅ in
  accepted test_js test_config "avscan.action.scan" m
  = Some (scan_envelope true)
  /\ result r = Returned tt
  /\ commits (events r) = []
  /\ logged error (events r) = [NoSuchKey].
Proof.
  intros m r.
  assert (Haccepted : accepted test_js test_config "avscan.action.scan" m
                      = Some (scan_envelope true))
    by (vm_compute; reflexivity).
  split; [exact Haccepted|].
  destruct (handle_absorbs_workflow_error script_respond test_js test_config
              "avscan.action.scan" 0 m (scan_envelope true) NoSuchKey
              [not_found] ∅ Haccepted)
    as (Hcommits & _ & _ & Hresult & Hlogged); [vm_compute; reflexivity|].
  split; [exact Hresult|]. split; [exact Hcommits|].
  subst r. rewrite Hlogged. vm_compute. reflexivity.
Defined.

Lemma dataHandler_stops_at_message_without_payload_witness :
  let batch := [kafka 7 text_without_payload; kafka 8 text_scan] in
  let r := run script_respond
             (dataHandler test_js test_config batch "avscan.action.scan" 0)
             (scan_script [virus_scan_type]) ∅ in
  (exists message, result r = Thrown (TypeError message))
  /\ requests (events r) = []
  /\ commits (events r) = [].
Proof.
  intros batch r.
  destruct (dataHandler_stops_at_message_without_payload script_respond test_js
              test_config "avscan.action.scan" 0 (kafka 7 text_without_payload)
              [kafka 8 text_scan] envelope_without_payload VUndefined
              (scan_script [virus_scan_type]) ∅
              eq_refl eq_refl eq_refl (or_introl eq_refl) (or_introl eq_refl))
    as (Hthrown & _ & Hrequests & Hcommits).
  exact (conj Hthrown (conj Hrequests Hcommits)).
Defined.

Lemma processScan_patches_after_move_reviews_after_patch_witness :
  let r := run script_respond
             (processScan test_js test_config (scan_envelope true) None)
             (scan_script [virus_scan_type]) ∅ in
  let review :=
    [VStr "https://api.example.com/v5/reviews";
     review_body (VBool true) (VStr "reviewer-1") (VStr "abc123")
                 (VStr "rt-virus-scan");
     bearer test_js (VStr "t0k3n")] in
  In (Req axios_post review fulfilled) (events r)
  /\ exists copied deleted tok patch patched between,
       requests (events r)
       = [Req s3_copyObject
            (copy_request test_js (VStr "dmz") (VStr "abc123.zip")
                          (VStr "quarantine") (VStr "abc123.zip"))
            (inl copied);
          Req s3_deleteObject
            (delete_request (VStr "dmz") (VStr "abc123.zip")) (inl deleted);
          Req m2m_getMachineToken (token_request test_config) (inl tok);
          Req axios_patch patch (inl patched)]
         ++ between ++ [Req axios_post review fulfilled].
Proof.
  intros r review.
  assert (Hin : In (Req axios_post review fulfilled) (events r)).
  { vm_compute. repeat (first [left; reflexivity | right]). }
  split; [exact Hin|].
  pose proof (processScan_patches_after_move_reviews_after_patch
                script_respond test_js test_config (scan_envelope true) None
                (VBool true) (VStr "abc123") (VStr "abc123.zip")
                (scan_script [virus_scan_type]) ∅ eq_refl eq_refl eq_refl)
    as [_ Hpost].
  specialize (Hpost review fulfilled Hin).
  vm_compute in Hpost |- *. exact Hpost.
Defined.

Lemma processScan_failed_patch_leaves_the_move_witness :
  let r := run script_respond
             (processScan test_js test_config (scan_envelope false) None)
             [fulfilled; fulfilled; token; abrupt unauthorized; fulfilled] ∅ in
  result r = Thrown unauthorized
  /\ calls_to axios_post (events r) = []
  /\ length (requests (events r)) = 4%nat
  /\ world_after r = [fulfilled].
Proof.
  intros r.
  destruct (processScan_failed_patch_leaves_the_move script_respond test_js
              test_config (scan_envelope false) None (VBool false)
              (VStr "abc123") (VStr "abc123.zip") (VObj []) (VObj [])
              (VStr "t0k3n") unauthorized
              [fulfilled; fulfilled; token; abrupt unauthorized; fulfilled]
              [fulfilled] ∅ eq_refl eq_refl eq_refl)
    as (Hresult & Hrequests & Hworld & _);
    [cbn; repeat (eexists; split; [reflexivity|]); reflexivity|].
  split; [exact Hresult|].
  rewrite <- (calls_to_requests _ (events r)). subst r. rewrite Hrequests.
  split; [reflexivity|]. split; [reflexivity|]. exact Hworld.
Defined.

Lemma moveFile_moves_one_object_witness :
  let s : gmap string value :=
    {["/dmz/abc123.zip" := downloaded; "/dmz/other.zip" := VBuffer []]} in
  let after :=
    world_after (run (s3_respond true)
                   (moveFile test_js (VStr "dmz") (VStr "abc123.zip")
                             (VStr "clean") (VStr "abc123.zip") "span") s ∅) in
  s !! object_path "dmz" "abc123.zip" = Some downloaded
  /\ after !! "/clean/abc123.zip" = Some downloaded
  /\ after !! "/dmz/abc123.zip" = None
  /\ after !! "/dmz/other.zip" = Some (VBuffer []).
Proof.
  intros s after.
  assert (Hsource : s !! object_path "dmz" "abc123.zip" = Some downloaded)
    by (vm_compute; reflexivity).
  split; [exact Hsource|].
  destruct (moveFile_moves_one_object test_js true "dmz" "abc123.zip" "clean"
              "abc123.zip" "span" s ∅ downloaded Hsource)
    as (Htarget & Hgone & Hothers); [discriminate|].
  split; [exact Htarget|]. split; [exact Hgone|].
  subst after. rewrite (Hothers "/dmz/other.zip"); [|discriminate..].
  vm_compute. reflexivity.
Defined.

Lemma downloadFile_reads_the_storage_witness :
  let url := VStr "https://s3.amazonaws.com/uploads/abc123.zip" in
  let s : gmap string value := {["/uploads/abc123.zip" := downloaded]} in
  amazonaws_test (to_str test_js url) = true
  /\ result (run (s3_respond true) (downloadFile test_js url "span") s ∅)
     = Returned downloaded
  /\ result (run (s3_respond true) (downloadFile test_js url "span") ∅ ∅)
     = Thrown NoSuchKey.
Proof.
  intros url s. split; [reflexivity|]. split.
  - rewrite (proj1 (downloadFile_reads_the_storage test_js true url "span"
                      (VObj [("bucket", VStr "uploads");
                             ("key", VStr "abc123.zip")])
                      "uploads" "abc123.zip" s ∅
                      eq_refl eq_refl eq_refl eq_refl)).
    vm_compute. reflexivity.
  - rewrite (proj1 (downloadFile_reads_the_storage test_js true url "span"
                      (VObj [("bucket", VStr "uploads");
                             ("key", VStr "abc123.zip")])
                      "uploads" "abc123.zip" ∅ ∅
                      eq_refl eq_refl eq_refl eq_refl)).
    vm_compute. reflexivity.
Defined.

Lemma processCreate_staging_survives_redelivery_witness :
  let message := create_envelope "http://host/file.zip" in
  let first :=
    run (services_respond true) (processCreate test_js test_config message None)
        (∅, [inl (VObj [("data", downloaded)]); inl (VObj []); inl (VObj [])])
        ∅ in
  let again :=
    run (services_respond true) (processCreate test_js test_config message None)
        (world_after first) (reviewTypes_after first) in
  amazonaws_test (to_str test_js (VStr "http://host/file.zip")) = false
  /\ (world_after first).1 = {["/dmz/abc123.zip" := downloaded]}
  /\ (world_after again).1 = {["/dmz/abc123.zip" := downloaded]}
  /\ calls_to axios_get (events again) = []
  /\ calls_to s3_upload (events again) = []
  /\ length (calls_to axios_post (events again)) = 1%nat.
Proof.
  intros message first again. split; [reflexivity|].
  destruct (processCreate_staging_survives_redelivery test_js test_config true
              message None (VStr "abc123") (VStr "zip")
              (VStr "http://host/file.zip") (VObj [("data", downloaded)])
              downloaded (VObj []) (VObj []) ∅ ∅
              eq_refl eq_refl eq_refl eq_refl eq_refl eq_refl)
    as (_ & Hfirst & _ & Hagain & Hrequests); [vm_compute; reflexivity|].
  split; [exact Hfirst|]. split; [exact Hagain|].
  rewrite <- !(calls_to_requests _ (events again)). subst again first.
  rewrite Hrequests. repeat split.
Defined.

Lemma create_then_scan_delivers_the_file_witness :
  let staged :=
    run (services_respond true)
        (processCreate test_js test_config
           (create_envelope "http://host/file.zip") None)
        (∅, [inl (VObj [("data", downloaded)]); inl (VObj []);
             inl (VStr "t0k3n"); inl (VObj []); inl (VStr "reviewer-1");
             inl (VStr "t0k3n"); inl (VObj [("data", VArr [])]);
             inl (VStr "t0k3n"); inl (VObj [])]) ∅ in
  let moved :=
    run (services_respond true)
        (processScan test_js test_config (scan_envelope true) None)
        (world_after staged) (reviewTypes_after staged) in
  amazonaws_test (to_str test_js (VStr "http://host/file.zip")) = false
  /\ test_config.(QUARANTINE_BUCKET) <> test_config.(DMZ_BUCKET)
  /\ result staged = Returned (VBool true)
  /\ (world_after moved).1 !! "/quarantine/abc123.zip" = Some downloaded
  /\ (world_after moved).1 !! "/dmz/abc123.zip" = None
  /\ result moved = Returned VUndefined
  /\ calls_to axios_patch (events moved)
     = [Req axios_patch
          [VStr "https://api.example.com/v5/submissions/abc123";
           VObj [("url",
                  VStr "https://s3.amazonaws.com/quarantine/abc123.zip")];
           VObj [("headers", VObj [("Authorization", VStr "Bearer t0k3n")])]]
          (inl (VObj []))].
Proof.
  intros staged moved.
  assert (Hdistinct : test_config.(QUARANTINE_BUCKET)
                      <> test_config.(DMZ_BUCKET)) by discriminate.
  split; [reflexivity|]. split; [exact Hdistinct|].
  destruct (create_then_scan_delivers_the_file test_js test_config true
              (create_envelope "http://host/file.zip") (scan_envelope true)
              None None (VStr "abc123") (VStr "zip")
              (VStr "http://host/file.zip") (VObj [("data", downloaded)])
              downloaded (VStr "abc123") (VBool true) (VObj [])
              [inl (VStr "t0k3n"); inl (VObj []); inl (VStr "reviewer-1");
               inl (VStr "t0k3n"); inl (VObj [("data", VArr [])]);
               inl (VStr "t0k3n"); inl (VObj [])] ∅ ∅
              eq_refl eq_refl eq_refl eq_refl eq_refl eq_refl)
    as (Hresult & Htarget & Hgone & _ & _);
    [ vm_compute; reflexivity | reflexivity | reflexivity | reflexivity
    | exact Hdistinct |].
  split; [exact Hresult|]. split; [exact Htarget|]. split; [exact Hgone|].
  split; vm_compute; reflexivity.
Defined.
